(** * The fmu30 template engine of the FMU SDK

    A shallow embedding of [src/fmu30/include/fmu3Template.h] and
    [src/fmu30/include/fmu3Template.c] (the generic engine every model
    includes), together with the models [Dahlquist], [BouncingBall],
    [Values] and [LinearTransform] that instantiate it.

    Modelling conventions:
    - [fmi3Real] is a C [double]: Rocq's primitive binary64 [float], with the
      IEEE operations and comparisons of [PrimFloat];
    - [fmi3ValueReference] is an [unsigned int]: an [N]; [size_t] counters
      and array indices are [nat];
    - an array argument is an [option (list _)], [None] being the NULL
      pointer; its declared length ([nvr], [nx], ...) is a separate argument,
      as in the C signatures;
    - the instance, the host's log and the model's process-wide globals form
      a [World]; every function is a state transformer over it that yields
      [None] where the C code has no defined behaviour (an access outside an
      array or a block, a NULL dereference, a load at another type than the
      last store);
    - the host callbacks are those of [src/fmu30/fmurun.c]: what the logger
      does is modelled by the sequence of its calls, [allocateMemory] is
      [calloc] and succeeds. *)

From Stdlib Require Import ZArith NArith List String Ascii Bool Lia.
From Stdlib Require Import Floats.PrimFloat.
Import ListNotations.
Local Open Scope string_scope.
Local Open Scope list_scope.
Local Open Scope nat_scope.

Set Implicit Arguments.
Set Warnings "-inexact-float".

(* ------------------------------------------------------------------------- *)
(** ** Types of the FMI headers *)
(* ------------------------------------------------------------------------- *)

(** Modelled from the spec: [fmi3Functions.h] and the headers it includes are
    not among the sources.  [fmi3Status] is the status every operation
    returns; the spec names an error status, a discard status and a
    never-produced pending status, and the engine's code uses these six
    names. *)
Inductive fmi3Status : Type :=
| fmi3OK | fmi3Warning | fmi3Discard | fmi3Error | fmi3Fatal | fmi3Pending.

(** Modelled from the spec: [fmi3Type] of the missing headers, the two driving
    modes (model exchange, co-simulation). *)
Inductive fmi3Type : Type := fmi3ModelExchange | fmi3CoSimulation.

(** Modelled from the spec: [fmi3StatusKind] of the missing headers, what the
    get-status family is asked for; in this order, [getStatus] indexing a
    table of names with it. *)
Inductive fmi3StatusKind : Type :=
| fmi3DoStepStatus | fmi3PendingStatus | fmi3LastSuccessfulTime | fmi3Terminated.

(** Modelled from the spec: the primitive kinds of the missing
    [fmi3TypesPlatform.h] (real, integer, boolean, text) and the value
    reference, "a small non-negative integer handle".  A boolean has the two
    values [fmi3True] and [fmi3False]. *)
Definition fmi3Boolean : Type := bool.
Definition fmi3True : fmi3Boolean := true.
Definition fmi3False : fmi3Boolean := false.
Definition fmi3Real : Type := float.
Definition fmi3Integer : Type := Z.
Definition fmi3String : Type := string.
Definition fmi3ValueReference : Type := N.

(** Modelled from the spec: [fmi3EventInfo] of the missing headers, the
    event-info record with its flags and the next scheduled time, under the
    field names the engine's code uses. *)
Record fmi3EventInfo : Type := mkEventInfo {
  newDiscreteStatesNeeded : fmi3Boolean;
  terminateSimulation : fmi3Boolean;
  nominalsOfContinuousStatesChanged : fmi3Boolean;
  valuesOfContinuousStatesChanged : fmi3Boolean;
  nextEventTimeDefined : fmi3Boolean;
  nextEventTime : fmi3Real
}.

(** Modelled from the spec: [fmi3CallbackFunctions] of the missing headers,
    the host-supplied callback bundle (logger, allocator, deallocator,
    step-finished notifier); here, which of the function pointers are not
    NULL. *)
Record fmi3CallbackFunctions : Type := mkCallbacks {
  logger : bool;
  allocateMemory : bool;
  freeMemory : bool;
  stepFinished : bool
}.

Definition status_eqb (a b : fmi3Status) : bool :=
  match a, b with
  | fmi3OK, fmi3OK | fmi3Warning, fmi3Warning | fmi3Discard, fmi3Discard
  | fmi3Error, fmi3Error | fmi3Fatal, fmi3Fatal | fmi3Pending, fmi3Pending => true
  | _, _ => false
  end.

(* ------------------------------------------------------------------------- *)
(** ** fmu3Template.h: logging categories, states and masks *)
(* ------------------------------------------------------------------------- *)

Definition LOG_ALL : nat := 0.
Definition LOG_ERROR : nat := 1.
Definition LOG_FMI_CALL : nat := 2.
Definition LOG_EVENT : nat := 3.
Definition NUMBER_OF_CATEGORIES : nat := 4.

Inductive ModelState : Type :=
| modelStartAndEnd
| modelInstantiated
| modelInitializationMode
| modelEventMode
| modelContinuousTimeMode
| modelStepComplete
| modelStepInProgress
| modelStepFailed
| modelStepCanceled
| modelTerminated
| modelError
| modelFatal.

(** The enumerators' values, [1<<0] ... [1<<11]. *)
Definition ModelState_bits (s : ModelState) : Z :=
  match s with
  | modelStartAndEnd => Z.shiftl 1 0
  | modelInstantiated => Z.shiftl 1 1
  | modelInitializationMode => Z.shiftl 1 2
  | modelEventMode => Z.shiftl 1 3
  | modelContinuousTimeMode => Z.shiftl 1 4
  | modelStepComplete => Z.shiftl 1 5
  | modelStepInProgress => Z.shiftl 1 6
  | modelStepFailed => Z.shiftl 1 7
  | modelStepCanceled => Z.shiftl 1 8
  | modelTerminated => Z.shiftl 1 9
  | modelError => Z.shiftl 1 10
  | modelFatal => Z.shiftl 1 11
  end.

Coercion ModelState_bits : ModelState >-> Z.

Declare Scope mask_scope.
Delimit Scope mask_scope with mask.
Notation "a .| b" := (Z.lor a b) (at level 50, left associativity) : mask_scope.
Local Open Scope mask_scope.

Definition MASK_fmi3GetTypesPlatform : Z :=
  modelStartAndEnd .| modelInstantiated .| modelInitializationMode
  .| modelEventMode .| modelContinuousTimeMode
  .| modelStepComplete .| modelStepInProgress .| modelStepFailed .| modelStepCanceled
  .| modelTerminated .| modelError.
Definition MASK_fmi3GetVersion : Z := MASK_fmi3GetTypesPlatform.
Definition MASK_fmi3SetDebugLogging : Z :=
  modelInstantiated .| modelInitializationMode
  .| modelEventMode .| modelContinuousTimeMode
  .| modelStepComplete .| modelStepInProgress .| modelStepFailed .| modelStepCanceled
  .| modelTerminated .| modelError.
Definition MASK_fmi3Instantiate : Z := modelStartAndEnd.
Definition MASK_fmi3FreeInstance : Z :=
  modelInstantiated .| modelInitializationMode
  .| modelEventMode .| modelContinuousTimeMode
  .| modelStepComplete .| modelStepFailed .| modelStepCanceled
  .| modelTerminated .| modelError.
Definition MASK_fmi3SetupExperiment : Z := modelInstantiated.
Definition MASK_fmi3EnterInitializationMode : Z := modelInstantiated.
Definition MASK_fmi3ExitInitializationMode : Z := modelInitializationMode.
Definition MASK_fmi3Terminate : Z :=
  modelEventMode .| modelContinuousTimeMode
  .| modelStepComplete .| modelStepFailed.
Definition MASK_fmi3Reset : Z := MASK_fmi3FreeInstance.
Definition MASK_fmi3GetReal : Z :=
  modelInitializationMode
  .| modelEventMode .| modelContinuousTimeMode
  .| modelStepComplete .| modelStepFailed .| modelStepCanceled
  .| modelTerminated .| modelError.
Definition MASK_fmi3GetInteger : Z := MASK_fmi3GetReal.
Definition MASK_fmi3GetBoolean : Z := MASK_fmi3GetReal.
Definition MASK_fmi3GetString : Z := MASK_fmi3GetReal.
Definition MASK_fmi3SetReal : Z :=
  modelInstantiated .| modelInitializationMode
  .| modelEventMode .| modelContinuousTimeMode
  .| modelStepComplete.
Definition MASK_fmi3SetInteger : Z :=
  modelInstantiated .| modelInitializationMode
  .| modelEventMode
  .| modelStepComplete.
Definition MASK_fmi3SetBoolean : Z := MASK_fmi3SetInteger.
Definition MASK_fmi3SetString : Z := MASK_fmi3SetInteger.
Definition MASK_fmi3GetFMUstate : Z := MASK_fmi3FreeInstance.
Definition MASK_fmi3SetFMUstate : Z := MASK_fmi3FreeInstance.
Definition MASK_fmi3FreeFMUstate : Z := MASK_fmi3FreeInstance.
Definition MASK_fmi3SerializedFMUstateSize : Z := MASK_fmi3FreeInstance.
Definition MASK_fmi3SerializeFMUstate : Z := MASK_fmi3FreeInstance.
Definition MASK_fmi3DeSerializeFMUstate : Z := MASK_fmi3FreeInstance.
Definition MASK_fmi3GetDirectionalDerivative : Z :=
  modelInitializationMode
  .| modelEventMode .| modelContinuousTimeMode
  .| modelStepComplete .| modelStepFailed .| modelStepCanceled
  .| modelTerminated .| modelError.

Definition MASK_fmi3EnterEventMode : Z := modelEventMode .| modelContinuousTimeMode.
Definition MASK_fmi3NewDiscreteStates : Z := modelEventMode.
Definition MASK_fmi3EnterContinuousTimeMode : Z := modelEventMode.
Definition MASK_fmi3CompletedIntegratorStep : Z := modelContinuousTimeMode.
Definition MASK_fmi3SetTime : Z := modelEventMode .| modelContinuousTimeMode.
Definition MASK_fmi3SetContinuousStates : Z := modelContinuousTimeMode.
Definition MASK_fmi3GetEventIndicators : Z :=
  modelInitializationMode
  .| modelEventMode .| modelContinuousTimeMode
  .| modelTerminated .| modelError.
Definition MASK_fmi3GetContinuousStates : Z := MASK_fmi3GetEventIndicators.
Definition MASK_fmi3GetDerivatives : Z :=
  modelEventMode .| modelContinuousTimeMode
  .| modelTerminated .| modelError.
Definition MASK_fmi3GetNominalsOfContinuousStates : Z :=
  modelInstantiated
  .| modelEventMode .| modelContinuousTimeMode
  .| modelTerminated .| modelError.

Definition MASK_fmi3SetRealInputDerivatives : Z :=
  modelInstantiated .| modelInitializationMode
  .| modelStepComplete.
Definition MASK_fmi3GetRealOutputDerivatives : Z :=
  modelStepComplete .| modelStepFailed .| modelStepCanceled
  .| modelTerminated .| modelError.
Definition MASK_fmi3DoStep : Z := modelStepComplete.
Definition MASK_fmi3CancelStep : Z := modelStepInProgress.
Definition MASK_fmi3GetStatus : Z :=
  modelStepComplete .| modelStepInProgress .| modelStepFailed
  .| modelTerminated.
Definition MASK_fmi3GetRealStatus : Z := MASK_fmi3GetStatus.
Definition MASK_fmi3GetIntegerStatus : Z := MASK_fmi3GetStatus.
Definition MASK_fmi3GetBooleanStatus : Z := MASK_fmi3GetStatus.
Definition MASK_fmi3GetStringStatus : Z := MASK_fmi3GetStatus.

Local Close Scope mask_scope.

(* ------------------------------------------------------------------------- *)
(** ** The variable store and the instance *)
(* ------------------------------------------------------------------------- *)

(** [void *variables[N_VARIABLES]]: one allocated block per value reference.
    A block is a sequence of scalar cells; a cell remembers the scalar last
    stored in it, and loading it at another type is left undefined (it would
    depend on the memory layout). *)
Inductive cell : Type :=
| CReal (x : fmi3Real)
| CInt (n : fmi3Integer)
| CBool (b : fmi3Boolean)
| CStr (s : option fmi3String).

(** A pointer to the first cell of a block of [variables], or NULL. *)
Inductive ptr : Type :=
| NULL
| Block (vr : nat).

Record ModelInstance : Type := mkModelInstance {
  variables : list (list cell);
  isPositive : list fmi3Boolean;
  time : fmi3Real;
  instanceName : fmi3String;
  type : fmi3Type;
  GUID : fmi3String;
  functions : fmi3CallbackFunctions;
  loggingOn : fmi3Boolean;
  logCategories : list fmi3Boolean;
  state : ModelState;
  eventInfo : fmi3EventInfo;
  isDirtyValues : fmi3Boolean;
  isNewEventIteration : fmi3Boolean
}.

Definition set_variables (v : list (list cell)) (c : ModelInstance) : ModelInstance :=
  mkModelInstance v (isPositive c) (time c) (instanceName c) (type c) (GUID c)
    (functions c) (loggingOn c) (logCategories c) (state c) (eventInfo c)
    (isDirtyValues c) (isNewEventIteration c).
Definition set_isPositive (p : list fmi3Boolean) (c : ModelInstance) : ModelInstance :=
  mkModelInstance (variables c) p (time c) (instanceName c) (type c) (GUID c)
    (functions c) (loggingOn c) (logCategories c) (state c) (eventInfo c)
    (isDirtyValues c) (isNewEventIteration c).
Definition set_time (t : fmi3Real) (c : ModelInstance) : ModelInstance :=
  mkModelInstance (variables c) (isPositive c) t (instanceName c) (type c) (GUID c)
    (functions c) (loggingOn c) (logCategories c) (state c) (eventInfo c)
    (isDirtyValues c) (isNewEventIteration c).
Definition set_loggingOn (b : fmi3Boolean) (c : ModelInstance) : ModelInstance :=
  mkModelInstance (variables c) (isPositive c) (time c) (instanceName c) (type c) (GUID c)
    (functions c) b (logCategories c) (state c) (eventInfo c)
    (isDirtyValues c) (isNewEventIteration c).
Definition set_logCategories (l : list fmi3Boolean) (c : ModelInstance) : ModelInstance :=
  mkModelInstance (variables c) (isPositive c) (time c) (instanceName c) (type c) (GUID c)
    (functions c) (loggingOn c) l (state c) (eventInfo c)
    (isDirtyValues c) (isNewEventIteration c).
Definition set_state (s : ModelState) (c : ModelInstance) : ModelInstance :=
  mkModelInstance (variables c) (isPositive c) (time c) (instanceName c) (type c) (GUID c)
    (functions c) (loggingOn c) (logCategories c) s (eventInfo c)
    (isDirtyValues c) (isNewEventIteration c).
Definition set_eventInfo (e : fmi3EventInfo) (c : ModelInstance) : ModelInstance :=
  mkModelInstance (variables c) (isPositive c) (time c) (instanceName c) (type c) (GUID c)
    (functions c) (loggingOn c) (logCategories c) (state c) e
    (isDirtyValues c) (isNewEventIteration c).
Definition set_isDirtyValues (b : fmi3Boolean) (c : ModelInstance) : ModelInstance :=
  mkModelInstance (variables c) (isPositive c) (time c) (instanceName c) (type c) (GUID c)
    (functions c) (loggingOn c) (logCategories c) (state c) (eventInfo c)
    b (isNewEventIteration c).
Definition set_isNewEventIteration (b : fmi3Boolean) (c : ModelInstance) : ModelInstance :=
  mkModelInstance (variables c) (isPositive c) (time c) (instanceName c) (type c) (GUID c)
    (functions c) (loggingOn c) (logCategories c) (state c) (eventInfo c)
    (isDirtyValues c) b.

Definition set_newDiscreteStatesNeeded (b : fmi3Boolean) (e : fmi3EventInfo) :=
  mkEventInfo b (terminateSimulation e) (nominalsOfContinuousStatesChanged e)
    (valuesOfContinuousStatesChanged e) (nextEventTimeDefined e) (nextEventTime e).
Definition set_terminateSimulation (b : fmi3Boolean) (e : fmi3EventInfo) :=
  mkEventInfo (newDiscreteStatesNeeded e) b (nominalsOfContinuousStatesChanged e)
    (valuesOfContinuousStatesChanged e) (nextEventTimeDefined e) (nextEventTime e).
Definition set_nominalsOfContinuousStatesChanged (b : fmi3Boolean) (e : fmi3EventInfo) :=
  mkEventInfo (newDiscreteStatesNeeded e) (terminateSimulation e) b
    (valuesOfContinuousStatesChanged e) (nextEventTimeDefined e) (nextEventTime e).
Definition set_valuesOfContinuousStatesChanged (b : fmi3Boolean) (e : fmi3EventInfo) :=
  mkEventInfo (newDiscreteStatesNeeded e) (terminateSimulation e)
    (nominalsOfContinuousStatesChanged e) b (nextEventTimeDefined e) (nextEventTime e).
Definition set_nextEventTimeDefined (b : fmi3Boolean) (e : fmi3EventInfo) :=
  mkEventInfo (newDiscreteStatesNeeded e) (terminateSimulation e)
    (nominalsOfContinuousStatesChanged e) (valuesOfContinuousStatesChanged e) b
    (nextEventTime e).
Definition set_nextEventTime (t : fmi3Real) (e : fmi3EventInfo) :=
  mkEventInfo (newDiscreteStatesNeeded e) (terminateSimulation e)
    (nominalsOfContinuousStatesChanged e) (valuesOfContinuousStatesChanged e)
    (nextEventTimeDefined e) t.

(** One call of the host's logger: [logger(env, instanceName, status,
    category, message, ...)].  The format string is recorded; the variadic
    arguments are not. *)
Record LogRecord : Type := mkLog {
  log_instanceName : fmi3String;
  log_status : fmi3Status;
  log_category : fmi3String;
  log_message : string
}.

(** What a call can observe and change: the instance, what the host's logger
    has received so far (oldest first), and the process-wide variables of the
    model (of a type [G] the model chooses). *)
Record World (G : Type) : Type := mkWorld {
  inst : ModelInstance;
  host_log : list LogRecord;
  globals : G
}.

Arguments mkWorld {G} _ _ _.
Arguments inst {G} _.
Arguments host_log {G} _.
Arguments globals {G} _.

(* ------------------------------------------------------------------------- *)
(** ** The monad of engine code: state over [World], [None] for undefined *)
(* ------------------------------------------------------------------------- *)

Definition M (G A : Type) : Type := World G -> option (A * World G).

Definition ret {G A} (a : A) : M G A := fun w => Some (a, w).
Definition bind {G A B} (c : M G A) (k : A -> M G B) : M G B :=
  fun w => match c w with
           | Some (a, w') => k a w'
           | None => None
           end.
Definition undefined {G A} : M G A := fun _ => None.

Declare Scope fmu_scope.
Delimit Scope fmu_scope with fmu.
Notation "x <- c ;; k" := (bind c (fun x => k))
  (at level 61, c at next level, right associativity) : fmu_scope.
Notation "' pat <- c ;; k" := (bind c (fun x => match x with pat => k end))
  (at level 61, pat pattern, c at next level, right associativity) : fmu_scope.
Notation "c ;; k" := (bind c (fun _ => k))
  (at level 61, right associativity) : fmu_scope.
Local Open Scope fmu_scope.

Definition get_comp {G} : M G ModelInstance := fun w => Some (inst w, w).
Definition modify_comp {G} (f : ModelInstance -> ModelInstance) : M G unit :=
  fun w => Some (tt, mkWorld (f (inst w)) (host_log w) (globals w)).
Definition get_globals {G} : M G G := fun w => Some (globals w, w).
Definition put_globals {G} (g : G) : M G unit :=
  fun w => Some (tt, mkWorld (inst w) (host_log w) g).
Definition of_option {G A} (o : option A) : M G A :=
  match o with Some a => ret a | None => undefined end.

(** [for (j = lo; j < lo + count; j++) body], the loop's variables in [s]. *)
Fixpoint forM {G St} (count lo : nat) (body : nat -> St -> M G St) (s : St) : M G St :=
  match count with
  | O => ret s
  | S count' => s' <- body lo s ;; forM count' (S lo) body s'
  end.

(** The same loop with a body that may [return r] from the function
    ([inr r]) instead of going on ([inl s]). *)
Fixpoint forRet {G St Rt} (count lo : nat) (body : nat -> St -> M G (St + Rt)) (s : St)
  : M G (St + Rt) :=
  match count with
  | O => ret (inl s)
  | S count' =>
      r <- body lo s ;;
      match r with
      | inl s' => forRet count' (S lo) body s'
      | inr v => ret (inr v)
      end
  end.

(** [l[i] = v], in range. *)
Fixpoint upd {A} (i : nat) (v : A) (l : list A) : list A :=
  match l, i with
  | [], _ => []
  | _ :: l', O => v :: l'
  | x :: l', S i' => x :: upd i' v l'
  end.

(** Reads and writes of a caller's array [a] at index [i]; NULL or an index
    past its end is undefined. *)
Definition read_arr {G A} (a : option (list A)) (i : nat) : M G A :=
  match a with
  | Some l => of_option (nth_error l i)
  | None => undefined
  end.
Definition write_arr {G A} (a : option (list A)) (i : nat) (v : A) : M G (option (list A)) :=
  match a with
  | Some l => if i <? List.length l then ret (Some (upd i v l)) else undefined
  | None => undefined
  end.

(** [p[j]] as an lvalue of the store: load and store of one cell. *)
Definition load {G} (p : ptr) (j : nat) : M G cell :=
  match p with
  | NULL => undefined
  | Block b =>
      c <- get_comp ;;
      blk <- of_option (nth_error (variables c) b) ;;
      of_option (nth_error blk j)
  end.
Definition store {G} (p : ptr) (j : nat) (v : cell) : M G unit :=
  match p with
  | NULL => undefined
  | Block b =>
      c <- get_comp ;;
      blk <- of_option (nth_error (variables c) b) ;;
      if j <? List.length blk
      then modify_comp (set_variables (upd b (upd j v blk) (variables c)))
      else undefined
  end.

Definition as_real {G} (c : cell) : M G fmi3Real :=
  match c with CReal x => ret x | _ => undefined end.
Definition as_int {G} (c : cell) : M G fmi3Integer :=
  match c with CInt n => ret n | _ => undefined end.
Definition as_bool {G} (c : cell) : M G fmi3Boolean :=
  match c with CBool b => ret b | _ => undefined end.
Definition as_str {G} (c : cell) : M G (option fmi3String) :=
  match c with CStr s => ret s | _ => undefined end.

Definition loadR {G} (p : ptr) (j : nat) : M G fmi3Real := c <- load p j ;; as_real c.
Definition loadI {G} (p : ptr) (j : nat) : M G fmi3Integer := c <- load p j ;; as_int c.
Definition loadB {G} (p : ptr) (j : nat) : M G fmi3Boolean := c <- load p j ;; as_bool c.
Definition loadS {G} (p : ptr) (j : nat) : M G (option fmi3String) :=
  c <- load p j ;; as_str c.

(** [R], [I], [B], [S] of fmu3Template.h: [comp->variables[vr]] at the
    pointer type of the accessor; outside the array it is undefined.  (They
    are named [varR] ... [varS] here: [S] and [I] are constructors of Rocq's
    [nat] and [True].) *)
Definition variables_at {G} (vr : nat) : M G ptr :=
  c <- get_comp ;;
  if vr <? List.length (variables c) then ret (Block vr) else undefined.
Definition varR {G} (vr : nat) : M G ptr := variables_at vr.
Definition varI {G} (vr : nat) : M G ptr := variables_at vr.
Definition varB {G} (vr : nat) : M G ptr := variables_at vr.
Definition varS {G} (vr : nat) : M G ptr := variables_at vr.

(* ------------------------------------------------------------------------- *)
(** ** What the includer of fmu3Template.c defines *)
(* ------------------------------------------------------------------------- *)

(** The macros and tables of a model: [MODEL_GUID], [N_VARIABLES],
    [s_variableTypes], [s_variableSizes], [NUMBER_OF_STATES], [STATES],
    [NUMBER_OF_EVENT_INDICATORS]. *)
Class Model : Type := mkModel {
  MODEL_GUID : string;
  N_VARIABLES : nat;
  s_variableTypes : list ascii;
  s_variableSizes : list nat;
  NUMBER_OF_STATES : nat;
  STATES : list fmi3ValueReference;
  NUMBER_OF_EVENT_INDICATORS : nat
}.

(** The functions "to be implemented by the includer of this file".
    [eventUpdate] is always passed [&comp->eventInfo]: it works on the
    instance's own record.  Its two [int] arguments are [isTimeEvent] and
    [isNewEventIteration]. *)
Class Hooks (G : Type) : Type := mkHooks {
  setStartValues : M G unit;
  calculateValues : M G unit;
  getReal : fmi3ValueReference -> M G ptr;
  getEventIndicator : nat -> M G fmi3Real;
  eventUpdate : Z -> Z -> M G unit
}.

(* ------------------------------------------------------------------------- *)
(** ** fmu3Template.c *)
(* ------------------------------------------------------------------------- *)

Definition logCategoriesNames : list fmi3String :=
  ["logAll"; "logError"; "logFmiCall"; "logEvent"].

Definition DT_EVENT_DETECT : fmi3Real := 1e-10%float.

(** [logCategories] is an array of [NUMBER_OF_CATEGORIES] flags inside the
    instance. *)
Definition isCategoryLogged (comp : ModelInstance) (categoryIndex : nat) : fmi3Boolean :=
  if (categoryIndex <? NUMBER_OF_CATEGORIES)
     && (nth categoryIndex (logCategories comp) false
         || nth LOG_ALL (logCategories comp) false)
  then fmi3True
  else fmi3False.

(** [comp->functions->logger(env, comp->instanceName, status, category,
    message, ...)]. *)
Definition call_logger {G} (name : fmi3String) (status : fmi3Status)
    (category : fmi3String) (message : string) : M G unit :=
  fun w => Some (tt, mkWorld (inst w)
                        (host_log w ++ [mkLog name status category message])
                        (globals w)).

Definition FILTERED_LOG {G} (status : fmi3Status) (categoryIndex : nat)
    (message : string) : M G unit :=
  comp <- get_comp ;;
  if status_eqb status fmi3Error || status_eqb status fmi3Fatal
     || isCategoryLogged comp categoryIndex
  then call_logger (instanceName comp) status
         (nth categoryIndex logCategoriesNames "") message
  else ret tt.

(** [invalidNumber] takes its two counts as [int n, int nExpected], and its
    callers pass a [size_t] ([nx], [ni]) for the first.  [int] is 32 bits
    wide; a count it cannot hold is converted by reduction modulo 2^32 into
    its range (the conversion is implementation-defined, and this is what
    the compilers of the SDK's platforms do). *)
Definition int_of_size_t (n : nat) : Z :=
  ((Z.of_nat n + 2 ^ 31) mod 2 ^ 32 - 2 ^ 31)%Z.

Definition invalidNumber {G} (f arg : string) (n nExpected : nat) : M G fmi3Boolean :=
  if negb (int_of_size_t n =? int_of_size_t nExpected)%Z then
    modify_comp (set_state modelError) ;;
    FILTERED_LOG fmi3Error LOG_ERROR "%s: Invalid argument %s = %d. Expected %d." ;;
    ret fmi3True
  else ret fmi3False.

(** The instance pointer of a [World] is not NULL, so the first test of the
    C function, [if (!comp) return fmi3True], does not apply. *)
Definition invalidState {G} (f : string) (statesExpected : Z) : M G fmi3Boolean :=
  comp <- get_comp ;;
  if (Z.land (state comp) statesExpected =? 0)%Z then
    modify_comp (set_state modelError) ;;
    FILTERED_LOG fmi3Error LOG_ERROR "%s: Illegal call sequence." ;;
    ret fmi3True
  else ret fmi3False.

Definition nullPointer {G A} (f arg : string) (p : option A) : M G fmi3Boolean :=
  match p with
  | None =>
      modify_comp (set_state modelError) ;;
      FILTERED_LOG fmi3Error LOG_ERROR "%s: Invalid argument %s = NULL." ;;
      ret fmi3True
  | Some _ => ret fmi3False
  end.

Definition unsupportedFunction {G} (fName : string) (statesExpected : Z) : M G fmi3Status :=
  bad <- invalidState fName statesExpected ;;
  if bad then ret fmi3Error else
  FILTERED_LOG fmi3OK LOG_FMI_CALL fName ;;
  FILTERED_LOG fmi3Error LOG_ERROR "%s: Function not implemented." ;;
  ret fmi3Error.

Section Engine.

Context {G : Type} {model : Model} {hooks : Hooks G}.

(** [fmi3ValueReference vrStates[NUMBER_OF_STATES] = STATES]: elements
    without an initializer are zero. *)
Definition vrStates : list fmi3ValueReference :=
  STATES ++ repeat 0%N (NUMBER_OF_STATES - List.length STATES).

(** [s_variableTypes[i]] and [s_variableSizes[i]]: arrays of [N_VARIABLES]
    elements, zero where the initializer is shorter; an index past the end is
    undefined. *)
Definition variableType (i : nat) : M G ascii :=
  if i <? N_VARIABLES then ret (nth i s_variableTypes Ascii.zero) else undefined.
Definition variableSize (i : nat) : M G nat :=
  if i <? N_VARIABLES then ret (nth i s_variableSizes 0) else undefined.

Definition vrOutOfRange (f : string) (vr : fmi3ValueReference) (type : ascii)
  : M G fmi3Boolean :=
  if (N.of_nat N_VARIABLES <=? vr)%N then
    FILTERED_LOG fmi3Error LOG_ERROR "%s: Illegal value reference %u." ;;
    modify_comp (set_state modelError) ;;
    ret fmi3True
  else
    t <- variableType (N.to_nat vr) ;;
    if negb (Ascii.eqb t type) then
      FILTERED_LOG fmi3Error LOG_ERROR "%s: Variable %u is not a %c." ;;
      modify_comp (set_state modelError) ;;
      ret fmi3True
    else ret fmi3False.

(** *** Setters.  The four functions have one shape:
<<
    if (invalidState(comp, NAME, MASK)) return fmi3Error;
    if (nvr > 0 && nullPointer(comp, NAME, "vr[]", vr)) return fmi3Error;
    if (nvr > 0 && nullPointer(comp, NAME, "value[]", value)) return fmi3Error;
    FILTERED_LOG(comp, fmi3OK, LOG_FMI_CALL, NAME ": nvr = %d", nvr)
    for (i = 0; i < nvr; i++) {
        if (vrOutOfRange(comp, CHECKNAME, vr[i], TYPE)) return fmi3Error;
        for (j = 0; j < s_variableSizes[i]; j++) { WRITE }
        FILTERED_LOG(comp, fmi3OK, LOG_FMI_CALL, ITEMMSG, vr[i], value[i])
    }
    if (nvr > 0) comp->isDirtyValues = fmi3True;
    return fmi3OK;
>>
    [setXXX] is that shape; [write vr j k] is the body [WRITE] of the inner
    loop, which yields the next value of the cursor [k]. *)
Definition setXXX_item {V} (checkName : string) (type : ascii)
    (write : option (list V) -> fmi3ValueReference -> nat -> nat -> M G nat)
    (itemMsg : string)
    (vr : option (list fmi3ValueReference)) (value : option (list V))
    (i : nat) (k : nat) : M G (nat + fmi3Status) :=
  v <- read_arr vr i ;;
  bad <- vrOutOfRange checkName v type ;;
  if bad then ret (inr fmi3Error) else
  size <- variableSize i ;;
  k' <- forM size 0 (fun j k => write value v j k) k ;;
  FILTERED_LOG fmi3OK LOG_FMI_CALL itemMsg ;;
  ret (inl k').

Definition setXXX {V} (name : string) (mask : Z) (nvrMsg checkName : string)
    (type : ascii)
    (write : option (list V) -> fmi3ValueReference -> nat -> nat -> M G nat)
    (itemMsg : string)
    (vr : option (list fmi3ValueReference)) (nvr : nat)
    (value : option (list V)) (nValues : nat) : M G fmi3Status :=
  bad <- invalidState name mask ;;
  if bad then ret fmi3Error else
  bad <- (if 0 <? nvr then nullPointer name "vr[]" vr else ret false) ;;
  if bad then ret fmi3Error else
  bad <- (if 0 <? nvr then nullPointer name "value[]" value else ret false) ;;
  if bad then ret fmi3Error else
  FILTERED_LOG fmi3OK LOG_FMI_CALL nvrMsg ;;
  r <- forRet nvr 0 (setXXX_item checkName type write itemMsg vr value) 0 ;;
  match r with
  | inr status => ret status
  | inl _ =>
      (if 0 <? nvr then modify_comp (set_isDirtyValues fmi3True) else ret tt) ;;
      ret fmi3OK
  end.

(** [R(comp, vr[i])[j] = value[k++];] *)
Definition write_real (value : option (list fmi3Real)) (vr : fmi3ValueReference)
    (j k : nat) : M G nat :=
  x <- read_arr value k ;;
  p <- varR (N.to_nat vr) ;;
  store p j (CReal x) ;;
  ret (1 + k).

(** [I(comp, vr[i])[j] = value[k++];] *)
Definition write_integer (value : option (list fmi3Integer)) (vr : fmi3ValueReference)
    (j k : nat) : M G nat :=
  x <- read_arr value k ;;
  p <- varI (N.to_nat vr) ;;
  store p j (CInt x) ;;
  ret (1 + k).

(** [B(comp, vr[i])[j] = value[k++];] *)
Definition write_boolean (value : option (list fmi3Boolean)) (vr : fmi3ValueReference)
    (j k : nat) : M G nat :=
  x <- read_arr value k ;;
  p <- varB (N.to_nat vr) ;;
  store p j (CBool x) ;;
  ret (1 + k).

(** The inner loop of [fmi3SetString] has every statement commented out,
    [//S(comp, vr[i])[j] = value[k++];] included: nothing is stored. *)
Definition write_string (value : option (list fmi3String)) (vr : fmi3ValueReference)
    (j k : nat) : M G nat :=
  ret k.

Definition fmi3SetReal := 
  setXXX "fmi3SetReal" MASK_fmi3SetReal "fmi3SetReal: nvr = %d"
    "fmi3SetRoolean" "r" write_real "fmi3SetReal: #r%u# = %.16g".

Definition fmi3SetInteger :=
  setXXX "fmi3SetInteger" MASK_fmi3SetInteger "fmi3SetInteger: nvr = %d"
    "fmi3SetInteger" "i" write_integer "fmi3SetInteger: #i%u# = %d".

(** The letter passed to [vrOutOfRange] is ['i'] in the source. *)
Definition fmi3SetBoolean :=
  setXXX "fmi3SetBoolean" MASK_fmi3SetBoolean "fmi3SetBoolean: nvr = %d"
    "fmi3SetBoolean" "i" write_boolean "fmi3SetBoolean: #b%u# = %s".

Definition fmi3SetString :=
  setXXX "fmi3SetString" MASK_fmi3SetString "fmi3SetString: nvr = %d"
    "fmi3SetString" "s" write_string "fmi3SetBoolean: #b%u# = %s".

(** [setString] of fmu3Template.c, the [copy] macro of the header:
    [fmi3SetString(comp, &vr, 1, &value, size)]. *)
Definition setString (vr : fmi3ValueReference) (value : fmi3String) (size : nat)
  : M G fmi3Status :=
  fmi3SetString (Some [vr]) 1 (Some [value]) size.


(** *** Getters.  The four functions have one shape:
<<
    if (invalidState(comp, NAME, MASK)) return fmi3Error;
    if (nvr > 0 && nullPointer(comp, NAME, "vr[]", vr)) return fmi3Error;
    if (nvr > 0 && nullPointer(comp, NAME, "value[]", value)) return fmi3Error;
    if (nvr > 0 && comp->isDirtyValues) {
        calculateValues(comp);
        comp->isDirtyValues = fmi3False;
    }
    for (i = 0; i < nvr; i++) {
        if (vrOutOfRange(comp, NAME, vr[i], TYPE)) return fmi3Error;
        for (j = 0; j < s_variableSizes[i]; j++) { value[k++] = READ; }
        FILTERED_LOG(comp, fmi3OK, LOG_FMI_CALL, ITEMMSG, vr[i], value[i])
    }
    return fmi3OK;
>>
    [getXXX] is that shape; [read vr j] is the expression [READ].  The result
    carries the caller's [value] array as the call leaves it. *)
Definition getXXX_item {V} (name : string) (type : ascii)
    (read : fmi3ValueReference -> nat -> M G V) (itemMsg : string)
    (vr : option (list fmi3ValueReference))
    (i : nat) (s : nat * option (list V))
  : M G (nat * option (list V) + fmi3Status * option (list V)) :=
  v <- read_arr vr i ;;
  bad <- vrOutOfRange name v type ;;
  if bad then ret (inr (fmi3Error, snd s)) else
  size <- variableSize i ;;
  s' <- forM size 0
          (fun j s => x <- read v j ;;
                      value' <- write_arr (snd s) (fst s) x ;;
                      ret (1 + fst s, value')) s ;;
  FILTERED_LOG fmi3OK LOG_FMI_CALL itemMsg ;;
  ret (inl s').

Definition getXXX {V} (name : string) (mask : Z) (type : ascii)
    (read : fmi3ValueReference -> nat -> M G V) (itemMsg : string)
    (vr : option (list fmi3ValueReference)) (nvr : nat)
    (value : option (list V)) (nValues : nat)
  : M G (fmi3Status * option (list V)) :=
  bad <- invalidState name mask ;;
  if bad then ret (fmi3Error, value) else
  bad <- (if 0 <? nvr then nullPointer name "vr[]" vr else ret false) ;;
  if bad then ret (fmi3Error, value) else
  bad <- (if 0 <? nvr then nullPointer name "value[]" value else ret false) ;;
  if bad then ret (fmi3Error, value) else
  comp <- get_comp ;;
  (if (0 <? nvr) && isDirtyValues comp
   then calculateValues ;; modify_comp (set_isDirtyValues fmi3False)
   else ret tt) ;;
  r <- forRet nvr 0 (getXXX_item name type read itemMsg vr) (0, value) ;;
  match r with
  | inr res => ret res
  | inl s => ret (fmi3OK, snd s)
  end.

(** [getReal(comp, vr[i])[j]] *)
Definition read_real (vr : fmi3ValueReference) (j : nat) : M G fmi3Real :=
  p <- getReal vr ;; loadR p j.
(** [I(comp, vr[i])[j]] *)
Definition read_integer (vr : fmi3ValueReference) (j : nat) : M G fmi3Integer :=
  p <- varI (N.to_nat vr) ;; loadI p j.
(** [B(comp, vr[i])[j]] *)
Definition read_boolean (vr : fmi3ValueReference) (j : nat) : M G fmi3Boolean :=
  p <- varB (N.to_nat vr) ;; loadB p j.
(** [S(comp, vr[i])[j]] *)
Definition read_string (vr : fmi3ValueReference) (j : nat) : M G (option fmi3String) :=
  p <- varS (N.to_nat vr) ;; loadS p j.

Definition fmi3GetReal :=
  getXXX "fmi3GetReal" MASK_fmi3GetReal "r" read_real "fmi3GetReal: #r%u# = %.16g".

Definition fmi3GetInteger :=
  getXXX "fmi3GetInteger" MASK_fmi3GetInteger "i" read_integer
    "fmi3GetInteger: #i%u# = %d".

Definition fmi3GetBoolean :=
  getXXX "fmi3GetBoolean" MASK_fmi3GetBoolean "b" read_boolean
    "fmi3GetBoolean: #i%u# = %d".

(** The letter passed to [vrOutOfRange] is ['b'] in the source.  (The
    format string has its value between double quotes; they are written as
    single quotes here.) *)
Definition fmi3GetString :=
  getXXX "fmi3GetString" MASK_fmi3GetString "b" read_string
    "fmi3GetString: #s%u# = '%s'".

(** *** Creation and life cycle *)

Definition zero_cell (t : ascii) : option cell :=
  if Ascii.eqb t "r" then Some (CReal 0%float)
  else if Ascii.eqb t "i" then Some (CInt 0%Z)
  else if Ascii.eqb t "b" then Some (CBool false)
  else if Ascii.eqb t "s" then Some (CStr None)
  else None.

(** The first loop of [fmi3Instantiate]: one zeroed block per variable, of
    [s_variableSizes[i]] elements of the type [s_variableTypes[i]] names;
    [None] is the [default: return NULL] of the switch. *)
Fixpoint allocate_variables (count i : nat) : option (list (list cell)) :=
  match count with
  | O => Some []
  | Datatypes.S count' =>
      match zero_cell (nth i s_variableTypes Ascii.zero) with
      | None => None
      | Some c =>
          match allocate_variables count' (1 + i) with
          | None => None
          | Some rest => Some (repeat c (nth i s_variableSizes 0) :: rest)
          end
      end
  end.

Definition host_logger (name : fmi3String) (message : string)
    (log : list LogRecord) : list LogRecord :=
  log ++ [mkLog name fmi3Error "error" message].

Definition zero_eventInfo : fmi3EventInfo :=
  mkEventInfo false false false false false 0%float.

(** [fmi3Instantiate]: the component, or [None] for NULL, with the host's
    log and the model's globals after the call.  [fmuResourceLocation] and
    [visible] are ignored by the code. *)
Definition fmi3Instantiate (instanceName : option fmi3String) (fmuType : fmi3Type)
    (fmuGUID : option fmi3String) (fmuResourceLocation : option fmi3String)
    (functions : fmi3CallbackFunctions) (visible loggingOn : fmi3Boolean)
    (log : list LogRecord) (g : G)
  : option (option ModelInstance * list LogRecord * G) :=
  if negb (logger functions) then Some (None, log, g) else
  if negb (allocateMemory functions) || negb (freeMemory functions) then
    Some (None,
          host_logger (match instanceName with Some n => n | None => "" end)
            "fmi3Instantiate: Missing callback function." log, g)
  else
  match instanceName with
  | None => Some (None, host_logger "?" "fmi3Instantiate: Missing instance name." log, g)
  | Some name =>
  if String.length name =? 0 then
    Some (None, host_logger "?" "fmi3Instantiate: Missing instance name." log, g)
  else
  match fmuGUID with
  | None => Some (None, host_logger name "fmi3Instantiate: Missing GUID." log, g)
  | Some guid =>
  if String.length guid =? 0 then
    Some (None, host_logger name "fmi3Instantiate: Missing GUID." log, g)
  else
  if negb (String.eqb guid MODEL_GUID) then
    Some (None, host_logger name "fmi3Instantiate: Wrong GUID %s. Expected %s." log, g)
  else
  match allocate_variables N_VARIABLES 0 with
  | None => Some (None, log, g)
  | Some vars =>
      let comp :=
        mkModelInstance vars (repeat false NUMBER_OF_EVENT_INDICATORS) 0%float
          name fmuType guid functions loggingOn
          (repeat loggingOn NUMBER_OF_CATEGORIES) modelInstantiated
          zero_eventInfo false false in
      match
        (setStartValues ;;
         modify_comp (set_isDirtyValues fmi3True) ;;
         modify_comp (set_isNewEventIteration fmi3False) ;;
         modify_comp (set_eventInfo zero_eventInfo) ;;
         FILTERED_LOG fmi3OK LOG_FMI_CALL "fmi3Instantiate: GUID=%s")
          (mkWorld comp log g)
      with
      | None => None
      | Some (_, w) => Some (Some (inst w), host_log w, globals w)
      end
  end
  end
  end.

Definition fmi3SetupExperiment (toleranceDefined : fmi3Boolean) (tolerance : fmi3Real)
    (startTime : fmi3Real) (stopTimeDefined : fmi3Boolean) (stopTime : fmi3Real)
  : M G fmi3Status :=
  bad <- invalidState "fmi3SetupExperiment" MASK_fmi3SetupExperiment ;;
  if bad then ret fmi3Error else
  FILTERED_LOG fmi3OK LOG_FMI_CALL
    "fmi3SetupExperiment: toleranceDefined=%d tolerance=%g" ;;
  modify_comp (set_time startTime) ;;
  ret fmi3OK.

Definition fmi3EnterInitializationMode : M G fmi3Status :=
  bad <- invalidState "fmi3EnterInitializationMode" MASK_fmi3EnterInitializationMode ;;
  if bad then ret fmi3Error else
  FILTERED_LOG fmi3OK LOG_FMI_CALL "fmi3EnterInitializationMode" ;;
  modify_comp (set_state modelInitializationMode) ;;
  ret fmi3OK.

Definition fmi3ExitInitializationMode : M G fmi3Status :=
  bad <- invalidState "fmi3ExitInitializationMode" MASK_fmi3ExitInitializationMode ;;
  if bad then ret fmi3Error else
  FILTERED_LOG fmi3OK LOG_FMI_CALL "fmi3ExitInitializationMode" ;;
  comp <- get_comp ;;
  (if isDirtyValues comp
   then calculateValues ;; modify_comp (set_isDirtyValues fmi3False)
   else ret tt) ;;
  comp <- get_comp ;;
  match type comp with
  | fmi3ModelExchange =>
      modify_comp (set_state modelEventMode) ;;
      modify_comp (set_isNewEventIteration fmi3True)
  | fmi3CoSimulation => modify_comp (set_state modelStepComplete)
  end ;;
  ret fmi3OK.

Definition fmi3Terminate : M G fmi3Status :=
  bad <- invalidState "fmi3Terminate" MASK_fmi3Terminate ;;
  if bad then ret fmi3Error else
  FILTERED_LOG fmi3OK LOG_FMI_CALL "fmi3Terminate" ;;
  modify_comp (set_state modelTerminated) ;;
  ret fmi3OK.

Definition fmi3Reset : M G fmi3Status :=
  bad <- invalidState "fmi3Reset" MASK_fmi3Reset ;;
  if bad then ret fmi3Error else
  FILTERED_LOG fmi3OK LOG_FMI_CALL "fmi3Reset" ;;
  modify_comp (set_state modelInstantiated) ;;
  setStartValues ;;
  modify_comp (set_isDirtyValues fmi3True) ;;
  ret fmi3OK.

(** [fmi3FreeInstance] returns nothing.  The result is the instance if it is
    still allocated ([None] once [freeMemory(c, comp)] released it), with the
    host's log and the globals. *)
Definition fmi3FreeInstance (w : World G)
  : option (option ModelInstance * list LogRecord * G) :=
  match invalidState "fmi3FreeInstance" MASK_fmi3FreeInstance w with
  | None => None
  | Some (true, w') => Some (Some (inst w'), host_log w', globals w')
  | Some (false, w') =>
      match FILTERED_LOG fmi3OK LOG_FMI_CALL "fmi3FreeInstance" w' with
      | None => None
      | Some (_, w'') => Some (None, host_log w'', globals w'')
      end
  end.

(** *** Logging control *)

Definition set_logCategory (j : nat) (v : fmi3Boolean) : M G unit :=
  modify_comp (fun c => set_logCategories (upd j v (logCategories c)) c).

(** The search of one category name,
<<
    for (j = 0; j < NUMBER_OF_CATEGORIES; j++)
        if (strcmp(logCategoriesNames[j], categories[i]) == 0) {
            comp->logCategories[j] = loggingOn; categoryFound = fmi3True; break;
        }
>>
    yielding [categoryFound]. *)
Definition find_category (loggingOn : fmi3Boolean) (category : fmi3String)
  : M G fmi3Boolean :=
  r <- forRet NUMBER_OF_CATEGORIES 0
         (fun j (found : fmi3Boolean) =>
            if String.eqb (nth j logCategoriesNames "") category
            then set_logCategory j loggingOn ;; ret (inr fmi3True)
            else ret (inl found))
         fmi3False ;;
  match r with
  | inl found => ret found
  | inr found => ret found
  end.

(** The entries of [categories] are strings (no NULL among them). *)
Definition fmi3SetDebugLogging (loggingOn : fmi3Boolean) (nCategories : nat)
    (categories : option (list fmi3String)) : M G fmi3Status :=
  bad <- invalidState "fmi3SetDebugLogging" MASK_fmi3SetDebugLogging ;;
  if bad then ret fmi3Error else
  modify_comp (set_loggingOn loggingOn) ;;
  FILTERED_LOG fmi3OK LOG_FMI_CALL "fmi3SetDebugLogging" ;;
  forM NUMBER_OF_CATEGORIES 0 (fun j _ => set_logCategory j fmi3False) tt ;;
  (if nCategories =? 0 then
     forM NUMBER_OF_CATEGORIES 0 (fun j _ => set_logCategory j loggingOn) tt
   else
     forM nCategories 0
       (fun i _ =>
          category <- read_arr categories i ;;
          categoryFound <- find_category loggingOn category ;;
          if negb categoryFound then
            comp <- get_comp ;;
            call_logger (instanceName comp) fmi3Warning
              (nth LOG_ERROR logCategoriesNames "")
              "logging category '%s' is not supported by model"
          else ret tt) tt) ;;
  ret fmi3OK.

(** *** Unsupported functions (their arguments are not used) *)

Definition fmi3GetFMUstate : M G fmi3Status :=
  unsupportedFunction "fmi3GetFMUstate" MASK_fmi3GetFMUstate.
Definition fmi3SetFMUstate : M G fmi3Status :=
  unsupportedFunction "fmi3SetFMUstate" MASK_fmi3SetFMUstate.
Definition fmi3FreeFMUstate : M G fmi3Status :=
  unsupportedFunction "fmi3FreeFMUstate" MASK_fmi3FreeFMUstate.
Definition fmi3SerializedFMUstateSize : M G fmi3Status :=
  unsupportedFunction "fmi3SerializedFMUstateSize" MASK_fmi3SerializedFMUstateSize.
Definition fmi3SerializeFMUstate : M G fmi3Status :=
  unsupportedFunction "fmi3SerializeFMUstate" MASK_fmi3SerializeFMUstate.
Definition fmi3DeSerializeFMUstate : M G fmi3Status :=
  unsupportedFunction "fmi3DeSerializeFMUstate" MASK_fmi3DeSerializeFMUstate.
Definition fmi3GetDirectionalDerivative : M G fmi3Status :=
  unsupportedFunction "fmi3GetDirectionalDerivative" MASK_fmi3GetDirectionalDerivative.

(** *** Co-simulation *)

(** Of its arguments [vr], [nvr], [order], [value], [size], the function
    uses none but in its log message. *)
Definition fmi3SetRealInputDerivatives (nvr : nat) : M G fmi3Status :=
  bad <- invalidState "fmi3SetRealInputDerivatives" MASK_fmi3SetRealInputDerivatives ;;
  if bad then ret fmi3Error else
  FILTERED_LOG fmi3OK LOG_FMI_CALL "fmi3SetRealInputDerivatives: nvr= %d" ;;
  FILTERED_LOG fmi3Error LOG_ERROR
    "fmi3SetRealInputDerivatives: ignoring function call. This model cannot interpolate inputs: canInterpolateInputs='fmi3False'" ;;
  ret fmi3Error.

(** [vr], [order] and [size] are not used; [value[i] = 0] for [i < nvr]
    comes after the error log, before [return fmi3Error]. *)
Definition fmi3GetRealOutputDerivatives (nvr : nat) (value : option (list fmi3Real))
  : M G (fmi3Status * option (list fmi3Real)) :=
  bad <- invalidState "fmi3GetRealOutputDerivatives" MASK_fmi3GetRealOutputDerivatives ;;
  if bad then ret (fmi3Error, value) else
  FILTERED_LOG fmi3OK LOG_FMI_CALL "fmi3GetRealOutputDerivatives: nvr= %d" ;;
  FILTERED_LOG fmi3Error LOG_ERROR
    "fmi3GetRealOutputDerivatives: ignoring function call. This model cannot compute derivatives of outputs: MaxOutputDerivativeOrder='0'" ;;
  value' <- forM nvr 0 (fun i value => write_arr value i 0%float) value ;;
  ret (fmi3Error, value').

Definition fmi3CancelStep : M G fmi3Status :=
  bad <- invalidState "fmi3CancelStep" MASK_fmi3CancelStep ;;
  if bad then ret fmi3Error else
  FILTERED_LOG fmi3OK LOG_FMI_CALL "fmi3CancelStep" ;;
  FILTERED_LOG fmi3Error LOG_ERROR
    "fmi3CancelStep: Can be called when fmi3DoStep returned fmi3Pending. This is not the case." ;;
  ret fmi3Error.

(** [for (i = 0; i < NUMBER_OF_EVENT_INDICATORS; i++)
       prevEventIndicators[i] = getEventIndicator(comp, i);] *)
Definition sample_eventIndicators : M G (list fmi3Real) :=
  forM NUMBER_OF_EVENT_INDICATORS 0
    (fun i prev => ei <- getEventIndicator i ;; ret (prev ++ [ei])) [].

(** [prevState[i] = R(comp, vrStates[i])[0];] (the copy is not used). *)
Definition save_states : M G unit :=
  forM NUMBER_OF_STATES 0
    (fun i _ =>
       vr <- of_option (nth_error vrStates i) ;;
       p <- varR (N.to_nat vr) ;;
       _ <- loadR p 0 ;;
       ret tt) tt.

(** One state of the forward Euler step,
    [vr = vrStates[i]; R(comp, vr)[0] += h * getReal(comp, vr + 1)[0];]
    ([vr + 1] in [unsigned int]). *)
Definition euler_state (h : fmi3Real) (i : nat) : M G unit :=
  vr <- of_option (nth_error vrStates i) ;;
  d <- getReal ((vr + 1) mod 2 ^ 32)%N ;;
  der <- loadR d 0 ;;
  p <- varR (N.to_nat vr) ;;
  x <- loadR p 0 ;;
  store p 0 (CReal (x + h * der)%float).

Definition euler_states (h : fmi3Real) : M G unit :=
  forM NUMBER_OF_STATES 0 (fun i _ => euler_state h i) tt.

(** The check for state events: for each indicator,
    [if (ei * prevEventIndicators[i] < 0) stateEvent++;
     prevEventIndicators[i] = ei;]
    on the pair of [stateEvent] and [prevEventIndicators]. *)
Definition check_stateEvent (i : nat) (s : Z * list fmi3Real) : M G (Z * list fmi3Real) :=
  ei <- getEventIndicator i ;;
  prev_i <- of_option (nth_error (snd s) i) ;;
  (if (ei * prev_i <? 0)%float
   then FILTERED_LOG fmi3OK LOG_EVENT
          "fmi3DoStep: state event at %g, z%d crosses zero -%c-"
   else ret tt) ;;
  ret ((if (ei * prev_i <? 0)%float then fst s + 1 else fst s)%Z, upd i ei (snd s)).

Definition check_stateEvents (stateEvent : Z) (prevEventIndicators : list fmi3Real)
  : M G (Z * list fmi3Real) :=
  forM NUMBER_OF_EVENT_INDICATORS 0 check_stateEvent (stateEvent, prevEventIndicators).

(** [comp->eventInfo.nextEventTimeDefined
     && (comp->time - comp->eventInfo.nextEventTime > -DT_EVENT_DETECT)] *)
Definition timeEvent_due (comp : ModelInstance) : bool :=
  nextEventTimeDefined (eventInfo comp)
  && (- DT_EVENT_DETECT <? time comp - nextEventTime (eventInfo comp))%float.

(** The locals that live across the iterations of the stepping loop. *)
Record StepLocals : Type := mkStepLocals {
  prevEventIndicators : list fmi3Real;
  stateEvent : Z;
  timeEvent : Z
}.

(** The body of [for (k = 0; k < n; k++)] in [fmi3DoStep]. *)
Definition doStep_substep (h : fmi3Real) (k : nat) (l : StepLocals)
  : M G (StepLocals + fmi3Status) :=
  modify_comp (fun c => set_time (time c + h)%float c) ;;
  save_states ;;
  euler_states h ;;
  ' (stateEvent1, prev1) <- check_stateEvents (stateEvent l) (prevEventIndicators l) ;;
  comp <- get_comp ;;
  timeEvent1 <- (if timeEvent_due comp
                 then FILTERED_LOG fmi3OK LOG_EVENT
                        "fmi3DoStep: time event detected at %g" ;; ret 1%Z
                 else ret (timeEvent l)) ;;
  l' <- (if negb (stateEvent1 =? 0)%Z || negb (timeEvent1 =? 0)%Z
         then eventUpdate timeEvent1 (Z.b2z fmi3True) ;;
              ret (mkStepLocals prev1 0 0)
         else ret (mkStepLocals prev1 stateEvent1 timeEvent1)) ;;
  comp <- get_comp ;;
  if terminateSimulation (eventInfo comp) then
    FILTERED_LOG fmi3Discard LOG_ALL
      "fmi3DoStep: model requested termination at t=%g" ;;
    modify_comp (set_state modelStepFailed) ;;
    ret (inr fmi3Discard)
  else ret (inl l').

Definition fmi3DoStep (currentCommunicationPoint communicationStepSize : fmi3Real)
    (noSetFMUStatePriorToCurrentPoint : fmi3Boolean) : M G fmi3Status :=
  let h := (communicationStepSize / 10)%float in
  let n := 10 in
  bad <- invalidState "fmi3DoStep" MASK_fmi3DoStep ;;
  if bad then ret fmi3Error else
  FILTERED_LOG fmi3OK LOG_FMI_CALL
    "fmi3DoStep: currentCommunicationPoint = %g, communicationStepSize = %g, noSetFMUStatePriorToCurrentPoint = fmi3%s" ;;
  if (communicationStepSize <=? 0)%float then
    FILTERED_LOG fmi3Error LOG_ERROR
      "fmi3DoStep: communication step size must be > 0. Fount %g." ;;
    modify_comp (set_state modelError) ;;
    ret fmi3Error
  else
  prev <- sample_eventIndicators ;;
  modify_comp (set_time currentCommunicationPoint) ;;
  r <- forRet n 0 (doStep_substep h) (mkStepLocals prev 0 0) ;;
  match r with
  | inr status => ret status
  | inl _ => ret fmi3OK
  end.

(** *** Status inquiries *)

(** [getStatus].  Its call log prints [statusKind[s]], an array of three
    names: for [s = fmi3Terminated] the argument reads past its end, when the
    message is logged. *)
Definition getStatus (fname : string) (s : fmi3StatusKind) : M G fmi3Status :=
  bad <- invalidState fname MASK_fmi3GetStatus ;;
  if bad then ret fmi3Error else
  comp <- get_comp ;;
  (if isCategoryLogged comp LOG_FMI_CALL
   then match s with
        | fmi3Terminated => undefined
        | _ => FILTERED_LOG fmi3OK LOG_FMI_CALL "$s: fmi3StatusKind = %s"
        end
   else ret tt) ;;
  match s with
  | fmi3DoStepStatus =>
      FILTERED_LOG fmi3Error LOG_ERROR
        "%s: Can be called with fmi3DoStepStatus when fmi3DoStep returned fmi3Pending. This is not the case."
  | fmi3PendingStatus =>
      FILTERED_LOG fmi3Error LOG_ERROR
        "%s: Can be called with fmi3PendingStatus when fmi3DoStep returned fmi3Pending. This is not the case."
  | fmi3LastSuccessfulTime =>
      FILTERED_LOG fmi3Error LOG_ERROR
        "%s: Can be called with fmi3LastSuccessfulTime when fmi3DoStep returned fmi3Discard. This is not the case."
  | fmi3Terminated =>
      FILTERED_LOG fmi3Error LOG_ERROR
        "%s: Can be called with fmi3Terminated when fmi3DoStep returned fmi3Discard. This is not the case."
  end ;;
  ret fmi3Discard.

(** [*value = x] through an out pointer: [Some _] points to the caller's
    variable, [None] is NULL. *)
Definition write_out {A} (value : option A) (x : A) : M G (option A) :=
  match value with
  | Some _ => ret (Some x)
  | None => undefined
  end.

Definition fmi3GetStatus (s : fmi3StatusKind) : M G fmi3Status :=
  getStatus "fmi3GetStatus" s.

Definition fmi3GetRealStatus (s : fmi3StatusKind) (value : option fmi3Real)
  : M G (fmi3Status * option fmi3Real) :=
  match s with
  | fmi3LastSuccessfulTime =>
      bad <- invalidState "fmi3GetRealStatus" MASK_fmi3GetRealStatus ;;
      if bad then ret (fmi3Error, value) else
      comp <- get_comp ;;
      value' <- write_out value (time comp) ;;
      ret (fmi3OK, value')
  | _ => st <- getStatus "fmi3GetRealStatus" s ;; ret (st, value)
  end.

Definition fmi3GetIntegerStatus (s : fmi3StatusKind) : M G fmi3Status :=
  getStatus "fmi3GetIntegerStatus" s.

Definition fmi3GetBooleanStatus (s : fmi3StatusKind) (value : option fmi3Boolean)
  : M G (fmi3Status * option fmi3Boolean) :=
  match s with
  | fmi3Terminated =>
      bad <- invalidState "fmi3GetBooleanStatus" MASK_fmi3GetBooleanStatus ;;
      if bad then ret (fmi3Error, value) else
      comp <- get_comp ;;
      value' <- write_out value (terminateSimulation (eventInfo comp)) ;;
      ret (fmi3OK, value')
  | _ => st <- getStatus "fmi3GetBooleanStatus" s ;; ret (st, value)
  end.

Definition fmi3GetStringStatus (s : fmi3StatusKind) : M G fmi3Status :=
  getStatus "fmi3GetStringStatus" s.

(** *** Model exchange *)

Definition fmi3EnterEventMode : M G fmi3Status :=
  bad <- invalidState "fmi3EnterEventMode" MASK_fmi3EnterEventMode ;;
  if bad then ret fmi3Error else
  FILTERED_LOG fmi3OK LOG_FMI_CALL "fmi3EnterEventMode" ;;
  modify_comp (set_state modelEventMode) ;;
  modify_comp (set_isNewEventIteration fmi3True) ;;
  ret fmi3OK.

Definition modify_eventInfo (f : fmi3EventInfo -> fmi3EventInfo) : M G unit :=
  modify_comp (fun c => set_eventInfo (f (eventInfo c)) c).

Definition fmi3NewDiscreteStates (eventInfo_out : option fmi3EventInfo)
  : M G (fmi3Status * option fmi3EventInfo) :=
  bad <- invalidState "fmi3NewDiscreteStates" MASK_fmi3NewDiscreteStates ;;
  if bad then ret (fmi3Error, eventInfo_out) else
  FILTERED_LOG fmi3OK LOG_FMI_CALL "fmi3NewDiscreteStates" ;;
  modify_eventInfo (set_newDiscreteStatesNeeded fmi3False) ;;
  modify_eventInfo (set_terminateSimulation fmi3False) ;;
  modify_eventInfo (set_nominalsOfContinuousStatesChanged fmi3False) ;;
  modify_eventInfo (set_valuesOfContinuousStatesChanged fmi3False) ;;
  comp <- get_comp ;;
  let timeEvent :=
    if nextEventTimeDefined (eventInfo comp)
       && (nextEventTime (eventInfo comp) <=? time comp)%float
    then 1%Z else 0%Z in
  eventUpdate timeEvent (Z.b2z (isNewEventIteration comp)) ;;
  modify_comp (set_isNewEventIteration fmi3False) ;;
  comp <- get_comp ;;
  out <- write_out eventInfo_out (eventInfo comp) ;;
  ret (fmi3OK, out).

Definition fmi3EnterContinuousTimeMode : M G fmi3Status :=
  bad <- invalidState "fmi3EnterContinuousTimeMode" MASK_fmi3EnterContinuousTimeMode ;;
  if bad then ret fmi3Error else
  FILTERED_LOG fmi3OK LOG_FMI_CALL "fmi3EnterContinuousTimeMode" ;;
  modify_comp (set_state modelContinuousTimeMode) ;;
  ret fmi3OK.

Definition fmi3CompletedIntegratorStep (noSetFMUStatePriorToCurrentPoint : fmi3Boolean)
    (enterEventMode terminate : option fmi3Boolean)
  : M G (fmi3Status * option fmi3Boolean * option fmi3Boolean) :=
  bad <- invalidState "fmi3CompletedIntegratorStep" MASK_fmi3CompletedIntegratorStep ;;
  if bad then ret (fmi3Error, enterEventMode, terminate) else
  bad <- nullPointer "fmi3CompletedIntegratorStep" "enterEventMode" enterEventMode ;;
  if bad then ret (fmi3Error, enterEventMode, terminate) else
  bad <- nullPointer "fmi3CompletedIntegratorStep" "terminateSimulation" terminate ;;
  if bad then ret (fmi3Error, enterEventMode, terminate) else
  FILTERED_LOG fmi3OK LOG_FMI_CALL "fmi3CompletedIntegratorStep" ;;
  ret (fmi3OK, Some fmi3False, Some fmi3False).

Definition fmi3SetTime (t : fmi3Real) : M G fmi3Status :=
  bad <- invalidState "fmi3SetTime" MASK_fmi3SetTime ;;
  if bad then ret fmi3Error else
  FILTERED_LOG fmi3OK LOG_FMI_CALL "fmi3SetTime: time=%.16g" ;;
  modify_comp (set_time t) ;;
  ret fmi3OK.

(** The loop that stored [x] into the states is commented out in the
    source. *)
Definition fmi3SetContinuousStates (x : option (list fmi3Real)) (nx : nat)
  : M G fmi3Status :=
  bad <- invalidState "fmi3SetContinuousStates" MASK_fmi3SetContinuousStates ;;
  if bad then ret fmi3Error else
  bad <- invalidNumber "fmi3SetContinuousStates" "nx" nx NUMBER_OF_STATES ;;
  if bad then ret fmi3Error else
  bad <- nullPointer "fmi3SetContinuousStates" "x[]" x ;;
  if bad then ret fmi3Error else
  ret fmi3OK.

Definition fmi3GetDerivatives (derivatives : option (list fmi3Real)) (nx : nat)
  : M G (fmi3Status * option (list fmi3Real)) :=
  bad <- invalidState "fmi3GetDerivatives" MASK_fmi3GetDerivatives ;;
  if bad then ret (fmi3Error, derivatives) else
  bad <- invalidNumber "fmi3GetDerivatives" "nx" nx NUMBER_OF_STATES ;;
  if bad then ret (fmi3Error, derivatives) else
  bad <- nullPointer "fmi3GetDerivatives" "derivatives[]" derivatives ;;
  if bad then ret (fmi3Error, derivatives) else
  out <- forM nx 0
           (fun i out =>
              vr0 <- of_option (nth_error vrStates i) ;;
              p <- getReal ((vr0 + 1) mod 2 ^ 32)%N ;;
              x <- loadR p 0 ;;
              out' <- write_arr out i x ;;
              FILTERED_LOG fmi3OK LOG_FMI_CALL "fmi3GetDerivatives: #r%d# = %.16g" ;;
              ret out') derivatives ;;
  ret (fmi3OK, out).

Definition fmi3GetEventIndicators (eventIndicators : option (list fmi3Real)) (ni : nat)
  : M G (fmi3Status * option (list fmi3Real)) :=
  bad <- invalidState "fmi3GetEventIndicators" MASK_fmi3GetEventIndicators ;;
  if bad then ret (fmi3Error, eventIndicators) else
  bad <- invalidNumber "fmi3GetEventIndicators" "ni" ni NUMBER_OF_EVENT_INDICATORS ;;
  if bad then ret (fmi3Error, eventIndicators) else
  out <- forM ni 0
           (fun i out =>
              x <- getEventIndicator i ;;
              out' <- write_arr out i x ;;
              FILTERED_LOG fmi3OK LOG_FMI_CALL "fmi3GetEventIndicators: z%d = %.16g" ;;
              ret out') eventIndicators ;;
  ret (fmi3OK, out).

Definition fmi3GetContinuousStates (states : option (list fmi3Real)) (nx : nat)
  : M G (fmi3Status * option (list fmi3Real)) :=
  bad <- invalidState "fmi3GetContinuousStates" MASK_fmi3GetContinuousStates ;;
  if bad then ret (fmi3Error, states) else
  bad <- invalidNumber "fmi3GetContinuousStates" "nx" nx NUMBER_OF_STATES ;;
  if bad then ret (fmi3Error, states) else
  bad <- nullPointer "fmi3GetContinuousStates" "states[]" states ;;
  if bad then ret (fmi3Error, states) else
  out <- forM nx 0
           (fun i out =>
              vr <- of_option (nth_error vrStates i) ;;
              p <- getReal vr ;;
              x <- loadR p 0 ;;
              out' <- write_arr out i x ;;
              FILTERED_LOG fmi3OK LOG_FMI_CALL "fmi3GetContinuousStates: #r%u# = %.16g" ;;
              ret out') states ;;
  ret (fmi3OK, out).

Definition fmi3GetNominalsOfContinuousStates (x_nominal : option (list fmi3Real)) (nx : nat)
  : M G (fmi3Status * option (list fmi3Real)) :=
  bad <- invalidState "fmi3GetNominalsOfContinuousStates"
           MASK_fmi3GetNominalsOfContinuousStates ;;
  if bad then ret (fmi3Error, x_nominal) else
  bad <- invalidNumber "fmi3GetNominalContinuousStates" "nx" nx NUMBER_OF_STATES ;;
  if bad then ret (fmi3Error, x_nominal) else
  bad <- nullPointer "fmi3GetNominalContinuousStates" "x_nominal[]" x_nominal ;;
  if bad then ret (fmi3Error, x_nominal) else
  FILTERED_LOG fmi3OK LOG_FMI_CALL
    "fmi3GetNominalContinuousStates: x_nominal[0..%d] = 1.0" ;;
  out <- forM nx 0 (fun i out => write_arr out i 1%float) x_nominal ;;
  ret (fmi3OK, out).

(** *** The protocol operations that take an instance and return a status

    All functions of fmu3Template.c but [fmi3Instantiate] (no instance yet),
    [fmi3FreeInstance] (no status) and [fmi3GetVersion] and
    [fmi3GetTypesPlatform] (neither). *)

Inductive Call : Type :=
| CallSetupExperiment (toleranceDefined : fmi3Boolean) (tolerance startTime : fmi3Real)
    (stopTimeDefined : fmi3Boolean) (stopTime : fmi3Real)
| CallEnterInitializationMode
| CallExitInitializationMode
| CallTerminate
| CallReset
| CallSetDebugLogging (loggingOn : fmi3Boolean) (nCategories : nat)
    (categories : option (list fmi3String))
| CallGetReal (vr : option (list fmi3ValueReference)) (nvr : nat)
    (value : option (list fmi3Real)) (nValues : nat)
| CallGetInteger (vr : option (list fmi3ValueReference)) (nvr : nat)
    (value : option (list fmi3Integer)) (nValues : nat)
| CallGetBoolean (vr : option (list fmi3ValueReference)) (nvr : nat)
    (value : option (list fmi3Boolean)) (nValues : nat)
| CallGetString (vr : option (list fmi3ValueReference)) (nvr : nat)
    (value : option (list (option fmi3String))) (nValues : nat)
| CallSetReal (vr : option (list fmi3ValueReference)) (nvr : nat)
    (value : option (list fmi3Real)) (nValues : nat)
| CallSetInteger (vr : option (list fmi3ValueReference)) (nvr : nat)
    (value : option (list fmi3Integer)) (nValues : nat)
| CallSetBoolean (vr : option (list fmi3ValueReference)) (nvr : nat)
    (value : option (list fmi3Boolean)) (nValues : nat)
| CallSetString (vr : option (list fmi3ValueReference)) (nvr : nat)
    (value : option (list fmi3String)) (nValues : nat)
| CallGetFMUstate
| CallSetFMUstate
| CallFreeFMUstate
| CallSerializedFMUstateSize
| CallSerializeFMUstate
| CallDeSerializeFMUstate
| CallGetDirectionalDerivative
| CallSetRealInputDerivatives (nvr : nat)
| CallGetRealOutputDerivatives (nvr : nat) (value : option (list fmi3Real))
| CallCancelStep
| CallDoStep (currentCommunicationPoint communicationStepSize : fmi3Real)
    (noSetFMUStatePriorToCurrentPoint : fmi3Boolean)
| CallGetStatus (s : fmi3StatusKind)
| CallGetRealStatus (s : fmi3StatusKind) (value : option fmi3Real)
| CallGetIntegerStatus (s : fmi3StatusKind)
| CallGetBooleanStatus (s : fmi3StatusKind) (value : option fmi3Boolean)
| CallGetStringStatus (s : fmi3StatusKind)
| CallEnterEventMode
| CallNewDiscreteStates (eventInfo_out : option fmi3EventInfo)
| CallEnterContinuousTimeMode
| CallCompletedIntegratorStep (noSetFMUStatePriorToCurrentPoint : fmi3Boolean)
    (enterEventMode terminate : option fmi3Boolean)
| CallSetTime (t : fmi3Real)
| CallSetContinuousStates (x : option (list fmi3Real)) (nx : nat)
| CallGetDerivatives (derivatives : option (list fmi3Real)) (nx : nat)
| CallGetEventIndicators (eventIndicators : option (list fmi3Real)) (ni : nat)
| CallGetContinuousStates (states : option (list fmi3Real)) (nx : nat)
| CallGetNominalsOfContinuousStates (x_nominal : option (list fmi3Real)) (nx : nat).

(** The mask each operation passes to [invalidState]. *)
Definition call_mask (c : Call) : Z :=
  match c with
  | CallSetupExperiment _ _ _ _ _ => MASK_fmi3SetupExperiment
  | CallEnterInitializationMode => MASK_fmi3EnterInitializationMode
  | CallExitInitializationMode => MASK_fmi3ExitInitializationMode
  | CallTerminate => MASK_fmi3Terminate
  | CallReset => MASK_fmi3Reset
  | CallSetDebugLogging _ _ _ => MASK_fmi3SetDebugLogging
  | CallGetReal _ _ _ _ => MASK_fmi3GetReal
  | CallGetInteger _ _ _ _ => MASK_fmi3GetInteger
  | CallGetBoolean _ _ _ _ => MASK_fmi3GetBoolean
  | CallGetString _ _ _ _ => MASK_fmi3GetString
  | CallSetReal _ _ _ _ => MASK_fmi3SetReal
  | CallSetInteger _ _ _ _ => MASK_fmi3SetInteger
  | CallSetBoolean _ _ _ _ => MASK_fmi3SetBoolean
  | CallSetString _ _ _ _ => MASK_fmi3SetString
  | CallGetFMUstate => MASK_fmi3GetFMUstate
  | CallSetFMUstate => MASK_fmi3SetFMUstate
  | CallFreeFMUstate => MASK_fmi3FreeFMUstate
  | CallSerializedFMUstateSize => MASK_fmi3SerializedFMUstateSize
  | CallSerializeFMUstate => MASK_fmi3SerializeFMUstate
  | CallDeSerializeFMUstate => MASK_fmi3DeSerializeFMUstate
  | CallGetDirectionalDerivative => MASK_fmi3GetDirectionalDerivative
  | CallSetRealInputDerivatives _ => MASK_fmi3SetRealInputDerivatives
  | CallGetRealOutputDerivatives _ _ => MASK_fmi3GetRealOutputDerivatives
  | CallCancelStep => MASK_fmi3CancelStep
  | CallDoStep _ _ _ => MASK_fmi3DoStep
  | CallGetStatus _ => MASK_fmi3GetStatus
  | CallGetRealStatus _ _ => MASK_fmi3GetRealStatus
  | CallGetIntegerStatus _ => MASK_fmi3GetIntegerStatus
  | CallGetBooleanStatus _ _ => MASK_fmi3GetBooleanStatus
  | CallGetStringStatus _ => MASK_fmi3GetStringStatus
  | CallEnterEventMode => MASK_fmi3EnterEventMode
  | CallNewDiscreteStates _ => MASK_fmi3NewDiscreteStates
  | CallEnterContinuousTimeMode => MASK_fmi3EnterContinuousTimeMode
  | CallCompletedIntegratorStep _ _ _ => MASK_fmi3CompletedIntegratorStep
  | CallSetTime _ => MASK_fmi3SetTime
  | CallSetContinuousStates _ _ => MASK_fmi3SetContinuousStates
  | CallGetDerivatives _ _ => MASK_fmi3GetDerivatives
  | CallGetEventIndicators _ _ => MASK_fmi3GetEventIndicators
  | CallGetContinuousStates _ _ => MASK_fmi3GetContinuousStates
  | CallGetNominalsOfContinuousStates _ _ => MASK_fmi3GetNominalsOfContinuousStates
  end.

Definition status_of {A} (c : M G (fmi3Status * A)) : M G fmi3Status :=
  r <- c ;; ret (fst r).

(** The status an operation returns (what it writes through its out
    parameters is dropped). *)
Definition run (c : Call) : M G fmi3Status :=
  match c with
  | CallSetupExperiment a b t d e => fmi3SetupExperiment a b t d e
  | CallEnterInitializationMode => fmi3EnterInitializationMode
  | CallExitInitializationMode => fmi3ExitInitializationMode
  | CallTerminate => fmi3Terminate
  | CallReset => fmi3Reset
  | CallSetDebugLogging l n cs => fmi3SetDebugLogging l n cs
  | CallGetReal vr nvr value nValues => status_of (fmi3GetReal vr nvr value nValues)
  | CallGetInteger vr nvr value nValues => status_of (fmi3GetInteger vr nvr value nValues)
  | CallGetBoolean vr nvr value nValues => status_of (fmi3GetBoolean vr nvr value nValues)
  | CallGetString vr nvr value nValues => status_of (fmi3GetString vr nvr value nValues)
  | CallSetReal vr nvr value nValues => fmi3SetReal vr nvr value nValues
  | CallSetInteger vr nvr value nValues => fmi3SetInteger vr nvr value nValues
  | CallSetBoolean vr nvr value nValues => fmi3SetBoolean vr nvr value nValues
  | CallSetString vr nvr value nValues => fmi3SetString vr nvr value nValues
  | CallGetFMUstate => fmi3GetFMUstate
  | CallSetFMUstate => fmi3SetFMUstate
  | CallFreeFMUstate => fmi3FreeFMUstate
  | CallSerializedFMUstateSize => fmi3SerializedFMUstateSize
  | CallSerializeFMUstate => fmi3SerializeFMUstate
  | CallDeSerializeFMUstate => fmi3DeSerializeFMUstate
  | CallGetDirectionalDerivative => fmi3GetDirectionalDerivative
  | CallSetRealInputDerivatives nvr => fmi3SetRealInputDerivatives nvr
  | CallGetRealOutputDerivatives nvr value =>
      status_of (fmi3GetRealOutputDerivatives nvr value)
  | CallCancelStep => fmi3CancelStep
  | CallDoStep t h b => fmi3DoStep t h b
  | CallGetStatus s => fmi3GetStatus s
  | CallGetRealStatus s value => status_of (fmi3GetRealStatus s value)
  | CallGetIntegerStatus s => fmi3GetIntegerStatus s
  | CallGetBooleanStatus s value => status_of (fmi3GetBooleanStatus s value)
  | CallGetStringStatus s => fmi3GetStringStatus s
  | CallEnterEventMode => fmi3EnterEventMode
  | CallNewDiscreteStates e => status_of (fmi3NewDiscreteStates e)
  | CallEnterContinuousTimeMode => fmi3EnterContinuousTimeMode
  | CallCompletedIntegratorStep b e t =>
      r <- fmi3CompletedIntegratorStep b e t ;; ret (fst (fst r))
  | CallSetTime t => fmi3SetTime t
  | CallSetContinuousStates x nx => fmi3SetContinuousStates x nx
  | CallGetDerivatives d nx => status_of (fmi3GetDerivatives d nx)
  | CallGetEventIndicators e ni => status_of (fmi3GetEventIndicators e ni)
  | CallGetContinuousStates s nx => status_of (fmi3GetContinuousStates s nx)
  | CallGetNominalsOfContinuousStates x nx =>
      status_of (fmi3GetNominalsOfContinuousStates x nx)
  end.

End Engine.

Arguments vrStates {model}.
Arguments call_mask : clear implicits.

(* ------------------------------------------------------------------------- *)
(** ** The macros of fmu3Template.h the models use *)
(* ------------------------------------------------------------------------- *)

(** [r(vr)], [i(vr)], [b(vr)] are the lvalues [*R(comp, vr)], [*I(comp, vr)],
    [*B(comp, vr)]; [pos(z)] is [comp->isPositive[z]]. *)
Definition r {G} (vr : fmi3ValueReference) : M G fmi3Real :=
  p <- varR (N.to_nat vr) ;; loadR p 0.
Definition r_assign {G} (vr : fmi3ValueReference) (x : fmi3Real) : M G unit :=
  p <- varR (N.to_nat vr) ;; store p 0 (CReal x).
Definition i {G} (vr : fmi3ValueReference) : M G fmi3Integer :=
  p <- varI (N.to_nat vr) ;; loadI p 0.
Definition i_assign {G} (vr : fmi3ValueReference) (n : fmi3Integer) : M G unit :=
  p <- varI (N.to_nat vr) ;; store p 0 (CInt n).
Definition b {G} (vr : fmi3ValueReference) : M G fmi3Boolean :=
  p <- varB (N.to_nat vr) ;; loadB p 0.
Definition b_assign {G} (vr : fmi3ValueReference) (v : fmi3Boolean) : M G unit :=
  p <- varB (N.to_nat vr) ;; store p 0 (CBool v).
Definition pos {G} (z : nat) : M G fmi3Boolean :=
  comp <- get_comp ;; of_option (nth_error (isPositive comp) z).
Definition pos_assign {G} (z : nat) (v : fmi3Boolean) : M G unit :=
  comp <- get_comp ;;
  if z <? List.length (isPositive comp)
  then modify_comp (set_isPositive (upd z v (isPositive comp)))
  else undefined.

(** [R(comp, vr)[j] = x], [I(comp, vr)[j] = n], [B(comp, vr)[j] = v]. *)
Definition R_assign {G} (vr : fmi3ValueReference) (j : nat) (x : fmi3Real) : M G unit :=
  p <- varR (N.to_nat vr) ;; store p j (CReal x).
Definition I_assign {G} (vr : fmi3ValueReference) (j : nat) (n : fmi3Integer) : M G unit :=
  p <- varI (N.to_nat vr) ;; store p j (CInt n).
Definition B_assign {G} (vr : fmi3ValueReference) (j : nat) (v : fmi3Boolean) : M G unit :=
  p <- varB (N.to_nat vr) ;; store p j (CBool v).

(* ------------------------------------------------------------------------- *)
(** ** The models *)
(* ------------------------------------------------------------------------- *)

(** *** Dahlquist/Dahlquist.c *)
Module Dahlquist.

Definition x_ : fmi3ValueReference := 0%N.
Definition der_x_ : fmi3ValueReference := 1%N.
Definition k_ : fmi3ValueReference := 2%N.

#[export] Instance model : Model :=
  mkModel "{8c4e810f-3df3-4a00-8276-176fa3c9f000}" 3 ["r"; "r"; "r"]%char [1; 1; 1]
    1 [x_] 0.

Definition setStartValues : M unit unit :=
  r_assign x_ 1%float ;;
  r_assign k_ 1%float.

Definition calculateValues : M unit unit := ret tt.

Definition getReal (vr : fmi3ValueReference) : M unit ptr :=
  if (vr =? x_)%N then varR (N.to_nat x_)
  else if (vr =? der_x_)%N then
    x <- r x_ ;;
    x' <- r x_ ;;
    r_assign der_x_ (- x * x')%float ;;
    varR (N.to_nat der_x_)
  else if (vr =? k_)%N then varR (N.to_nat k_)
  else ret NULL.

(** The model has no event indicators and defines no [getEventIndicator];
    the engine's calls are compiled out ([#if NUMBER_OF_EVENT_INDICATORS>0]). *)
Definition getEventIndicator (z : nat) : M unit fmi3Real := undefined.

Definition eventUpdate (isTimeEvent isNewEventIteration : Z) : M unit unit := ret tt.

#[export] Instance hooks : Hooks unit :=
  mkHooks setStartValues calculateValues getReal getEventIndicator eventUpdate.

End Dahlquist.

(** *** BouncingBall/BouncingBall.c *)
Module BouncingBall.

Definition h_ : fmi3ValueReference := 0%N.
Definition der_h_ : fmi3ValueReference := 1%N.
Definition v_ : fmi3ValueReference := 2%N.
Definition der_v_ : fmi3ValueReference := 3%N.
Definition g_ : fmi3ValueReference := 4%N.
Definition e_ : fmi3ValueReference := 5%N.

#[export] Instance model : Model :=
  mkModel "{8c4e810f-3df3-4a00-8276-176fa3c9f003}" 6
    ["r"; "r"; "r"; "r"; "r"; "r"]%char [1; 1; 1; 1; 1; 1]
    2 [h_; v_] 1.

(** The process-wide [fmi3Real prevV], "previous value of r(v_)".  (The
    other globals of the file belong to [fmi3GetVariables] and
    [fmi3SetVariables], which the engine never calls.) *)
Definition Globals : Type := fmi3Real.
Definition prevV_initial : Globals := 0%float.

Definition setStartValues : M Globals unit :=
  r_assign h_ 1%float ;;
  r_assign v_ 0%float ;;
  r_assign g_ 9.81%float ;;
  r_assign e_ 0.7%float.

Definition calculateValues : M Globals unit :=
  comp <- get_comp ;;
  match state comp with
  | modelInitializationMode =>
      g <- r g_ ;;
      r_assign der_v_ (- g)%float ;;
      h <- r h_ ;;
      pos_assign 0 (0 <? h)%float
  | _ => ret tt
  end.

Definition getReal (vr : fmi3ValueReference) : M Globals ptr :=
  if (vr =? h_)%N then varR (N.to_nat h_)
  else if (vr =? der_h_)%N then varR (N.to_nat v_)
  else if (vr =? v_)%N then varR (N.to_nat v_)
  else if (vr =? der_v_)%N then varR (N.to_nat der_v_)
  else if (vr =? g_)%N then varR (N.to_nat g_)
  else if (vr =? e_)%N then varR (N.to_nat e_)
  else ret NULL.

Definition EPS_INDICATORS : fmi3Real := 1e-14%float.

Definition getEventIndicator (z : nat) : M Globals fmi3Real :=
  match z with
  | O =>
      h <- r h_ ;;
      p <- pos 0 ;;
      ret (h + (if p then EPS_INDICATORS else - EPS_INDICATORS))%float
  | _ => ret 0%float
  end.

Definition eventUpdate (isTimeEvent isNewEventIteration : Z) : M Globals unit :=
  (if negb (isNewEventIteration =? 0)%Z
   then v <- r v_ ;; put_globals v
   else ret tt) ;;
  h <- r h_ ;;
  pos_assign 0 (0 <? h)%float ;;
  p <- pos 0 ;;
  (if negb p then
     e <- r e_ ;;
     prevV <- get_globals ;;
     let tempV := (- e * prevV)%float in
     v <- r v_ ;;
     (if negb (v =? tempV)%float then
        r_assign v_ tempV ;;
        modify_comp (fun c =>
          set_eventInfo (set_valuesOfContinuousStatesChanged fmi3True (eventInfo c)) c)
      else ret tt) ;;
     v <- r v_ ;;
     (if (v <? 1e-3)%float then
        r_assign v_ 0%float ;;
        r_assign der_v_ 0%float
      else ret tt)
   else ret tt) ;;
  modify_comp (fun c =>
    set_eventInfo (set_nominalsOfContinuousStatesChanged fmi3False (eventInfo c)) c) ;;
  modify_comp (fun c =>
    set_eventInfo (set_terminateSimulation fmi3False (eventInfo c)) c) ;;
  modify_comp (fun c =>
    set_eventInfo (set_nextEventTimeDefined fmi3False (eventInfo c)) c).

#[export] Instance hooks : Hooks Globals :=
  mkHooks setStartValues calculateValues getReal getEventIndicator eventUpdate.

End BouncingBall.

(** *** Values/Values.c *)
Module Values.

Definition x_ : fmi3ValueReference := 0%N.
Definition der_x_ : fmi3ValueReference := 1%N.
Definition int_in_ : fmi3ValueReference := 2%N.
Definition int_out_ : fmi3ValueReference := 3%N.
Definition bool_in_ : fmi3ValueReference := 4%N.
Definition bool_out_ : fmi3ValueReference := 5%N.
Definition string_in_ : fmi3ValueReference := 6%N.
Definition string_out_ : fmi3ValueReference := 7%N.

#[export] Instance model : Model :=
  mkModel "{8c4e810f-3df3-4a00-8276-176fa3c9f004}" 8
    ["r"; "r"; "i"; "i"; "b"; "b"; "s"; "s"]%char [1; 1; 1; 1; 1; 1; 1; 1]
    1 [x_] 0.

Definition month : list fmi3String :=
  ["jan"; "feb"; "march"; "april"; "may"; "june"; "july";
   "august"; "sept"; "october"; "november"; "december"].

(** [copy(vr, value, size)] is [setString(comp, vr, value, size)]; its
    status is dropped. *)
Definition copy (vr : fmi3ValueReference) (value : fmi3String) (size : nat) : M unit unit :=
  _ <- setString vr value size ;; ret tt.

Definition setStartValues : M unit unit :=
  r_assign x_ 1%float ;;
  i_assign int_in_ 2%Z ;;
  i_assign int_out_ 0%Z ;;
  b_assign bool_in_ fmi3True ;;
  b_assign bool_out_ fmi3False ;;
  copy string_in_ "QTronic" 1 ;;
  copy string_out_ (nth 0 month "") 1.

Definition calculateValues : M unit unit :=
  comp <- get_comp ;;
  match state comp with
  | modelInitializationMode =>
      modify_comp (fun c =>
        set_eventInfo (set_nextEventTimeDefined fmi3True (eventInfo c)) c) ;;
      modify_comp (fun c =>
        set_eventInfo (set_nextEventTime (1 + time c)%float (eventInfo c)) c)
  | _ => ret tt
  end.

Definition getReal (vr : fmi3ValueReference) : M unit ptr :=
  if (vr =? x_)%N then varR (N.to_nat x_)
  else if (vr =? der_x_)%N then
    x <- r x_ ;;
    r_assign der_x_ (- x)%float ;;
    varR (N.to_nat der_x_)
  else ret NULL.

(** No event indicators: see [Dahlquist.getEventIndicator]. *)
Definition getEventIndicator (z : nat) : M unit fmi3Real := undefined.

(** [i(int_out_) += 1] in [int]: past [INT_MAX] it is undefined;
    [month[i(int_out_)]] outside the table is undefined. *)
Definition eventUpdate (isTimeEvent isNewEventIteration : Z) : M unit unit :=
  if negb (isTimeEvent =? 0)%Z then
    modify_comp (fun c =>
      set_eventInfo (set_nextEventTimeDefined fmi3True (eventInfo c)) c) ;;
    modify_comp (fun c =>
      set_eventInfo (set_nextEventTime (1 + time c)%float (eventInfo c)) c) ;;
    n <- i int_out_ ;;
    (if (n + 1 <=? 2147483647)%Z then i_assign int_out_ (n + 1)%Z else undefined) ;;
    v <- b bool_out_ ;;
    b_assign bool_out_ (negb v) ;;
    n <- i int_out_ ;;
    if (n <? 12)%Z then
      (if (0 <=? n)%Z
       then copy string_out_ (nth (Z.to_nat n) month "") 1
       else undefined)
    else
      modify_comp (fun c =>
        set_eventInfo (set_terminateSimulation fmi3True (eventInfo c)) c)
  else ret tt.

#[export] Instance hooks : Hooks unit :=
  mkHooks setStartValues calculateValues getReal getEventIndicator eventUpdate.

End Values.

(** *** LinearTransform/LinearTransform.c *)
Module LinearTransform.

Definition u_ : fmi3ValueReference := 0%N.
Definition T_ : fmi3ValueReference := 1%N.
Definition y_ : fmi3ValueReference := 2%N.
Definition i_in_ : fmi3ValueReference := 3%N.
Definition i_out_ : fmi3ValueReference := 4%N.
Definition b_in_ : fmi3ValueReference := 5%N.
Definition b_out_ : fmi3ValueReference := 6%N.

(** The model has no states and defines no [STATES]. *)
#[export] Instance model : Model :=
  mkModel "{8c4e810f-3df3-4a00-8276-176fa3c9f001}" 7
    ["r"; "r"; "r"; "i"; "i"; "b"; "b"]%char [3; 9; 3; 2; 2; 2; 2]
    0 [] 0.

Definition setStartValues : M unit unit :=
  R_assign u_ 0 (-0.1)%float ;;
  R_assign u_ 1 (-0.2)%float ;;
  R_assign u_ 2 (-0.3)%float ;;
  R_assign T_ 0 0%float ;; R_assign T_ 1 0%float ;; R_assign T_ 2 (-1)%float ;;
  R_assign T_ 3 0%float ;; R_assign T_ 4 (-1)%float ;; R_assign T_ 5 0%float ;;
  R_assign T_ 6 (-1)%float ;; R_assign T_ 7 0%float ;; R_assign T_ 8 0%float ;;
  R_assign y_ 0 0.1%float ;;
  R_assign y_ 1 0.2%float ;;
  R_assign y_ 2 0.3%float ;;
  I_assign i_in_ 0 (-1)%Z ;;
  I_assign i_in_ 1 1%Z ;;
  I_assign i_out_ 0 (-1)%Z ;;
  I_assign i_out_ 1 1%Z ;;
  B_assign b_in_ 0 fmi3False ;;
  B_assign b_in_ 1 fmi3True ;;
  B_assign b_out_ 0 fmi3False ;;
  B_assign b_out_ 1 fmi3True.

(** The [printf] to the process's standard output is not modelled. *)
Definition calculateValues : M unit unit :=
  p <- varI (N.to_nat i_in_) ;; n0 <- loadI p 0 ;;
  I_assign i_out_ 0 n0 ;;
  p <- varI (N.to_nat i_in_) ;; n1 <- loadI p 1 ;;
  I_assign i_out_ 1 n1.

Definition getReal (vr : fmi3ValueReference) : M unit ptr :=
  if (vr =? u_)%N then varR (N.to_nat u_)
  else if (vr =? T_)%N then varR (N.to_nat T_)
  else if (vr =? y_)%N then varR (N.to_nat y_)
  else ret NULL.

(** No event indicators: see [Dahlquist.getEventIndicator]. *)
Definition getEventIndicator (z : nat) : M unit fmi3Real := undefined.

Definition eventUpdate (isTimeEvent isNewEventIteration : Z) : M unit unit := ret tt.

#[export] Instance hooks : Hooks unit :=
  mkHooks setStartValues calculateValues getReal getEventIndicator eventUpdate.

End LinearTransform.

(* ------------------------------------------------------------------------- *)
(** ** Call sequences of a host *)
(* ------------------------------------------------------------------------- *)

(** The callback bundle of [fmurun.c]: all four callbacks are set. *)
Definition callbacks : fmi3CallbackFunctions := mkCallbacks true true true true.

Definition blank_instance : ModelInstance :=
  mkModelInstance [] [] 0%float "" fmi3CoSimulation "" callbacks false []
    modelStartAndEnd zero_eventInfo false false.

(** [instantiate("instanceName", fmuType, MODEL_GUID, "file:///path",
    &callbacks, fmi3False, loggingOn)] as [fmurun.c] calls it, in a process
    whose globals are [g] and whose log is empty. *)
Definition start {G} {model : Model} {hooks : Hooks G} (g : G) (fmuType : fmi3Type)
    (loggingOn : fmi3Boolean) : option (World G) :=
  match fmi3Instantiate (Some "instanceName") fmuType (Some MODEL_GUID)
          (Some "file:///path") callbacks fmi3False loggingOn [] g with
  | Some (Some comp, log, g') => Some (mkWorld comp log g')
  | _ => None
  end.

(** The world after one more call, whatever it returned. *)
Definition and_then {G A} (o : option (World G)) (c : M G A) : option (World G) :=
  match o with
  | Some w => match c w with Some (_, w') => Some w' | None => None end
  | None => None
  end.

Definition world_or {G} (g : G) (o : option (World G)) : World G :=
  match o with Some w => w | None => mkWorld blank_instance [] g end.

Module Scenario.

(** Dahlquist, co-simulation: instantiated. *)
Definition dq_instantiated : World unit :=
  Eval vm_compute in
    world_or tt (@start _ Dahlquist.model Dahlquist.hooks tt fmi3CoSimulation fmi3False).

(** Dahlquist, co-simulation, as [fmurun.c] drives it up to the first step:
    instantiate, setupExperiment, enter and exit initialization. *)
Definition dq_ready : World unit :=
  Eval vm_compute in
    world_or tt
      (and_then (and_then (and_then (Some dq_instantiated)
         (@fmi3SetupExperiment _ false 0 0 false 0)%float)
         (@fmi3EnterInitializationMode _))
         (@fmi3ExitInitializationMode _ Dahlquist.hooks)).

(** Dahlquist after a step of size 0 was refused. *)
Definition dq_error : World unit :=
  Eval vm_compute in
    world_or tt
      (and_then (Some dq_ready)
         (@fmi3DoStep _ Dahlquist.model Dahlquist.hooks 0 0 false)%float).

(** Dahlquist, model exchange, in continuous-time mode. *)
Definition dq_continuous : World unit :=
  Eval vm_compute in
    world_or tt
      (and_then (and_then (and_then (and_then
         (@start _ Dahlquist.model Dahlquist.hooks tt fmi3ModelExchange fmi3True)
         (@fmi3SetupExperiment _ false 0 0 false 0)%float)
         (@fmi3EnterInitializationMode _))
         (@fmi3ExitInitializationMode _ Dahlquist.hooks))
         (@fmi3EnterContinuousTimeMode _)).

(** BouncingBall, co-simulation, in initialization mode. *)
Definition bb_initialization : World BouncingBall.Globals :=
  Eval vm_compute in
    world_or BouncingBall.prevV_initial
      (and_then (and_then
         (@start _ BouncingBall.model BouncingBall.hooks BouncingBall.prevV_initial
            fmi3CoSimulation fmi3False)
         (@fmi3SetupExperiment _ false 0 0 false 0)%float)
         (@fmi3EnterInitializationMode _)).

(** BouncingBall, ready for its first step. *)
Definition bb_ready : World BouncingBall.Globals :=
  Eval vm_compute in
    world_or BouncingBall.prevV_initial
      (and_then (Some bb_initialization)
         (@fmi3ExitInitializationMode _ BouncingBall.hooks)).

(** Values, co-simulation, logging on: instantiated, and ready to step. *)
Definition values_instantiated : World unit :=
  Eval vm_compute in
    world_or tt (@start _ Values.model Values.hooks tt fmi3CoSimulation fmi3True).

Definition values_ready : World unit :=
  Eval vm_compute in
    world_or tt
      (and_then (and_then (and_then (Some values_instantiated)
         (@fmi3SetupExperiment _ false 0 0 false 0)%float)
         (@fmi3EnterInitializationMode _))
         (@fmi3ExitInitializationMode _ Values.hooks)).

(** BouncingBall after the host set the velocity [v_] to 2, and BouncingBall
    after a first step of size 1. *)
Definition bb_thrown : World BouncingBall.Globals :=
  Eval vm_compute in
    world_or BouncingBall.prevV_initial
      (and_then (Some bb_ready)
         (@fmi3SetReal _ BouncingBall.model (Some [BouncingBall.v_]) 1
            (Some [2%float]) 1)).

Definition bb_stepped : World BouncingBall.Globals :=
  Eval vm_compute in
    world_or BouncingBall.prevV_initial
      (and_then (Some bb_ready)
         (@fmi3DoStep _ BouncingBall.model BouncingBall.hooks 0 1 false)%float).

End Scenario.

(* ------------------------------------------------------------------------- *)
(** ** Vocabulary of the statements *)
(* ------------------------------------------------------------------------- *)

(** The world a call leaves when [invalidState] refuses it: the state is
    [modelError], the host has one more error record, nothing else moved. *)
Definition illegal_call {G} (w : World G) : World G :=
  mkWorld (set_state modelError (inst w))
    (host_log w ++ [mkLog (instanceName (inst w)) fmi3Error "logError"
                      "%s: Illegal call sequence."])
    (globals w).

(** A state is in an operation's legal set when its bit is in the mask. *)
Definition legal (s : ModelState) (mask : Z) : Prop := Z.land s mask <> 0%Z.

(** An entry [vr] of a batch is invalid for the kind letter [type] when it is
    out of range or when the variable's declared kind is another letter. *)
Definition invalid_entry {model : Model} (type : ascii) (vr : fmi3ValueReference) : Prop :=
  (N.of_nat N_VARIABLES <= vr)%N
  \/ nth (N.to_nat vr) s_variableTypes Ascii.zero <> type.

(** The values of a batched set call, by kind; the setter each kind goes to,
    its mask, and the kind letter that setter passes to [vrOutOfRange]. *)
Inductive SetValues : Type :=
| RealValues (value : list fmi3Real)
| IntegerValues (value : list fmi3Integer)
| BooleanValues (value : list fmi3Boolean)
| StringValues (value : list fmi3String).

Definition fmi3Set {G} {model : Model} (vr : list fmi3ValueReference) (nvr : nat)
    (values : SetValues) (nValues : nat) : M G fmi3Status :=
  match values with
  | RealValues value => fmi3SetReal (Some vr) nvr (Some value) nValues
  | IntegerValues value => fmi3SetInteger (Some vr) nvr (Some value) nValues
  | BooleanValues value => fmi3SetBoolean (Some vr) nvr (Some value) nValues
  | StringValues value => fmi3SetString (Some vr) nvr (Some value) nValues
  end.

Definition set_mask (values : SetValues) : Z :=
  match values with
  | RealValues _ => MASK_fmi3SetReal
  | IntegerValues _ => MASK_fmi3SetInteger
  | BooleanValues _ => MASK_fmi3SetBoolean
  | StringValues _ => MASK_fmi3SetString
  end.

Definition checked_kind (values : SetValues) : ascii :=
  match values with
  | RealValues _ => "r"
  | IntegerValues _ => "i"
  | BooleanValues _ => "i"
  | StringValues _ => "s"
  end%char.

(** A computation keeps the dirty flag when no run of it changes
    [isDirtyValues]. *)
Definition keeps_dirty {G A} (c : M G A) : Prop :=
  forall (w : World G) (a : A) (w' : World G),
    c w = Some (a, w') -> isDirtyValues (inst w') = isDirtyValues (inst w).

(** *** What a step does, as relations between worlds *)

Section SteppingVocabulary.

Context {G : Type} {model : Model} {hooks : Hooks G}.

(** Forward Euler on the states [vrStates[lo]], ..., [vrStates[lo+count-1]],
    in this order: each state takes its value plus [h] times the first
    element of what the model's read hook [getReal] yields for the next value
    reference. *)
Inductive EulerAdvance (h : fmi3Real) : nat -> nat -> World G -> World G -> Prop :=
| EulerAdvance_done (lo : nat) (w : World G) : EulerAdvance h 0 lo w w
| EulerAdvance_state (count lo : nat) (vr : fmi3ValueReference) (d : ptr)
    (der x : fmi3Real) (w w1 w2 w3 : World G) :
    nth_error vrStates lo = Some vr ->
    getReal ((vr + 1) mod 2 ^ 32)%N w = Some (d, w1) ->
    loadR d 0 w1 = Some (der, w1) ->
    r vr w1 = Some (x, w1) ->
    r_assign vr (x + h * der)%float w1 = Some (tt, w2) ->
    EulerAdvance h count (1 + lo) w2 w3 ->
    EulerAdvance h (1 + count) lo w w3.

(** An indicator crosses zero between two samples when the product of its
    current and its previous value is negative. *)
Definition crossing (z : fmi3Real * fmi3Real) : bool := (fst z * snd z <? 0)%float.

(** The event indicators [lo], ..., [lo+count-1] are recomputed in this order;
    [seen] collects each one's current value with its previous value, and the
    current values replace the previous ones. *)
Inductive IndicatorScan :
  nat -> nat -> list fmi3Real -> World G ->
  list (fmi3Real * fmi3Real) -> list fmi3Real -> World G -> Prop :=
| IndicatorScan_done (lo : nat) (prev : list fmi3Real) (w : World G) :
    IndicatorScan 0 lo prev w [] prev w
| IndicatorScan_indicator (count lo : nat) (prev : list fmi3Real) (ei prev_i : fmi3Real)
    (w w1 w2 w3 : World G) (seen : list (fmi3Real * fmi3Real)) (prev' : list fmi3Real) :
    getEventIndicator lo w = Some (ei, w1) ->
    nth_error prev lo = Some prev_i ->
    (if crossing (ei, prev_i)
     then FILTERED_LOG fmi3OK LOG_EVENT
            "fmi3DoStep: state event at %g, z%d crosses zero -%c-"
     else ret tt) w1 = Some (tt, w2) ->
    IndicatorScan count (1 + lo) (upd lo ei prev) w2 seen prev' w3 ->
    IndicatorScan (1 + count) lo prev w ((ei, prev_i) :: seen) prev' w3.

(** One sub-interval of length [h] that does not end the step: the time
    moves by [h], the states make a forward Euler step, the indicators are
    recomputed, and the model's event hook runs exactly when a state event
    (some indicator crossing zero) or a time event is flagged. *)
Inductive SubInterval (h : fmi3Real) (prev : list fmi3Real) (w : World G)
    (prev' : list fmi3Real) (w' : World G) : Prop :=
| SubInterval_intro (we wi wt : World G) (seen : list (fmi3Real * fmi3Real)) (te : bool) :
    EulerAdvance h NUMBER_OF_STATES 0
      (mkWorld (set_time (time (inst w) + h)%float (inst w)) (host_log w) (globals w))
      we ->
    IndicatorScan NUMBER_OF_EVENT_INDICATORS 0 prev we seen prev' wi ->
    te = timeEvent_due (inst wi) ->
    (if te
     then FILTERED_LOG fmi3OK LOG_EVENT "fmi3DoStep: time event detected at %g"
     else ret tt) wi = Some (tt, wt) ->
    (if existsb crossing seen || te
     then eventUpdate (if te then 1 else 0)%Z 1%Z
     else ret tt) wt = Some (tt, w') ->
    terminateSimulation (eventInfo (inst w')) = false ->
    SubInterval h prev w prev' w'.

(** [n] sub-intervals of length [h] in a row. *)
Inductive SubIntervals (h : fmi3Real) :
  nat -> list fmi3Real -> World G -> list fmi3Real -> World G -> Prop :=
| SubIntervals_none (prev : list fmi3Real) (w : World G) :
    SubIntervals h 0 prev w prev w
| SubIntervals_next (n : nat) (prev prev1 prev2 : list fmi3Real) (w w1 w2 : World G) :
    SubInterval h prev w prev1 w1 ->
    SubIntervals h n prev1 w1 prev2 w2 ->
    SubIntervals h (1 + n) prev w prev2 w2.

End SteppingVocabulary.

(** *** Frames: what every run of a computation leaves related *)

(** The relations between the instance before and after that can be followed
    through a computation: those an instance has with itself and that
    compose. *)
Class Frame (R : ModelInstance -> ModelInstance -> Prop) : Prop := mkFrame {
  frame_refl : forall c, R c c;
  frame_trans : forall c1 c2 c3, R c1 c2 -> R c2 c3 -> R c1 c3
}.

(** Every run of [c] takes an instance to one that [R] relates to it. *)
Definition respects {G A} (R : ModelInstance -> ModelInstance -> Prop) (c : M G A) : Prop :=
  forall (w : World G) (a : A) (w' : World G), c w = Some (a, w') -> R (inst w) (inst w').

(** A computation keeps a field of the instance when no run of it changes
    the field. *)
Definition kept {X} (field : ModelInstance -> X) (c c' : ModelInstance) : Prop :=
  field c' = field c.
Definition keeps {G A X} (field : ModelInstance -> X) (c : M G A) : Prop :=
  respects (kept field) c.

#[export] Instance kept_Frame {X} (field : ModelInstance -> X) : Frame (kept field) :=
  {| frame_refl := fun c => eq_refl;
     frame_trans := fun c1 c2 c3 (H12 : field c2 = field c1) (H23 : field c3 = field c2) =>
                      eq_trans H23 H12 |}.

(** The five functions of the includer respect [R]. *)
Definition hooks_respect {G} (hooks : Hooks G) (R : ModelInstance -> ModelInstance -> Prop)
  : Prop :=
  respects R setStartValues
  /\ respects R calculateValues
  /\ (forall vr, respects R (getReal vr))
  /\ (forall z, respects R (getEventIndicator z))
  /\ (forall isTimeEvent isNewEventIteration,
        respects R (eventUpdate isTimeEvent isNewEventIteration)).

(** Every result of [c] satisfies [P]. *)
Definition yields {G A} (P : A -> Prop) (c : M G A) : Prop :=
  forall (w : World G) (a : A) (w' : World G), c w = Some (a, w') -> P a.

(** The life-cycle states some statement of fmu3Template.c assigns to
    [comp->state]. *)
Definition assigned_state (s : ModelState) : bool :=
  match s with
  | modelStartAndEnd | modelStepInProgress | modelStepCanceled | modelFatal => false
  | _ => true
  end.

(** The state after is the state before, or a state the engine assigns. *)
Definition state_moves (c c' : ModelInstance) : Prop :=
  state c' = state c \/ assigned_state (state c') = true.

#[export] Instance state_moves_Frame : Frame state_moves :=
  {| frame_refl := fun c => or_introl eq_refl;
     frame_trans := fun c1 c2 c3 (H12 : state_moves c1 c2) (H23 : state_moves c2 c3) =>
       match H23 with
       | or_introl e23 =>
           match H12 with
           | or_introl e12 => or_introl (eq_trans e23 e12)
           | or_intror a2 =>
               or_intror (eq_ind_r (fun s => assigned_state s = true) a2 e23)
           end
       | or_intror a3 => or_intror a3
       end |}.

(** The operations in which the engine assigns [comp->time]. *)
Definition sets_time (call : Call) : bool :=
  match call with
  | CallSetupExperiment _ _ _ _ _ | CallSetTime _ | CallDoStep _ _ _ => true
  | _ => false
  end.

(** The operations in which the engine stores into a block of
    [comp->variables] or calls a function of the includer. *)
Definition stores_or_calls_model (call : Call) : bool :=
  match call with
  | CallSetReal _ _ _ _ | CallSetInteger _ _ _ _ | CallSetBoolean _ _ _ _
  | CallGetReal _ _ _ _ | CallGetInteger _ _ _ _ | CallGetBoolean _ _ _ _
  | CallGetString _ _ _ _
  | CallExitInitializationMode | CallReset | CallDoStep _ _ _
  | CallNewDiscreteStates _
  | CallGetDerivatives _ _ | CallGetEventIndicators _ _ | CallGetContinuousStates _ _ => true
  | _ => false
  end.

(** Operations that always end in [return fmi3Error] and write nothing: the
    seven that go to [unsupportedFunction], and the two co-simulation
    functions that log why they do nothing. *)
Definition not_implemented (call : Call) : bool :=
  match call with
  | CallGetFMUstate | CallSetFMUstate | CallFreeFMUstate | CallSerializedFMUstateSize
  | CallSerializeFMUstate | CallDeSerializeFMUstate | CallGetDirectionalDerivative
  | CallSetRealInputDerivatives _ | CallCancelStep => true
  | _ => false
  end.

(** The operations with a [return fmi3Discard]: [fmi3DoStep] and, through
    [getStatus], the five status inquiries. *)
Definition may_discard (call : Call) : bool :=
  match call with
  | CallDoStep _ _ _ | CallGetStatus _ | CallGetRealStatus _ _ | CallGetIntegerStatus _
  | CallGetBooleanStatus _ _ | CallGetStringStatus _ => true
  | _ => false
  end.

(** What the operations that only check the state, log the call and assign
    fields of the instance do to the instance when the state is legal. *)
Definition lifecycle_effect (call : Call) : option (ModelInstance -> ModelInstance) :=
  match call with
  | CallSetupExperiment _ _ startTime _ _ => Some (set_time startTime)
  | CallEnterInitializationMode => Some (set_state modelInitializationMode)
  | CallTerminate => Some (set_state modelTerminated)
  | CallEnterEventMode =>
      Some (fun c => set_isNewEventIteration fmi3True (set_state modelEventMode c))
  | CallEnterContinuousTimeMode => Some (set_state modelContinuousTimeMode)
  | CallSetTime t => Some (set_time t)
  | _ => None
  end.

(** A typed get or set of no variable: [nvr = 0]. *)
Definition empty_batch (call : Call) : bool :=
  match call with
  | CallGetReal _ 0 _ _ | CallGetInteger _ 0 _ _ | CallGetBoolean _ 0 _ _
  | CallGetString _ 0 _ _
  | CallSetReal _ 0 _ _ | CallSetInteger _ 0 _ _ | CallSetBoolean _ 0 _ _
  | CallSetString _ 0 _ _ => true
  | _ => false
  end.

Definition is_NULL {A} (p : option A) : bool :=
  match p with None => true | Some _ => false end.

(** A count [invalidNumber] refuses: one that, passed as an [int], is not
    the expected number passed as an [int]. *)
Definition wrong_count (n nExpected : nat) : bool :=
  negb (int_of_size_t n =? int_of_size_t nExpected)%Z.

(** The arguments [invalidNumber] or [nullPointer] refuse, operation by
    operation: an array that is NULL where [nvr > 0], an out pointer that is
    NULL, a count that as an [int] is not the model's.
    ([fmi3GetEventIndicators] has no test of its array.) *)
Definition invalid_argument {model : Model} (call : Call) : bool :=
  match call with
  | CallGetReal vr nvr value _ => (0 <? nvr) && (is_NULL vr || is_NULL value)
  | CallGetInteger vr nvr value _ => (0 <? nvr) && (is_NULL vr || is_NULL value)
  | CallGetBoolean vr nvr value _ => (0 <? nvr) && (is_NULL vr || is_NULL value)
  | CallGetString vr nvr value _ => (0 <? nvr) && (is_NULL vr || is_NULL value)
  | CallSetReal vr nvr value _ => (0 <? nvr) && (is_NULL vr || is_NULL value)
  | CallSetInteger vr nvr value _ => (0 <? nvr) && (is_NULL vr || is_NULL value)
  | CallSetBoolean vr nvr value _ => (0 <? nvr) && (is_NULL vr || is_NULL value)
  | CallSetString vr nvr value _ => (0 <? nvr) && (is_NULL vr || is_NULL value)
  | CallCompletedIntegratorStep _ enterEventMode terminate =>
      is_NULL enterEventMode || is_NULL terminate
  | CallSetContinuousStates x nx => wrong_count nx NUMBER_OF_STATES || is_NULL x
  | CallGetDerivatives derivatives nx =>
      wrong_count nx NUMBER_OF_STATES || is_NULL derivatives
  | CallGetEventIndicators _ ni => wrong_count ni NUMBER_OF_EVENT_INDICATORS
  | CallGetContinuousStates states nx => wrong_count nx NUMBER_OF_STATES || is_NULL states
  | CallGetNominalsOfContinuousStates x_nominal nx =>
      wrong_count nx NUMBER_OF_STATES || is_NULL x_nominal
  | _ => false
  end.

(** The category flags a list of category names selects: a category is on
    when its name is in the list and logging is switched on. *)
Definition categories_selected (loggingOn : fmi3Boolean) (categories : list fmi3String)
  : list fmi3Boolean :=
  map (fun name => existsb (String.eqb name) categories && loggingOn) logCategoriesNames.

(** A category name that is none of [logCategoriesNames]. *)
Definition unsupported_category (category : fmi3String) : bool :=
  negb (existsb (fun name => String.eqb name category) logCategoriesNames).

(** The warning [fmi3SetDebugLogging] sends to the logger for such a name. *)
Definition unsupported_category_warning (comp : ModelInstance) : LogRecord :=
  mkLog (instanceName comp) fmi3Warning "logError"
    "logging category '%s' is not supported by model".

(** The four typed getters. *)
Definition is_get (call : Call) : bool :=
  match call with
  | CallGetReal _ _ _ _ | CallGetInteger _ _ _ _ | CallGetBoolean _ _ _ _
  | CallGetString _ _ _ _ => true
  | _ => false
  end.

(** No request to terminate appears: if [eventInfo.terminateSimulation] was
    clear before, it is clear after. *)
Definition no_termination_request (c c' : ModelInstance) : Prop :=
  terminateSimulation (eventInfo c) = false -> terminateSimulation (eventInfo c') = false.

#[export] Instance no_termination_request_Frame : Frame no_termination_request :=
  {| frame_refl := fun c H => H;
     frame_trans := fun c1 c2 c3 (H12 : no_termination_request c1 c2)
                        (H23 : no_termination_request c2 c3) H => H23 (H12 H) |}.

(** *** Further worlds a host reaches *)

Module Episodes.

Import Scenario.

(** Values stepped [count] times by 1 from the communication point [t]. *)
Fixpoint values_steps (count : nat) (t : fmi3Real) (o : option (World unit))
  : option (World unit) :=
  match count with
  | O => o
  | Datatypes.S count' =>
      values_steps count' (t + 1)%float
        (and_then o (@fmi3DoStep _ Values.model Values.hooks t 1%float false))
  end.

(** Values after eleven steps of size 1 from time 0, and after the twelfth. *)
Definition values_eleven : World unit :=
  Eval vm_compute in world_or tt (values_steps 11 0%float (Some values_ready)).

Definition values_discarded : World unit :=
  Eval vm_compute in world_or tt (values_steps 1 11%float (Some values_eleven)).

(** Dahlquist, model exchange, in event mode after the initialization. *)
Definition dq_event_mode : World unit :=
  Eval vm_compute in
    world_or tt
      (and_then (and_then (and_then
         (@start _ Dahlquist.model Dahlquist.hooks tt fmi3ModelExchange fmi3True)
         (@fmi3SetupExperiment _ false 0 0 false 0)%float)
         (@fmi3EnterInitializationMode _))
         (@fmi3ExitInitializationMode _ Dahlquist.hooks)).

(** LinearTransform, co-simulation, ready to step. *)
Definition lt_ready : World unit :=
  Eval vm_compute in
    world_or tt
      (and_then (and_then (and_then
         (@start _ LinearTransform.model LinearTransform.hooks tt fmi3CoSimulation
            fmi3False)
         (@fmi3SetupExperiment _ false 0 0 false 0)%float)
         (@fmi3EnterInitializationMode _))
         (@fmi3ExitInitializationMode _ LinearTransform.hooks)).

(** Model functions that differ from Dahlquist's in all but [getReal]. *)
Definition dq_other_hooks : Hooks unit :=
  mkHooks undefined undefined Dahlquist.getReal (fun _ => undefined)
    (fun _ _ => undefined).

End Episodes.

(* ------------------------------------------------------------------------- *)
(** * Properties *)
(* ------------------------------------------------------------------------- *)

Ltac run_monad :=
  unfold bind, ret, get_comp, modify_comp, of_option, undefined in *; cbn beta iota in *.

(** Unfolds the first [bind] of the goal and reduces what it exposes. *)
Ltac mstep := unfold bind at 1; cbv beta iota delta [fmi3True fmi3False].

Section StateMachine.

Context {G : Type} {model : Model} {hooks : Hooks G}.

Lemma FILTERED_LOG_error (cat : nat) (msg : string) (w : World G) :
  FILTERED_LOG fmi3Error cat msg w
  = Some (tt, mkWorld (inst w)
                (host_log w ++ [mkLog (instanceName (inst w)) fmi3Error
                                  (nth cat logCategoriesNames "") msg])
                (globals w)).
Proof. reflexivity. Qed.

Lemma FILTERED_LOG_inst (st : fmi3Status) (cat : nat) (msg : string) (w : World G) :
  exists l, FILTERED_LOG st cat msg w
            = Some (tt, mkWorld (inst w) (host_log w ++ l) (globals w)).
Proof.
  unfold FILTERED_LOG, call_logger. run_monad.
  destruct (status_eqb st fmi3Error || status_eqb st fmi3Fatal
            || isCategoryLogged (inst w) cat).
  - eexists. reflexivity.
  - exists []. rewrite app_nil_r. destruct w; reflexivity.
Qed.

Lemma invalidState_illegal (f : string) (mask : Z) (w : World G) :
  Z.land (state (inst w)) mask = 0%Z ->
  invalidState f mask w = Some (fmi3True, illegal_call w).
Proof.
  intros H. unfold invalidState. run_monad. rewrite H. reflexivity.
Qed.

Lemma invalidState_legal (f : string) (mask : Z) (w : World G) :
  legal (state (inst w)) mask ->
  invalidState f mask w = Some (fmi3False, w).
Proof.
  intros H. unfold invalidState. run_monad.
  destruct (Z.eqb_spec (Z.land (state (inst w)) mask) 0); [contradiction | reflexivity].
Qed.

Lemma illegal_call_state (w : World G) : state (inst (illegal_call w)) = modelError.
Proof. reflexivity. Qed.

(** A count an [int] holds is passed as it is. *)
Lemma int_of_size_t_small (n : nat) :
  (Z.of_nat n < 2 ^ 31)%Z -> int_of_size_t n = Z.of_nat n.
Proof.
  intros H. unfold int_of_size_t.
  rewrite Z.mod_small by lia. lia.
Qed.

(** Counts that differ by a multiple of 2^32 are the same [int]. *)
Lemma int_of_size_t_congruent (n m : nat) (k : Z) :
  Z.of_nat m = (Z.of_nat n + k * 2 ^ 32)%Z -> int_of_size_t m = int_of_size_t n.
Proof.
  intros H. unfold int_of_size_t. rewrite H.
  replace (Z.of_nat n + k * 2 ^ 32 + 2 ^ 31)%Z
    with (Z.of_nat n + 2 ^ 31 + k * 2 ^ 32)%Z by ring.
  rewrite Z.mod_add by lia. reflexivity.
Qed.

(** [invalidNumber] accepts the expected count, and passes the same verdict
    on two counts that differ by a multiple of 2^32: it accepts the expected
    count plus 2^32. *)
Lemma invalidNumber_expected (f arg : string) (n : nat) (w : World G) :
  invalidNumber f arg n n w = Some (fmi3False, w).
Proof. unfold invalidNumber. rewrite Z.eqb_refl. reflexivity. Qed.

Lemma invalidNumber_congruent (f arg : string) (n m nExpected : nat) (k : Z) (w : World G) :
  Z.of_nat m = (Z.of_nat n + k * 2 ^ 32)%Z ->
  invalidNumber f arg m nExpected w = invalidNumber f arg n nExpected w.
Proof.
  intros H. unfold invalidNumber.
  rewrite (int_of_size_t_congruent n m k H). reflexivity.
Qed.

(** Between counts an [int] holds, [invalidNumber] refuses exactly the ones
    that are not the expected one. *)
Lemma invalidNumber_small (f arg : string) (n nExpected : nat) (w : World G) :
  (Z.of_nat n < 2 ^ 31)%Z -> (Z.of_nat nExpected < 2 ^ 31)%Z ->
  invalidNumber f arg n nExpected w
  = (if negb (n =? nExpected) then
       modify_comp (set_state modelError) ;;
       FILTERED_LOG fmi3Error LOG_ERROR "%s: Invalid argument %s = %d. Expected %d." ;;
       ret fmi3True
     else ret fmi3False) w.
Proof.
  intros Hn He. unfold invalidNumber.
  rewrite !int_of_size_t_small by assumption.
  destruct (Nat.eqb_spec n nExpected) as [-> | Hne].
  - rewrite Z.eqb_refl. reflexivity.
  - destruct (Z.eqb_spec (Z.of_nat n) (Z.of_nat nExpected)) as [E | _]; [| reflexivity].
    apply Nat2Z.inj in E. contradiction.
Qed.

(** C1 (as amended).  Whatever the operation and its arguments, a call from a
    state outside the operation's mask returns [fmi3Error] and leaves the
    instance in [modelError], with one error record logged and nothing else
    changed; and every next operation whose mask leaves [modelError] out
    returns [fmi3Error] again, the instance staying in [modelError]. *)
Theorem C1_illegal_call_is_an_error (call : Call) (w : World G) :
  Z.land (state (inst w)) (call_mask call) = 0%Z ->
  run call w = Some (fmi3Error, illegal_call w)
  /\ state (inst (illegal_call w)) = modelError
  /\ forall next : Call,
       Z.land modelError (call_mask next) = 0%Z ->
       run next (illegal_call w) = Some (fmi3Error, illegal_call (illegal_call w))
       /\ state (inst (illegal_call (illegal_call w))) = modelError.
Proof.
  assert (A : forall (call : Call) (w : World G),
             Z.land (state (inst w)) (call_mask call) = 0%Z ->
             run call w = Some (fmi3Error, illegal_call w)).
  { clear call w. intros call w H.
    destruct call; cbn [run call_mask] in *;
      try match goal with s : fmi3StatusKind |- _ => destruct s end;
      unfold status_of, fmi3SetupExperiment, fmi3EnterInitializationMode,
        fmi3ExitInitializationMode, fmi3Terminate, fmi3Reset, fmi3SetDebugLogging,
        fmi3GetReal, fmi3GetInteger, fmi3GetBoolean, fmi3GetString, getXXX,
        fmi3SetReal, fmi3SetInteger, fmi3SetBoolean, fmi3SetString, setXXX,
        fmi3GetFMUstate, fmi3SetFMUstate, fmi3FreeFMUstate,
        fmi3SerializedFMUstateSize, fmi3SerializeFMUstate, fmi3DeSerializeFMUstate,
        fmi3GetDirectionalDerivative, unsupportedFunction,
        fmi3SetRealInputDerivatives, fmi3GetRealOutputDerivatives, fmi3CancelStep,
        fmi3DoStep, fmi3GetStatus, fmi3GetRealStatus, fmi3GetIntegerStatus,
        fmi3GetBooleanStatus, fmi3GetStringStatus, getStatus, fmi3EnterEventMode,
        fmi3NewDiscreteStates, fmi3EnterContinuousTimeMode,
        fmi3CompletedIntegratorStep, fmi3SetTime, fmi3SetContinuousStates,
        fmi3GetDerivatives, fmi3GetEventIndicators, fmi3GetContinuousStates,
        fmi3GetNominalsOfContinuousStates;
      unfold bind; cbv beta;
      rewrite invalidState_illegal by exact H; reflexivity. }
  intros H. split; [exact (A call w H) |]. split; [reflexivity |].
  intros next Hn. split; [| reflexivity].
  apply A. exact Hn.
Qed.

(** [fmi3FreeInstance] returns no status; refused, it keeps the instance
    allocated and puts it in [modelError] like the other operations. *)
Lemma fmi3FreeInstance_illegal (w : World G) :
  Z.land (state (inst w)) MASK_fmi3FreeInstance = 0%Z ->
  fmi3FreeInstance w
  = Some (Some (inst (illegal_call w)), host_log (illegal_call w), globals w).
Proof.
  intros H. unfold fmi3FreeInstance. rewrite invalidState_illegal by exact H.
  reflexivity.
Qed.

(** From [modelError], [fmi3FreeInstance] releases the instance. *)
Lemma fmi3FreeInstance_from_error (w : World G) :
  state (inst w) = modelError ->
  exists log, fmi3FreeInstance w = Some (None, log, globals w).
Proof.
  intros H. unfold fmi3FreeInstance.
  rewrite invalidState_legal by (unfold legal; rewrite H; discriminate).
  destruct (FILTERED_LOG_inst fmi3OK LOG_FMI_CALL "fmi3FreeInstance" w) as [l ->].
  eexists. reflexivity.
Qed.

(** C2 (as amended).  A step of size [<= 0] returns [fmi3Error] from every
    state; the simulated time, the variable store and every other field of
    the instance keep their values, except the life-cycle state, which
    becomes [modelError]. *)
Theorem C2_nonpositive_step_is_refused
    (currentCommunicationPoint communicationStepSize : fmi3Real)
    (noSetFMUStatePriorToCurrentPoint : fmi3Boolean) (w : World G) :
  (communicationStepSize <=? 0)%float = true ->
  exists w',
    fmi3DoStep currentCommunicationPoint communicationStepSize
      noSetFMUStatePriorToCurrentPoint w = Some (fmi3Error, w')
    /\ state (inst w') = modelError
    /\ time (inst w') = time (inst w)
    /\ variables (inst w') = variables (inst w)
    /\ inst w' = set_state modelError (inst w)
    /\ globals w' = globals w.
Proof.
  intros Hle. unfold fmi3DoStep.
  destruct (Z.eq_dec (Z.land (state (inst w)) MASK_fmi3DoStep) 0) as [H | H].
  - unfold bind. rewrite invalidState_illegal by exact H.
    eexists. split; [reflexivity |]. repeat split.
  - mstep. rewrite invalidState_legal by exact H.
    mstep.
    match goal with |- context [FILTERED_LOG fmi3OK LOG_FMI_CALL ?m w] =>
      destruct (FILTERED_LOG_inst fmi3OK LOG_FMI_CALL m w) as [l ->] end.
    rewrite Hle. unfold bind. rewrite FILTERED_LOG_error.
    eexists. split; [reflexivity |]. repeat split.
Qed.

(** C10.  In a state of its mask, with [nx = NUMBER_OF_STATES] and an array
    that is not NULL, [fmi3SetContinuousStates] returns [fmi3OK] and the
    world after the call is the world before it: no variable slot, not the
    time, no field of the instance, nothing in the log has changed. *)
Theorem C10_set_continuous_states_writes_nothing
    (x : list fmi3Real) (nx : nat) (w : World G) :
  legal (state (inst w)) MASK_fmi3SetContinuousStates ->
  nx = NUMBER_OF_STATES ->
  fmi3SetContinuousStates (Some x) nx w = Some (fmi3OK, w).
Proof.
  intros Hs ->. unfold fmi3SetContinuousStates, bind.
  rewrite invalidState_legal by exact Hs.
  unfold invalidNumber. rewrite Z.eqb_refl. reflexivity.
Qed.

End StateMachine.

Section Logging.

Context {G : Type}.

Lemma reset_categories (v : fmi3Boolean) (w : World G) :
  List.length (logCategories (inst w)) = NUMBER_OF_CATEGORIES ->
  forM NUMBER_OF_CATEGORIES 0 (fun j _ => set_logCategory j v) tt w
  = Some (tt, mkWorld (set_logCategories (repeat v NUMBER_OF_CATEGORIES) (inst w))
                (host_log w) (globals w)).
Proof.
  intros H. destruct w as [c lg g]. cbn [inst host_log globals] in *.
  destruct c as [vs ip t nm ty gu fs lo cats st ei d ne]. cbn [logCategories] in H.
  destruct cats as [| a [| b0 [| c0 [| d0 [| e l]]]]]; try discriminate H.
  reflexivity.
Qed.

Lemma find_category_unknown (loggingOn : fmi3Boolean) (name : fmi3String) (w : World G) :
  ~ In name logCategoriesNames ->
  find_category loggingOn name w = Some (fmi3False, w).
Proof.
  intros Hn. unfold find_category, bind.
  cbn [forRet NUMBER_OF_CATEGORIES nth logCategoriesNames]. unfold bind.
  assert (E : forall n, In n logCategoriesNames -> String.eqb n name = false).
  { intros n Hin. apply String.eqb_neq. intros ->. exact (Hn Hin). }
  rewrite !E by (cbn; tauto). reflexivity.
Qed.

(** C9 (as amended).  Configured with zero categories, every logging category
    takes the value of the [loggingOn] argument: all are enabled when it is
    [fmi3True], all are disabled when it is [fmi3False]. *)
Theorem C9_zero_categories_set_all_to_loggingOn
    (loggingOn : fmi3Boolean) (categories : option (list fmi3String)) (w : World G) :
  legal (state (inst w)) MASK_fmi3SetDebugLogging ->
  List.length (logCategories (inst w)) = NUMBER_OF_CATEGORIES ->
  exists w',
    fmi3SetDebugLogging loggingOn 0 categories w = Some (fmi3OK, w')
    /\ logCategories (inst w') = repeat loggingOn NUMBER_OF_CATEGORIES
    /\ forall categoryIndex, categoryIndex < NUMBER_OF_CATEGORIES ->
         isCategoryLogged (inst w') categoryIndex = loggingOn.
Proof.
  intros Hs Hl. unfold fmi3SetDebugLogging.
  mstep. rewrite invalidState_legal by exact Hs.
  mstep. unfold modify_comp at 1. mstep.
  match goal with |- context [FILTERED_LOG fmi3OK LOG_FMI_CALL ?m ?w0] =>
    destruct (FILTERED_LOG_inst fmi3OK LOG_FMI_CALL m w0) as [l ->] end.
  mstep. rewrite reset_categories by exact Hl.
  cbn [Nat.eqb]. mstep. rewrite reset_categories by reflexivity.
  eexists. split; [reflexivity |]. split; [reflexivity |].
  intros k Hk. unfold isCategoryLogged. cbn [inst logCategories set_logCategories].
  unfold NUMBER_OF_CATEGORIES in *.
  destruct k as [| [| [| [| k]]]]; try lia; destruct loggingOn; reflexivity.
Qed.

(** C8 (as amended).  Configured with one category name that is none of the
    four the engine knows, the call returns [fmi3OK], the host receives a
    warning, and every logging category is disabled after the call, whatever
    its value before. *)
Theorem C8_unknown_category_warns_and_clears
    (loggingOn : fmi3Boolean) (name : fmi3String) (w : World G) :
  legal (state (inst w)) MASK_fmi3SetDebugLogging ->
  List.length (logCategories (inst w)) = NUMBER_OF_CATEGORIES ->
  ~ In name logCategoriesNames ->
  exists w' l,
    fmi3SetDebugLogging loggingOn 1 (Some [name]) w = Some (fmi3OK, w')
    /\ host_log w'
       = host_log w ++ l ++ [mkLog (instanceName (inst w)) fmi3Warning "logError"
                               "logging category '%s' is not supported by model"]
    /\ logCategories (inst w') = repeat fmi3False NUMBER_OF_CATEGORIES.
Proof.
  intros Hs Hl Hn. unfold fmi3SetDebugLogging.
  mstep. rewrite invalidState_legal by exact Hs.
  mstep. unfold modify_comp at 1. mstep.
  match goal with |- context [FILTERED_LOG fmi3OK LOG_FMI_CALL ?m ?w0] =>
    destruct (FILTERED_LOG_inst fmi3OK LOG_FMI_CALL m w0) as [l ->] end.
  mstep. rewrite reset_categories by exact Hl.
  cbn [Nat.eqb forM read_arr nth_error of_option]. unfold bind, ret.
  rewrite find_category_unknown by exact Hn.
  exists (mkWorld
            (set_logCategories (repeat fmi3False NUMBER_OF_CATEGORIES)
               (set_loggingOn loggingOn (inst w)))
            ((host_log w ++ l)
             ++ [mkLog (instanceName (inst w)) fmi3Warning "logError"
                   "logging category '%s' is not supported by model"])
            (globals w)), l.
  split; [reflexivity |]. split; [| reflexivity].
  cbn [host_log]. rewrite app_assoc. reflexivity.
Qed.

End Logging.

Section Batches.

Context {G : Type} {model : Model}.

Lemma forRet_add {St Rt} (body : nat -> St -> M G (St + Rt)) (p q lo : nat) (s : St)
    (w : World G) :
  forRet (p + q) lo body s w
  = match forRet p lo body s w with
    | Some (inl s', w') => forRet q (lo + p) body s' w'
    | Some (inr v, w') => Some (inr v, w')
    | None => None
    end.
Proof.
  revert lo s w. induction p as [| p IH]; intros lo s w.
  - cbn. rewrite Nat.add_0_r. reflexivity.
  - cbn [Nat.add forRet]. unfold bind.
    destruct (body lo s w) as [[[s' | v] w'] |]; [| reflexivity | reflexivity].
    rewrite IH. replace (Datatypes.S lo + p) with (lo + Datatypes.S p) by lia.
    reflexivity.
Qed.

Lemma vrOutOfRange_invalid (f : string) (type : ascii) (vr : fmi3ValueReference)
    (w : World G) :
  invalid_entry type vr ->
  exists l,
    vrOutOfRange f vr type w
    = Some (fmi3True,
            mkWorld (set_state modelError (inst w)) (host_log w ++ l) (globals w)).
Proof.
  intros Hinv. unfold vrOutOfRange.
  destruct (N.leb_spec (N.of_nat N_VARIABLES) vr) as [Hr | Hr].
  - unfold bind. rewrite FILTERED_LOG_error. eexists. reflexivity.
  - destruct Hinv as [Hinv | Hinv]; [lia |].
    mstep. unfold variableType.
    destruct (Nat.ltb_spec (N.to_nat vr) N_VARIABLES) as [_ | Hge]; [| lia].
    unfold ret at 1. cbv beta iota.
    destruct (Ascii.eqb_spec (nth (N.to_nat vr) s_variableTypes Ascii.zero) type)
      as [E | _]; [contradiction |].
    cbn [negb]. unfold bind. rewrite FILTERED_LOG_error. eexists. reflexivity.
Qed.

Lemma setXXX_item_status {V} (checkName : string) (type : ascii)
    (write : option (list V) -> fmi3ValueReference -> nat -> nat -> M G nat)
    (itemMsg : string) (vr : option (list fmi3ValueReference)) (value : option (list V))
    (count lo k : nat) (w w' : World G) (status : fmi3Status) :
  forRet count lo (setXXX_item checkName type write itemMsg vr value) k w
  = Some (inr status, w') ->
  status = fmi3Error.
Proof.
  revert lo k w. induction count as [| count IH]; intros lo k w H.
  - discriminate H.
  - cbn [forRet] in H. unfold bind at 1 in H.
    destruct (setXXX_item checkName type write itemMsg vr value lo k w)
      as [[[k' | st] w1] |] eqn:E; [| | discriminate H].
    + exact (IH _ _ _ H).
    + inversion H; subst. clear H.
      unfold setXXX_item, bind in E.
      destruct (read_arr vr lo w) as [[v w2] |]; [| discriminate E].
      destruct (vrOutOfRange checkName v type w2) as [[[|] w3] |];
        [| | discriminate E].
      * inversion E. reflexivity.
      * destruct (variableSize lo w3) as [[n w4] |]; [| discriminate E].
        destruct (forM n 0 (fun j k0 => write value v j k0) k w4) as [[k1 w5] |];
          [| discriminate E].
        destruct (FILTERED_LOG fmi3OK LOG_FMI_CALL itemMsg w5) as [[u w6] |];
          discriminate E.
Qed.

(** The setters' shape: a batch whose entry [p] is invalid, and whose first
    [p] entries make a successful call on their own, returns [fmi3Error] and
    leaves the variables as that successful call leaves them. *)
Lemma setXXX_abort {V} (name : string) (mask : Z) (nvrMsg checkName : string)
    (type : ascii)
    (write : option (list V) -> fmi3ValueReference -> nat -> nat -> M G nat)
    (itemMsg : string) (vr : list fmi3ValueReference) (nvr : nat)
    (value : list V) (nValues p : nat) (bad : fmi3ValueReference) (w w1 : World G) :
  p < nvr ->
  nth_error vr p = Some bad ->
  invalid_entry type bad ->
  setXXX name mask nvrMsg checkName type write itemMsg (Some vr) p (Some value) nValues w
  = Some (fmi3OK, w1) ->
  exists w2,
    setXXX name mask nvrMsg checkName type write itemMsg (Some vr) nvr (Some value)
      nValues w = Some (fmi3Error, w2)
    /\ variables (inst w2) = variables (inst w1)
    /\ state (inst w2) = modelError.
Proof.
  intros Hp Hnth Hinv Hpre. unfold setXXX in *.
  unfold bind at 1 in Hpre. unfold bind at 1.
  destruct (invalidState name mask w) as [[[|] w0] |]; try discriminate Hpre.
  cbv beta iota in *.
  assert (N1 : forall n, (if 0 <? n then nullPointer name "vr[]" (Some vr) else ret false) w0
                         = Some (false, w0)).
  { intros n. destruct (0 <? n); reflexivity. }
  assert (N2 : forall n, (if 0 <? n then nullPointer name "value[]" (Some value)
                          else ret false) w0 = Some (false, w0)).
  { intros n. destruct (0 <? n); reflexivity. }
  unfold bind at 1 in Hpre. unfold bind at 1. rewrite N1 in *.
  cbv beta iota in *.
  unfold bind at 1 in Hpre. unfold bind at 1. rewrite N2 in *.
  cbv beta iota in *.
  unfold bind at 1 in Hpre. unfold bind at 1.
  destruct (FILTERED_LOG fmi3OK LOG_FMI_CALL nvrMsg w0) as [[u wl] |];
    [| discriminate Hpre].
  unfold bind at 1 in Hpre. unfold bind at 1.
  replace nvr with (p + Datatypes.S (nvr - p - 1)) by lia.
  rewrite forRet_add.
  destruct (forRet p 0 (setXXX_item checkName type write itemMsg (Some vr) (Some value))
              0 wl) as [[[k | st] wp] |] eqn:E; [| | discriminate Hpre].
  - cbn [forRet Nat.add]. unfold bind at 1.
    unfold setXXX_item at 1. unfold bind at 1.
    cbn [read_arr]. rewrite Hnth. cbn [of_option]. unfold ret at 1. cbv beta iota.
    unfold bind at 1.
    destruct (vrOutOfRange_invalid checkName wp Hinv) as [l ->].
    cbv beta iota delta [fmi3True]. unfold ret.
    eexists. split; [reflexivity |]. cbn [inst variables set_state state].
    split; [| reflexivity].
    destruct (0 <? p); unfold bind, modify_comp, ret in Hpre; inversion Hpre;
      reflexivity.
  - apply setXXX_item_status in E. subst st. unfold ret in Hpre.
    inversion Hpre.
Qed.

(** In each of the four setters the test of [vrOutOfRange] is made entry by
    entry, inside the loop that writes: when [vrOutOfRange] refuses entry [p]
    of a batch (it is out of range, or not declared of the kind the setter
    passes, [checked_kind]: ['i'] for [fmi3SetBoolean]) and the [p] entries
    before it are accepted and written, which is what the call on those [p]
    entries alone does, the call returns [fmi3Error], the instance is in
    [modelError], and the variable store is the one the first [p] entries
    produced: nothing is rolled back. *)
Theorem fmi3Set_aborts_at_first_refused_entry
    (vr : list fmi3ValueReference) (nvr : nat) (values : SetValues) (nValues p : nat)
    (bad : fmi3ValueReference) (w w1 : World G) :
  p < nvr ->
  nth_error vr p = Some bad ->
  invalid_entry (checked_kind values) bad ->
  fmi3Set vr p values nValues w = Some (fmi3OK, w1) ->
  exists w2,
    fmi3Set vr nvr values nValues w = Some (fmi3Error, w2)
    /\ variables (inst w2) = variables (inst w1)
    /\ state (inst w2) = modelError.
Proof.
  intros Hp Hnth Hinv Hpre.
  destruct values; cbn [fmi3Set checked_kind] in *;
    unfold fmi3SetReal, fmi3SetInteger, fmi3SetBoolean, fmi3SetString in *;
    eapply setXXX_abort; eassumption.
Qed.

(** A batch of no entry is accepted in every legal state. *)
Lemma setXXX_empty {V} (name : string) (mask : Z) (nvrMsg checkName : string)
    (type : ascii)
    (write : option (list V) -> fmi3ValueReference -> nat -> nat -> M G nat)
    (itemMsg : string) (vr : option (list fmi3ValueReference))
    (value : option (list V)) (nValues : nat) (w : World G) :
  legal (state (inst w)) mask ->
  exists w1,
    setXXX name mask nvrMsg checkName type write itemMsg vr 0 value nValues w
    = Some (fmi3OK, w1).
Proof.
  intros Hs. unfold setXXX. mstep. rewrite invalidState_legal by exact Hs.
  cbn [Nat.ltb Nat.leb forRet]. mstep. unfold ret at 1. mstep. unfold ret at 1.
  mstep. mstep.
  destruct (FILTERED_LOG_inst fmi3OK LOG_FMI_CALL nvrMsg w) as [l ->].
  unfold bind, ret. eexists. reflexivity.
Qed.

(** The kind check of [fmi3SetBoolean], in every model: a variable declared
    boolean is refused, as the first entry of any batch. *)
Lemma fmi3SetBoolean_refuses_boolean_variables
    (vr : fmi3ValueReference) (rest : list fmi3ValueReference) (nvr : nat)
    (value : list fmi3Boolean) (nValues : nat) (w : World G) :
  legal (state (inst w)) MASK_fmi3SetBoolean ->
  nth (N.to_nat vr) s_variableTypes Ascii.zero = "b"%char ->
  0 < nvr ->
  exists w',
    fmi3SetBoolean (Some (vr :: rest)) nvr (Some value) nValues w = Some (fmi3Error, w')
    /\ state (inst w') = modelError.
Proof.
  intros Hs Ht Hn. unfold fmi3SetBoolean.
  destruct (@setXXX_empty _ "fmi3SetBoolean" MASK_fmi3SetBoolean
              "fmi3SetBoolean: nvr = %d" "fmi3SetBoolean" "i" write_boolean
              "fmi3SetBoolean: #b%u# = %s" (Some (vr :: rest)) (Some value) nValues
              w Hs) as [w1 E].
  assert (Hinv : invalid_entry "i" vr) by (right; rewrite Ht; discriminate).
  eapply setXXX_abort in E; [| exact Hn | reflexivity | exact Hinv].
  destruct E as [w2 [E2 [_ Hst]]].
  exists w2. split; assumption.
Qed.

End Batches.

Section Lists.

Context {A : Type}.

Lemma upd_length (i : nat) (v : A) (l : list A) : List.length (upd i v l) = List.length l.
Proof.
  revert i. induction l as [| x l IH]; intros [| i]; cbn; try reflexivity.
  now rewrite IH.
Qed.

Lemma nth_error_upd_eq (i : nat) (v : A) (l : list A) :
  i < List.length l -> nth_error (upd i v l) i = Some v.
Proof.
  revert i. induction l as [| x l IH]; intros [| i] H; cbn in *; try lia.
  - reflexivity.
  - apply IH. lia.
Qed.

Lemma nth_error_upd_neq (i j : nat) (v : A) (l : list A) :
  i <> j -> nth_error (upd i v l) j = nth_error l j.
Proof.
  revert i j. induction l as [| x l IH]; intros [| i] [| j] H; cbn; try reflexivity.
  - contradiction.
  - apply IH. lia.
Qed.

Lemma upd_upd (i : nat) (u v : A) (l : list A) : upd i v (upd i u l) = upd i v l.
Proof.
  revert i. induction l as [| x l IH]; intros [| i]; cbn; try reflexivity.
  now rewrite IH.
Qed.

Lemma upd_nth_error (i : nat) (v : A) (l : list A) :
  nth_error l i = Some v -> upd i v l = l.
Proof.
  revert i. induction l as [| x l IH]; intros [| i] H; cbn in *; try discriminate.
  - now inversion H.
  - now rewrite IH.
Qed.

Lemma firstn_succ_upd (i : nat) (v : A) (l : list A) :
  i < List.length l -> firstn (Datatypes.S i) (upd i v l) = firstn i l ++ [v].
Proof.
  revert i. induction l as [| x l IH]; intros [| i] H; cbn in *; try lia.
  - reflexivity.
  - f_equal. apply IH. lia.
Qed.

Lemma firstn_succ_nth_error (i : nat) (v : A) (l : list A) :
  nth_error l i = Some v -> firstn (Datatypes.S i) l = firstn i l ++ [v].
Proof.
  revert i. induction l as [| x l IH]; intros [| i] H; cbn in *; try discriminate.
  - now inversion H.
  - f_equal. now apply IH.
Qed.

End Lists.

Section Store.

Context {G : Type}.

Lemma variables_at_in_range (vr : nat) (w : World G) :
  vr < List.length (variables (inst w)) -> variables_at vr w = Some (Block vr, w).
Proof.
  intros H. unfold variables_at, bind, get_comp.
  destruct (Nat.ltb_spec vr (List.length (variables (inst w)))); [reflexivity | lia].
Qed.

Lemma store_block (vr j : nat) (v : cell) (blk : list cell) (w : World G) :
  nth_error (variables (inst w)) vr = Some blk ->
  j < List.length blk ->
  store (Block vr) j v w
  = Some (tt, mkWorld (set_variables (upd vr (upd j v blk) (variables (inst w))) (inst w))
                (host_log w) (globals w)).
Proof.
  intros Hb Hj. unfold store, bind, get_comp. rewrite Hb. cbn [of_option ret].
  destruct (Nat.ltb_spec j (List.length blk)); [reflexivity | lia].
Qed.

Lemma load_block (vr j : nat) (v : cell) (blk : list cell) (w : World G) :
  nth_error (variables (inst w)) vr = Some blk ->
  nth_error blk j = Some v ->
  load (Block vr) j w = Some (v, w).
Proof.
  intros Hb Hj. unfold load, bind, get_comp. rewrite Hb. cbn [of_option ret].
  rewrite Hj. reflexivity.
Qed.

Lemma nth_error_in_range {A} (l : list A) (i : nat) (x : A) :
  nth_error l i = Some x -> i < List.length l.
Proof. intros H. apply nth_error_Some. congruence. Qed.

End Store.

Section RoundTrip.

Context {G : Type} {model : Model} {hooks : Hooks G}.

Lemma vrOutOfRange_valid (f : string) (type : ascii) (vr : fmi3ValueReference)
    (w : World G) :
  (vr < N.of_nat N_VARIABLES)%N ->
  nth (N.to_nat vr) s_variableTypes Ascii.zero = type ->
  vrOutOfRange f vr type w = Some (fmi3False, w).
Proof.
  intros Hr Ht. unfold vrOutOfRange.
  destruct (N.leb_spec (N.of_nat N_VARIABLES) vr); [lia |].
  unfold bind, variableType.
  destruct (Nat.ltb_spec (N.to_nat vr) N_VARIABLES); [| lia].
  unfold ret at 1. cbv beta iota. rewrite Ht, Ascii.eqb_refl. reflexivity.
Qed.

(** The inner loop of [fmi3SetReal] on the first entry of a batch: from
    element [lo] on, the block takes the caller's values. *)
Lemma write_real_loop (vr : fmi3ValueReference) (value : list fmi3Real) :
  forall (c lo : nat) (blk : list cell) (w : World G),
    lo + c = List.length value ->
    List.length blk = List.length value ->
    nth_error (variables (inst w)) (N.to_nat vr) = Some blk ->
    firstn lo blk = map CReal (firstn lo value) ->
    forM c lo (fun j k => write_real (Some value) vr j k) lo w
    = Some (List.length value,
            mkWorld (set_variables
                       (upd (N.to_nat vr) (map CReal value) (variables (inst w)))
                       (inst w))
              (host_log w) (globals w)).
Proof.
  induction c as [| c IH]; intros lo blk w Hn Hl Hb Hf.
  - cbn [forM]. unfold ret.
    assert (lo = List.length value) by lia. subst lo.
    rewrite firstn_all in Hf. rewrite <- Hl, firstn_all in Hf. subst blk.
    erewrite upd_nth_error by exact Hb.
    destruct w as [cmp lg g]; destruct cmp; reflexivity.
  - cbn [forM]. unfold bind at 1. unfold write_real at 1. unfold bind at 1.
    destruct (nth_error value lo) as [x |] eqn:Ex;
      [| apply nth_error_None in Ex; lia].
    cbn [read_arr]. rewrite Ex. cbn [of_option]. unfold ret at 1. cbv beta iota.
    unfold bind at 1. unfold varR.
    rewrite variables_at_in_range by (eapply nth_error_in_range; exact Hb).
    unfold bind at 1. erewrite store_block; [| exact Hb | lia].
    unfold ret at 1. cbv beta iota.
    change (1 + lo) with (Datatypes.S lo).
    rewrite (IH (Datatypes.S lo) (upd lo (CReal x) blk)).
    + cbn [inst host_log globals set_variables variables]. rewrite upd_upd.
      reflexivity.
    + lia.
    + rewrite upd_length. exact Hl.
    + cbn [inst set_variables variables]. apply nth_error_upd_eq.
      eapply nth_error_in_range; exact Hb.
    + rewrite firstn_succ_upd by lia. erewrite (@firstn_succ_nth_error _ lo) by exact Ex.
      rewrite map_app, Hf. reflexivity.
Qed.

(** The inner loop of [fmi3GetReal] on the first entry of a batch, when the
    read hook yields the block of the variable and leaves the world alone. *)
Lemma read_real_loop (vr : fmi3ValueReference) (value : list fmi3Real) (w : World G) :
  nth_error (variables (inst w)) (N.to_nat vr) = Some (map CReal value) ->
  getReal vr w = Some (Block (N.to_nat vr), w) ->
  forall (c lo : nat) (buffer : list fmi3Real),
    lo + c = List.length value ->
    List.length buffer = List.length value ->
    firstn lo buffer = firstn lo value ->
    forM c lo
      (fun j s => x <- read_real vr j ;;
                  value' <- write_arr (snd s) (fst s) x ;;
                  ret (1 + fst s, value')) (lo, Some buffer) w
    = Some ((List.length value, Some value), w).
Proof.
  intros Hb Hg. induction c as [| c IH]; intros lo buffer Hn Hl Hf.
  - cbn [forM]. unfold ret.
    assert (lo = List.length value) by lia. subst lo.
    rewrite firstn_all in Hf. rewrite <- Hl, firstn_all in Hf. subst buffer.
    reflexivity.
  - cbn [forM]. unfold bind at 1. unfold bind at 1.
    unfold read_real, bind. rewrite Hg. unfold loadR, bind.
    destruct (nth_error value lo) as [x |] eqn:Ex;
      [| apply nth_error_None in Ex; lia].
    erewrite load_block; [| exact Hb | exact (map_nth_error CReal _ _ Ex)].
    cbn [as_real ret fst snd write_arr].
    destruct (Nat.ltb_spec lo (List.length buffer)); [| lia].
    unfold ret. change (1 + lo) with (Datatypes.S lo).
    apply IH.
    + lia.
    + rewrite upd_length. exact Hl.
    + rewrite firstn_succ_upd by lia. erewrite (@firstn_succ_nth_error _ lo) by exact Ex.
      rewrite Hf. reflexivity.
Qed.

(** C3 (as amended).  In a state where both calls are legal, for a real
    variable in range whose elements the engine transfers all, setting it and
    then getting it returns [fmi3OK] twice and the get yields exactly the
    values that were set, provided the model's compute hook leaves the slot
    alone and the model's read hook [getReal] yields the slot's own storage
    for this value reference. *)
Theorem C3_set_real_then_get_real
    (vr : fmi3ValueReference) (value buffer : list fmi3Real) (blk : list cell)
    (nValues nBuffer : nat) (w : World G) :
  legal (state (inst w)) MASK_fmi3SetReal ->
  legal (state (inst w)) MASK_fmi3GetReal ->
  (vr < N.of_nat N_VARIABLES)%N ->
  nth (N.to_nat vr) s_variableTypes Ascii.zero = "r"%char ->
  nth_error (variables (inst w)) (N.to_nat vr) = Some blk ->
  nth 0 s_variableSizes 0 = List.length value ->
  List.length blk = List.length value ->
  List.length buffer = List.length value ->
  (forall w1,
      fmi3SetReal (Some [vr]) 1 (Some value) nValues w = Some (fmi3OK, w1) ->
      exists w2,
        calculateValues w1 = Some (tt, w2)
        /\ nth_error (variables (inst w2)) (N.to_nat vr)
           = nth_error (variables (inst w1)) (N.to_nat vr)) ->
  (forall w2,
      nth_error (variables (inst w2)) (N.to_nat vr) = Some (map CReal value) ->
      getReal vr w2 = Some (Block (N.to_nat vr), w2)) ->
  exists w1 w2,
    fmi3SetReal (Some [vr]) 1 (Some value) nValues w = Some (fmi3OK, w1)
    /\ fmi3GetReal (Some [vr]) 1 (Some buffer) nBuffer w1
       = Some ((fmi3OK, Some value), w2).
Proof.
  intros Hset Hget Hr Ht Hb Hsz Hl Hbuf Hcalc Hhook.
  assert (Hn : 0 < N_VARIABLES) by lia.
  (* the set call *)
  assert (Eset : exists l,
             fmi3SetReal (Some [vr]) 1 (Some value) nValues w
             = Some (fmi3OK,
                     mkWorld (set_isDirtyValues fmi3True
                                (set_variables
                                   (upd (N.to_nat vr) (map CReal value)
                                      (variables (inst w))) (inst w)))
                       (host_log w ++ l) (globals w))).
  { unfold fmi3SetReal, setXXX.
    mstep. rewrite invalidState_legal by exact Hset.
    cbn [Nat.ltb Nat.leb nullPointer]. mstep. unfold ret at 1. mstep.
    unfold ret at 1. mstep.
    match goal with |- context [FILTERED_LOG fmi3OK LOG_FMI_CALL ?m w] =>
      destruct (FILTERED_LOG_inst fmi3OK LOG_FMI_CALL m w) as [l1 ->] end.
    mstep. cbn [forRet]. mstep. unfold setXXX_item at 1.
    mstep. cbn [read_arr nth_error of_option]. unfold ret at 1. mstep.
    rewrite vrOutOfRange_valid by assumption.
    mstep. unfold variableSize.
    destruct (Nat.ltb_spec 0 N_VARIABLES); [| lia].
    unfold ret at 1. rewrite Hsz. mstep.
    rewrite (write_real_loop vr value (List.length value) 0 (blk:=blk));
      [| lia | exact Hl | exact Hb | reflexivity].
    mstep.
    match goal with |- context [FILTERED_LOG fmi3OK LOG_FMI_CALL ?m ?w0] =>
      destruct (FILTERED_LOG_inst fmi3OK LOG_FMI_CALL m w0) as [l2 ->] end.
    unfold ret, bind, modify_comp. cbn [inst host_log globals].
    exists (l1 ++ l2). rewrite app_assoc. reflexivity. }
  destruct Eset as [l Eset]. eexists. rewrite Eset.
  destruct (Hcalc _ Eset) as [w2 [Ecalc Hkeep]].
  cbn [inst set_isDirtyValues set_variables variables] in Hkeep.
  rewrite nth_error_upd_eq in Hkeep by (eapply nth_error_in_range; exact Hb).
  (* the get call *)
  assert (Eget : exists l',
             fmi3GetReal (Some [vr]) 1 (Some buffer) nBuffer
               (mkWorld (set_isDirtyValues fmi3True
                           (set_variables
                              (upd (N.to_nat vr) (map CReal value)
                                 (variables (inst w))) (inst w)))
                  (host_log w ++ l) (globals w))
             = Some ((fmi3OK, Some value),
                     mkWorld (set_isDirtyValues fmi3False (inst w2))
                       (host_log w2 ++ l') (globals w2))).
  { unfold fmi3GetReal, getXXX.
    mstep. rewrite invalidState_legal by exact Hget.
    cbn [Nat.ltb Nat.leb nullPointer]. mstep. unfold ret at 1. mstep.
    unfold ret at 1. mstep.
    unfold get_comp at 1. cbn [inst isDirtyValues set_isDirtyValues andb]. mstep.
    mstep. unfold fmi3True in Ecalc. mstep. rewrite Ecalc. unfold modify_comp at 1.
    cbn [forRet]. repeat mstep. unfold getXXX_item at 1.
    mstep. cbn [read_arr nth_error of_option]. unfold ret at 1. mstep.
    rewrite vrOutOfRange_valid by assumption.
    mstep. unfold variableSize.
    destruct (Nat.ltb_spec 0 N_VARIABLES); [| lia].
    unfold ret at 1. rewrite Hsz. mstep.
    rewrite (@read_real_loop vr value
               (mkWorld (set_isDirtyValues false (inst w2)) (host_log w2) (globals w2)));
      [| exact Hkeep | apply Hhook; exact Hkeep | lia | exact Hbuf | reflexivity].
    mstep.
    match goal with |- context [FILTERED_LOG fmi3OK LOG_FMI_CALL ?m ?w0] =>
      destruct (FILTERED_LOG_inst fmi3OK LOG_FMI_CALL m w0) as [l2 ->] end.
    unfold ret. cbn [inst host_log globals snd]. exists l2. reflexivity. }
  destruct Eget as [l' Eget]. eexists. split; [reflexivity | exact Eget].
Qed.

End RoundTrip.

Section Stepping.

Context {G : Type} {model : Model} {hooks : Hooks G}.

Lemma bind_Some {A B} (c : M G A) (k : A -> M G B) (w : World G) (res : B * World G) :
  bind c k w = Some res ->
  exists a w1, c w = Some (a, w1) /\ k a w1 = Some res.
Proof.
  unfold bind. destruct (c w) as [[a w1] |]; [| discriminate].
  intros H. exists a, w1. split; [reflexivity | exact H].
Qed.

Lemma ret_Some {A} (a : A) (w : World G) (res : A * World G) :
  ret a w = Some res -> res = (a, w).
Proof. unfold ret. congruence. Qed.

Lemma of_option_Some {A} (o : option A) (w : World G) (a : A) (w' : World G) :
  of_option o w = Some (a, w') -> o = Some a /\ w' = w.
Proof.
  destruct o as [x |]; cbn; [| discriminate].
  unfold ret. intros H. inversion H. split; reflexivity.
Qed.

Lemma variables_at_Some (vr : nat) (w : World G) (p : ptr) (w' : World G) :
  variables_at vr w = Some (p, w') -> p = Block vr /\ w' = w.
Proof.
  unfold variables_at, bind, get_comp.
  destruct (vr <? List.length (variables (inst w))); [| discriminate].
  unfold ret. intros H. inversion H. split; reflexivity.
Qed.

Lemma load_Some (p : ptr) (j : nat) (w : World G) (c : cell) (w' : World G) :
  load p j w = Some (c, w') -> w' = w.
Proof.
  destruct p as [| vr]; [discriminate |].
  unfold load, bind, get_comp.
  destruct (nth_error (variables (inst w)) vr) as [blk |]; [| discriminate].
  cbn [of_option]. unfold ret at 1. cbv beta iota.
  destruct (nth_error blk j); cbn [of_option]; [| discriminate].
  unfold ret. intros H. now inversion H.
Qed.

Lemma loadR_Some (p : ptr) (j : nat) (w : World G) (x : fmi3Real) (w' : World G) :
  loadR p j w = Some (x, w') -> w' = w.
Proof.
  unfold loadR. intros H. apply bind_Some in H as [c [w1 [H1 H2]]].
  apply load_Some in H1. subst w1.
  destruct c; try discriminate H2. apply ret_Some in H2. now inversion H2.
Qed.

Lemma save_states_Some (w w' : World G) :
  save_states w = Some (tt, w') -> w' = w.
Proof.
  unfold save_states.
  assert (L : forall (n lo : nat) (u u' : unit) (w w' : World G),
             forM n lo
               (fun i _ =>
                  vr <- of_option (nth_error vrStates i) ;;
                  p <- varR (N.to_nat vr) ;;
                  _ <- loadR p 0 ;;
                  ret tt) u w = Some (u', w') -> w' = w).
  { clear w w'. induction n as [| n IH]; intros lo u u' w w' H.
    - cbn in H. apply ret_Some in H. now inversion H.
    - cbn [forM] in H. apply bind_Some in H as [u1 [w1 [H1 H2]]].
      apply IH in H2. subst w'.
      apply bind_Some in H1 as [vr [wa [Ha H1]]].
      apply of_option_Some in Ha as [_ ->].
      apply bind_Some in H1 as [p [wb [Hb H1]]].
      apply variables_at_Some in Hb as [_ ->].
      apply bind_Some in H1 as [x [wc [Hc H1]]].
      apply loadR_Some in Hc. subst wc.
      apply ret_Some in H1. now inversion H1. }
  apply L.
Qed.

(** The Euler loop of the code does what [EulerAdvance] says. *)
Lemma euler_states_advance (h : fmi3Real) :
  forall (count lo : nat) (w w' : World G),
    forM count lo (fun i _ => euler_state h i) tt w = Some (tt, w') ->
    EulerAdvance h count lo w w'.
Proof.
  induction count as [| count IH]; intros lo w w' H.
  - cbn in H. apply ret_Some in H. inversion H. constructor.
  - cbn [forM] in H. apply bind_Some in H as [[] [w2 [H1 H2]]].
    unfold euler_state in H1.
    apply bind_Some in H1 as [vr [wa [Ha H1]]].
    apply of_option_Some in Ha as [Hvr ->].
    apply bind_Some in H1 as [d [w1 [Hd H1]]].
    apply bind_Some in H1 as [der [wb [Hder H1]]].
    pose proof (loadR_Some _ _ _ Hder). subst wb.
    apply bind_Some in H1 as [p [wc [Hp H1]]].
    apply variables_at_Some in Hp as [-> ->].
    apply bind_Some in H1 as [x [wd [Hx H1]]].
    pose proof (loadR_Some _ _ _ Hx). subst wd.
    assert (Hv : variables_at (N.to_nat vr) w1 = Some (Block (N.to_nat vr), w1)).
    { unfold variables_at, bind, get_comp.
      destruct (N.to_nat vr <? List.length (variables (inst w1))) eqn:E;
        [reflexivity |].
      unfold loadR, load, bind, get_comp in Hx.
      destruct (nth_error (variables (inst w1)) (N.to_nat vr)) eqn:E1;
        [| discriminate Hx].
      apply nth_error_in_range in E1. apply Nat.ltb_ge in E. lia. }
    eapply EulerAdvance_state with (vr := vr) (d := d) (der := der) (x := x)
                                   (w1 := w1) (w2 := w2).
    + exact Hvr.
    + exact Hd.
    + exact Hder.
    + unfold r, varR, bind. rewrite Hv. exact Hx.
    + unfold r_assign, varR, bind. rewrite Hv. exact H1.
    + apply IH. exact H2.
Qed.

Lemma crossing_count (seen : list (fmi3Real * fmi3Real)) :
  negb (Z.of_nat (List.length (filter crossing seen)) =? 0)%Z = existsb crossing seen.
Proof.
  induction seen as [| z seen IH]; [reflexivity |].
  cbn [filter existsb]. destruct (crossing z); cbn [orb List.length].
  - destruct (Z.eqb_spec (Z.of_nat (Datatypes.S (List.length (filter crossing seen)))) 0);
      [lia | reflexivity].
  - exact IH.
Qed.

(** The indicator loop of the code does what [IndicatorScan] says, and adds
    to [stateEvent] the number of indicators whose product is negative. *)
Lemma check_stateEvents_scan :
  forall (count lo : nat) (se : Z) (prev : list fmi3Real) (w : World G)
         (se' : Z) (prev' : list fmi3Real) (w' : World G),
    forM count lo check_stateEvent (se, prev) w = Some ((se', prev'), w') ->
    exists seen,
      IndicatorScan count lo prev w seen prev' w'
      /\ se' = (se + Z.of_nat (List.length (filter crossing seen)))%Z.
Proof.
  induction count as [| count IH]; intros lo se prev w se' prev' w' H.
  - cbn in H. apply ret_Some in H. inversion H. subst.
    exists []. split; [constructor | cbn; lia].
  - cbn [forM] in H. apply bind_Some in H as [[se1 prev1] [w2 [H1 H2]]].
    unfold check_stateEvent in H1. cbn [fst snd] in H1.
    apply bind_Some in H1 as [ei [w1 [Hei H1]]].
    apply bind_Some in H1 as [p [wa [Hp H1]]].
    apply of_option_Some in Hp as [Hp ->].
    apply bind_Some in H1 as [[] [wb [Hlog H1]]].
    apply ret_Some in H1. inversion H1. subst se1 prev1 wb. clear H1.
    apply IH in H2 as [seen [Hscan Hse]].
    exists ((ei, p) :: seen). split.
    + eapply IndicatorScan_indicator; eauto.
    + subst se'. cbn [filter]. unfold crossing at 2. cbn [fst snd].
      destruct (ei * p <? 0)%float; cbn [List.length]; lia.
Qed.

(** One iteration of the stepping loop that goes on is a [SubInterval]; the
    counters [stateEvent] and [timeEvent] are zero again after it. *)
Lemma doStep_substep_interval (h : fmi3Real) (k : nat) (l l' : StepLocals)
    (w w' : World G) :
  stateEvent l = 0%Z ->
  timeEvent l = 0%Z ->
  doStep_substep h k l w = Some (inl l', w') ->
  SubInterval h (prevEventIndicators l) w (prevEventIndicators l') w'
  /\ stateEvent l' = 0%Z /\ timeEvent l' = 0%Z.
Proof.
  intros Hse Hte H. unfold doStep_substep in H.
  apply bind_Some in H as [[] [wt0 [Ht H]]].
  unfold modify_comp in Ht. inversion Ht. subst wt0. clear Ht.
  apply bind_Some in H as [[] [ws [Hs H]]].
  apply save_states_Some in Hs. subst ws.
  apply bind_Some in H as [[] [we [He H]]].
  apply euler_states_advance in He.
  apply bind_Some in H as [[se1 prev1] [wi [Hi H]]].
  apply check_stateEvents_scan in Hi as [seen [Hscan Hse1]].
  rewrite Hse in Hse1. cbn [Z.add] in Hse1.
  apply bind_Some in H as [comp [wi' [Hc H]]].
  unfold get_comp in Hc. inversion Hc. subst comp wi'. clear Hc.
  apply bind_Some in H as [te1 [wt [Hlog H]]].
  assert (Hte1 : te1 = (if timeEvent_due (inst wi) then 1 else 0)%Z
                 /\ (if timeEvent_due (inst wi)
                     then FILTERED_LOG fmi3OK LOG_EVENT
                            "fmi3DoStep: time event detected at %g"
                     else ret tt) wi = Some (tt, wt)).
  { destruct (timeEvent_due (inst wi)).
    - apply bind_Some in Hlog as [[] [wx [Hx Hlog]]].
      apply ret_Some in Hlog. inversion Hlog. subst. split; [reflexivity | exact Hx].
    - apply ret_Some in Hlog. inversion Hlog. subst. rewrite Hte.
      split; reflexivity. }
  destruct Hte1 as [-> Hlog']. clear Hlog.
  apply bind_Some in H as [l1 [wu [Hev H]]].
  assert (Hflag : (negb (se1 =? 0)%Z
                   || negb ((if timeEvent_due (inst wi) then 1 else 0) =? 0)%Z)
                  = (existsb crossing seen || timeEvent_due (inst wi))).
  { subst se1. rewrite crossing_count. destruct (timeEvent_due (inst wi)); reflexivity. }
  rewrite Hflag in Hev.
  assert (Hl1 : prevEventIndicators l1 = prev1 /\ stateEvent l1 = 0%Z
                /\ timeEvent l1 = 0%Z
                /\ (if existsb crossing seen || timeEvent_due (inst wi)
                    then eventUpdate (if timeEvent_due (inst wi) then 1 else 0)%Z 1%Z
                    else ret tt) wt = Some (tt, wu)).
  { destruct (existsb crossing seen || timeEvent_due (inst wi)) eqn:Ef.
    - apply bind_Some in Hev as [[] [wx [Hx Hev]]].
      apply ret_Some in Hev. inversion Hev. subst.
      repeat split. exact Hx.
    - apply ret_Some in Hev. inversion Hev. subst. cbn.
      apply orb_false_elim in Hflag as [E1 E2].
      apply negb_false_iff in E1, E2.
      apply Z.eqb_eq in E1, E2. repeat split; assumption. }
  destruct Hl1 as [Hp1 [Hs1 [Ht1 Hev']]]. clear Hev.
  apply bind_Some in H as [comp [wu' [Hc H]]].
  unfold get_comp in Hc. inversion Hc. subst comp wu'. clear Hc.
  destruct (terminateSimulation (eventInfo (inst wu))) eqn:Eterm.
  - apply bind_Some in H as [[] [wx [_ H]]].
    apply bind_Some in H as [[] [wy [_ H]]].
    apply ret_Some in H. inversion H.
  - apply ret_Some in H. inversion H. subst l' w'. clear H.
    split; [| split; assumption].
    rewrite Hp1.
    eapply SubInterval_intro with (we := we) (wi := wi) (wt := wt) (seen := seen);
      try eassumption; reflexivity.
Qed.

(** An iteration that leaves the function returns [fmi3Discard]. *)
Lemma doStep_substep_status (h : fmi3Real) (k : nat) (l : StepLocals)
    (w w' : World G) (status : fmi3Status) :
  doStep_substep h k l w = Some (inr status, w') -> status = fmi3Discard.
Proof.
  intros H. unfold doStep_substep in H.
  apply bind_Some in H as [[] [w1 [_ H]]].
  apply bind_Some in H as [[] [w2 [_ H]]].
  apply bind_Some in H as [[] [w3 [_ H]]].
  apply bind_Some in H as [[se1 prev1] [w4 [_ H]]].
  apply bind_Some in H as [comp [w5 [_ H]]].
  apply bind_Some in H as [te1 [w6 [_ H]]].
  apply bind_Some in H as [l1 [w7 [_ H]]].
  apply bind_Some in H as [comp' [w8 [_ H]]].
  destruct (terminateSimulation (eventInfo comp')).
  - apply bind_Some in H as [[] [w9 [_ H]]].
    apply bind_Some in H as [[] [w10 [_ H]]].
    apply ret_Some in H. now inversion H.
  - apply ret_Some in H. inversion H.
Qed.

Lemma doStep_loop_status (h : fmi3Real) :
  forall (n k : nat) (l : StepLocals) (w w' : World G) (status : fmi3Status),
    forRet n k (doStep_substep h) l w = Some (inr status, w') ->
    status = fmi3Discard.
Proof.
  induction n as [| n IH]; intros k l w w' status H.
  - cbn in H. apply ret_Some in H. inversion H.
  - cbn [forRet] in H. apply bind_Some in H as [[l1 | st] [w1 [H1 H]]].
    + exact (IH _ _ _ _ _ H).
    + apply ret_Some in H. inversion H. subst.
      exact (doStep_substep_status _ _ _ _ H1).
Qed.

Lemma doStep_loop_intervals (h : fmi3Real) :
  forall (n k : nat) (l l' : StepLocals) (w w' : World G),
    stateEvent l = 0%Z ->
    timeEvent l = 0%Z ->
    forRet n k (doStep_substep h) l w = Some (inl l', w') ->
    SubIntervals h n (prevEventIndicators l) w (prevEventIndicators l') w'.
Proof.
  induction n as [| n IH]; intros k l l' w w' Hse Hte H.
  - cbn in H. apply ret_Some in H. inversion H. constructor.
  - cbn [forRet] in H. apply bind_Some in H as [[l1 | st] [w1 [H1 H]]].
    + apply doStep_substep_interval in H1 as [Hsub [Hse1 Hte1]]; try assumption.
      eapply SubIntervals_next; [exact Hsub |].
      eapply IH; eassumption.
    + apply ret_Some in H. inversion H.
Qed.

(** C6 (as amended).  A [fmi3DoStep] that returns [fmi3OK] was called in
    [modelStepComplete] with a step size that is not [<= 0]; it samples the
    event indicators, sets the time to the communication point, and then
    makes exactly 10 sub-intervals of length [communicationStepSize / 10]:
    in each the time moves by that length, every continuous state takes its
    value plus that length times the value the model's read hook [getReal]
    yields for value reference VR+1, and a state event is flagged exactly when
    the product of some indicator's current and previous value is
    negative. *)
Theorem C6_step_is_ten_euler_subintervals
    (currentCommunicationPoint communicationStepSize : fmi3Real)
    (noSetFMUStatePriorToCurrentPoint : fmi3Boolean) (w w' : World G) :
  fmi3DoStep currentCommunicationPoint communicationStepSize
    noSetFMUStatePriorToCurrentPoint w = Some (fmi3OK, w') ->
  legal (state (inst w)) MASK_fmi3DoStep
  /\ (communicationStepSize <=? 0)%float = false
  /\ exists (l : list LogRecord) (prev prev' : list fmi3Real) (w0 : World G),
       sample_eventIndicators (mkWorld (inst w) (host_log w ++ l) (globals w))
       = Some (prev, w0)
       /\ SubIntervals (communicationStepSize / 10)%float 10 prev
            (mkWorld (set_time currentCommunicationPoint (inst w0))
               (host_log w0) (globals w0))
            prev' w'.
Proof.
  intros H. unfold fmi3DoStep in H.
  apply bind_Some in H as [bad [wa [Hbad H]]].
  destruct (Z.eq_dec (Z.land (state (inst w)) MASK_fmi3DoStep) 0) as [E | E].
  { rewrite invalidState_illegal in Hbad by exact E. inversion Hbad. subst.
    apply ret_Some in H. inversion H. }
  rewrite invalidState_legal in Hbad by exact E. inversion Hbad. subst bad wa.
  cbv beta iota delta [fmi3False] in H.
  split; [exact E |].
  apply bind_Some in H as [[] [wl [Hlog H]]].
  destruct (FILTERED_LOG_inst fmi3OK LOG_FMI_CALL
              "fmi3DoStep: currentCommunicationPoint = %g, communicationStepSize = %g, noSetFMUStatePriorToCurrentPoint = fmi3%s"
              w) as [l Hl].
  rewrite Hl in Hlog. inversion Hlog. subst wl. clear Hlog Hl.
  destruct (communicationStepSize <=? 0)%float.
  { apply bind_Some in H as [[] [wx [_ H]]].
    apply bind_Some in H as [[] [wy [_ H]]].
    apply ret_Some in H. inversion H. }
  split; [reflexivity |].
  apply bind_Some in H as [prev [w0 [Hprev H]]].
  apply bind_Some in H as [[] [wt [Ht H]]].
  unfold modify_comp in Ht. inversion Ht. subst wt. clear Ht.
  apply bind_Some in H as [res [wr [Hloop H]]].
  destruct res as [l' | st].
  - apply ret_Some in H. inversion H. subst wr.
    exists l, prev, (prevEventIndicators l'), w0.
    split; [exact Hprev |].
    apply doStep_loop_intervals in Hloop; [exact Hloop | reflexivity | reflexivity].
  - apply ret_Some in H. inversion H. subst st wr.
    apply doStep_loop_status in Hloop. discriminate Hloop.
Qed.

(** What the ten sub-intervals do to the simulated time, for a model whose
    hooks leave the time alone (the four models of the repository do): it is
    the communication point plus ten times, one after the other, the tenth of
    the step size. *)
Section HooksKeepTime.

Hypothesis getReal_time :
  forall vr (w : World G) p w', getReal vr w = Some (p, w') -> time (inst w') = time (inst w).
Hypothesis getEventIndicator_time :
  forall z (w : World G) x w',
    getEventIndicator z w = Some (x, w') -> time (inst w') = time (inst w).
Hypothesis eventUpdate_time :
  forall a b (w : World G) w',
    eventUpdate a b w = Some (tt, w') -> time (inst w') = time (inst w).

Lemma EulerAdvance_time (h : fmi3Real) (count lo : nat) (w w' : World G) :
  EulerAdvance h count lo w w' -> time (inst w') = time (inst w).
Proof.
  induction 1 as [| count lo vr d der x w w1 w2 w3 Hvr Hd Hder Hx Hst _ IH];
    [reflexivity |].
  rewrite IH. rewrite <- (getReal_time _ _ Hd).
  unfold r_assign in Hst.
  apply bind_Some in Hst as [p [wa [Hp Hst]]].
  apply variables_at_Some in Hp as [-> ->].
  unfold store, bind, get_comp in Hst.
  destruct (nth_error (variables (inst w1)) (N.to_nat vr)) as [blk |];
    [| discriminate Hst].
  cbn [of_option] in Hst. unfold ret at 1 in Hst. cbv beta iota in Hst.
  destruct (0 <? List.length blk); [| discriminate Hst].
  unfold modify_comp in Hst. inversion Hst. reflexivity.
Qed.

Lemma IndicatorScan_time (count lo : nat) (prev prev' : list fmi3Real)
    (seen : list (fmi3Real * fmi3Real)) (w w' : World G) :
  IndicatorScan count lo prev w seen prev' w' -> time (inst w') = time (inst w).
Proof.
  induction 1 as [| count lo prev ei prev_i w w1 w2 w3 seen prev' Hei Hp Hlog _ IH];
    [reflexivity |].
  rewrite IH. rewrite <- (getEventIndicator_time _ _ Hei).
  destruct (crossing (ei, prev_i)).
  - match type of Hlog with FILTERED_LOG ?st ?c ?m ?w0 = _ =>
      destruct (FILTERED_LOG_inst st c m w0) as [l El] end.
    rewrite El in Hlog. inversion Hlog. reflexivity.
  - apply ret_Some in Hlog. inversion Hlog. reflexivity.
Qed.

Lemma SubInterval_time (h : fmi3Real) (prev prev' : list fmi3Real) (w w' : World G) :
  SubInterval h prev w prev' w' -> time (inst w') = (time (inst w) + h)%float.
Proof.
  intros [we wi wt seen te He Hs Hte Hlog Hev _].
  apply EulerAdvance_time in He. apply IndicatorScan_time in Hs.
  cbn [inst time set_time] in He.
  assert (Ht : time (inst wt) = time (inst wi)).
  { destruct te.
    - match type of Hlog with FILTERED_LOG ?st ?c ?m ?w0 = _ =>
        destruct (FILTERED_LOG_inst st c m w0) as [l El] end.
      rewrite El in Hlog. inversion Hlog. reflexivity.
    - apply ret_Some in Hlog. inversion Hlog. reflexivity. }
  assert (Hu : time (inst w') = time (inst wt)).
  { destruct (existsb crossing seen || te).
    - exact (eventUpdate_time _ _ _ Hev).
    - apply ret_Some in Hev. inversion Hev. reflexivity. }
  congruence.
Qed.

Lemma SubIntervals_time (h : fmi3Real) (n : nat) (prev prev' : list fmi3Real)
    (w w' : World G) :
  SubIntervals h n prev w prev' w' ->
  time (inst w') = Nat.iter n (fun t => (t + h)%float) (time (inst w)).
Proof.
  induction 1 as [| n prev prev1 prev2 w w1 w2 Hsub _ IH]; [reflexivity |].
  rewrite IH. rewrite (SubInterval_time Hsub).
  change (1 + n) with (Datatypes.S n). rewrite Nat.iter_succ_r. reflexivity.
Qed.

End HooksKeepTime.

End Stepping.

Section DirtyFlag.

Context {G : Type} {model : Model}.

Lemma keeps_dirty_ret {A} (a : A) : keeps_dirty (@ret G A a).
Proof. intros w a' w' H. apply ret_Some in H. now inversion H. Qed.

Lemma keeps_dirty_bind {A B} (c : M G A) (k : A -> M G B) :
  keeps_dirty c -> (forall a, keeps_dirty (k a)) -> keeps_dirty (bind c k).
Proof.
  intros Hc Hk w b0 w' H. apply bind_Some in H as [a [w1 [H1 H2]]].
  rewrite (Hk _ _ _ _ H2). exact (Hc _ _ _ H1).
Qed.

Lemma keeps_dirty_of_option {A} (o : option A) : keeps_dirty (@of_option G A o).
Proof. intros w a w' H. apply of_option_Some in H as [_ ->]. reflexivity. Qed.

Lemma keeps_dirty_modify_comp (f : ModelInstance -> ModelInstance) :
  (forall c, isDirtyValues (f c) = isDirtyValues c) ->
  keeps_dirty (@modify_comp G f).
Proof. intros Hf w a w' H. unfold modify_comp in H. inversion H. apply Hf. Qed.

Lemma keeps_dirty_FILTERED_LOG (st : fmi3Status) (cat : nat) (msg : string) :
  keeps_dirty (@FILTERED_LOG G st cat msg).
Proof.
  intros w a w' H. destruct (FILTERED_LOG_inst st cat msg w) as [l E].
  rewrite E in H. inversion H. reflexivity.
Qed.

Lemma keeps_dirty_forM {St} (body : nat -> St -> M G St) :
  (forall i s, keeps_dirty (body i s)) ->
  forall count lo s, keeps_dirty (forM count lo body s).
Proof.
  intros Hb. induction count as [| count IH]; intros lo s; cbn [forM].
  - apply keeps_dirty_ret.
  - apply keeps_dirty_bind; [apply Hb | intros s'; apply IH].
Qed.

Lemma keeps_dirty_forRet {St Rt} (body : nat -> St -> M G (St + Rt)) :
  (forall i s, keeps_dirty (body i s)) ->
  forall count lo s, keeps_dirty (forRet count lo body s).
Proof.
  intros Hb. induction count as [| count IH]; intros lo s; cbn [forRet].
  - apply keeps_dirty_ret.
  - apply keeps_dirty_bind; [apply Hb |].
    intros [s' | v]; [apply IH | apply keeps_dirty_ret].
Qed.

Lemma keeps_dirty_invalidState (f : string) (mask : Z) :
  keeps_dirty (@invalidState G f mask).
Proof.
  intros w a w' H. unfold invalidState, bind, get_comp in H.
  destruct (Z.land (state (inst w)) mask =? 0)%Z; inversion H; reflexivity.
Qed.

Lemma keeps_dirty_nullPointer {A} (f arg : string) (p : option A) :
  keeps_dirty (@nullPointer G A f arg p).
Proof.
  intros w a w' H. destruct p; cbn in H; inversion H; reflexivity.
Qed.

Lemma keeps_dirty_vrOutOfRange (f : string) (vr : fmi3ValueReference) (type : ascii) :
  keeps_dirty (@vrOutOfRange G model f vr type).
Proof.
  intros w a w' H. unfold vrOutOfRange in H.
  destruct (N.of_nat N_VARIABLES <=? vr)%N.
  - unfold bind in H. rewrite FILTERED_LOG_error in H. inversion H. reflexivity.
  - apply bind_Some in H as [t [w1 [H1 H]]].
    unfold variableType in H1. destruct (N.to_nat vr <? N_VARIABLES);
      [| discriminate H1].
    apply ret_Some in H1. inversion H1. subst t w1.
    destruct (negb (Ascii.eqb (nth (N.to_nat vr) s_variableTypes Ascii.zero) type)).
    + unfold bind in H. rewrite FILTERED_LOG_error in H. inversion H. reflexivity.
    + apply ret_Some in H. inversion H. reflexivity.
Qed.

Lemma keeps_dirty_store (p : ptr) (j : nat) (v : cell) : keeps_dirty (@store G p j v).
Proof.
  intros w a w' H. destruct p as [| vr]; [discriminate H |].
  unfold store, bind, get_comp in H.
  destruct (nth_error (variables (inst w)) vr) as [blk |]; [| discriminate H].
  cbn [of_option] in H. unfold ret at 1 in H. cbv beta iota in H.
  destruct (j <? List.length blk); [| discriminate H].
  unfold modify_comp in H. inversion H. reflexivity.
Qed.

Lemma keeps_dirty_read_arr {A} (a : option (list A)) (i0 : nat) :
  keeps_dirty (@read_arr G A a i0).
Proof. destruct a; [apply keeps_dirty_of_option | intros w x w' H; discriminate H]. Qed.

Lemma keeps_dirty_variables_at (vr : nat) : keeps_dirty (@variables_at G vr).
Proof. intros w a w' H. apply variables_at_Some in H as [_ ->]. reflexivity. Qed.

Lemma keeps_dirty_write (values : SetValues) :
  match values with
  | RealValues value => forall vr j k, keeps_dirty (@write_real G (Some value) vr j k)
  | IntegerValues value => forall vr j k, keeps_dirty (@write_integer G (Some value) vr j k)
  | BooleanValues value => forall vr j k, keeps_dirty (@write_boolean G (Some value) vr j k)
  | StringValues value => forall vr j k, keeps_dirty (@write_string G (Some value) vr j k)
  end.
Proof.
  destruct values; intros vr j k;
    unfold write_real, write_integer, write_boolean, write_string, varR, varI, varB;
    try apply keeps_dirty_ret;
    (apply keeps_dirty_bind; [apply keeps_dirty_read_arr | intros x]);
    (apply keeps_dirty_bind; [apply keeps_dirty_variables_at | intros p]);
    (apply keeps_dirty_bind; [apply keeps_dirty_store | intros u]);
    apply keeps_dirty_ret.
Qed.

(** The setters' shape: a call that returns [fmi3Error] has not touched the
    dirty flag, whatever it wrote before. *)
Lemma setXXX_error_keeps_dirty {V} (name : string) (mask : Z) (nvrMsg checkName : string)
    (type : ascii)
    (write : option (list V) -> fmi3ValueReference -> nat -> nat -> M G nat)
    (itemMsg : string) (vr : option (list fmi3ValueReference)) (nvr : nat)
    (value : option (list V)) (nValues : nat) (w w' : World G) :
  (forall v j k, keeps_dirty (write value v j k)) ->
  setXXX name mask nvrMsg checkName type write itemMsg vr nvr value nValues w
  = Some (fmi3Error, w') ->
  isDirtyValues (inst w') = isDirtyValues (inst w).
Proof.
  intros Hw H. unfold setXXX in H.
  apply bind_Some in H as [bad [w1 [H1 H]]].
  apply keeps_dirty_invalidState in H1. rewrite <- H1.
  destruct bad; [apply ret_Some in H; inversion H; reflexivity |].
  apply bind_Some in H as [bad [w2 [H2 H]]].
  assert (K2 : isDirtyValues (inst w2) = isDirtyValues (inst w1)).
  { destruct (0 <? nvr); [exact (keeps_dirty_nullPointer _ _ _ _ H2) |].
    apply ret_Some in H2. inversion H2. reflexivity. }
  rewrite <- K2.
  destruct bad; [apply ret_Some in H; inversion H; reflexivity |].
  apply bind_Some in H as [bad [w3 [H3 H]]].
  assert (K3 : isDirtyValues (inst w3) = isDirtyValues (inst w2)).
  { destruct (0 <? nvr); [exact (keeps_dirty_nullPointer _ _ _ _ H3) |].
    apply ret_Some in H3. inversion H3. reflexivity. }
  rewrite <- K3.
  destruct bad; [apply ret_Some in H; inversion H; reflexivity |].
  apply bind_Some in H as [[] [w4 [H4 H]]].
  apply keeps_dirty_FILTERED_LOG in H4. rewrite <- H4.
  apply bind_Some in H as [res [w5 [H5 H]]].
  assert (K5 : isDirtyValues (inst w5) = isDirtyValues (inst w4)).
  { revert H5. apply keeps_dirty_forRet. intros i0 k. unfold setXXX_item.
    apply keeps_dirty_bind; [apply keeps_dirty_read_arr | intros v].
    apply keeps_dirty_bind; [apply keeps_dirty_vrOutOfRange | intros [|]];
      [apply keeps_dirty_ret |].
    apply keeps_dirty_bind.
    { intros wa n wb Hn. unfold variableSize in Hn.
      destruct (i0 <? N_VARIABLES); [| discriminate Hn].
      apply ret_Some in Hn. inversion Hn. reflexivity. }
    intros size.
    apply keeps_dirty_bind; [apply keeps_dirty_forM; intros j k0; apply Hw |].
    intros k'.
    apply keeps_dirty_bind; [apply keeps_dirty_FILTERED_LOG | intros u].
    apply keeps_dirty_ret. }
  rewrite <- K5.
  destruct res as [k | st].
  - apply bind_Some in H as [u [w6 [_ H]]]. apply ret_Some in H. inversion H.
  - apply ret_Some in H. inversion H. reflexivity.
Qed.

(** In each of the four setters, a batch that is refused (at whatever entry,
    after whatever writes) leaves [isDirtyValues] as it was. *)
Lemma fmi3Set_error_keeps_dirty (vr : list fmi3ValueReference) (nvr : nat)
    (values : SetValues) (nValues : nat) (w w' : World G) :
  fmi3Set vr nvr values nValues w = Some (fmi3Error, w') ->
  isDirtyValues (inst w') = isDirtyValues (inst w).
Proof.
  intros H. pose proof (keeps_dirty_write values) as Hw.
  destruct values; cbn [fmi3Set] in H;
    unfold fmi3SetReal, fmi3SetInteger, fmi3SetBoolean, fmi3SetString in H;
    eapply setXXX_error_keeps_dirty; eassumption.
Qed.

End DirtyFlag.

(* ------------------------------------------------------------------------- *)
(** * Frames and results of the operations *)
(* ------------------------------------------------------------------------- *)

Section Frames.

Context {G : Type} {R : ModelInstance -> ModelInstance -> Prop} {F : Frame R}.

Lemma respects_same {A} (c : M G A) :
  (forall w a w', c w = Some (a, w') -> inst w' = inst w) -> respects R c.
Proof. intros H w a w' E. rewrite (H _ _ _ E). apply frame_refl. Qed.

Lemma respects_ret {A} (a : A) : respects R (@ret G A a).
Proof. apply respects_same. intros w a' w' E. inversion E. reflexivity. Qed.

Lemma respects_undefined {A} : respects R (@undefined G A).
Proof. intros w a w' E. discriminate E. Qed.

Lemma respects_of_option {A} (o : option A) : respects R (@of_option G A o).
Proof. destruct o; [apply respects_ret | apply respects_undefined]. Qed.

Lemma respects_get_comp : respects R (@get_comp G).
Proof. apply respects_same. intros w a w' E. inversion E. reflexivity. Qed.

Lemma respects_get_globals : respects R (@get_globals G).
Proof. apply respects_same. intros w a w' E. inversion E. reflexivity. Qed.

Lemma respects_put_globals (g : G) : respects R (put_globals g).
Proof. apply respects_same. intros w a w' E. inversion E. reflexivity. Qed.

Lemma respects_call_logger (name : fmi3String) (st : fmi3Status) (cat msg : string) :
  respects R (@call_logger G name st cat msg).
Proof. apply respects_same. intros w a w' E. inversion E. reflexivity. Qed.

Lemma respects_bind {A B} (c : M G A) (k : A -> M G B) :
  respects R c -> (forall a, respects R (k a)) -> respects R (bind c k).
Proof.
  intros Hc Hk w b0 w' E. unfold bind in E.
  destruct (c w) as [[a w1] |] eqn:Ec; [| discriminate].
  eapply frame_trans; [exact (Hc _ _ _ Ec) | exact (Hk _ _ _ _ E)].
Qed.

Lemma respects_modify_comp (f : ModelInstance -> ModelInstance) :
  (forall c, R c (f c)) -> respects R (@modify_comp G f).
Proof. intros H w a w' E. inversion E; subst. apply H. Qed.

Lemma respects_FILTERED_LOG (st : fmi3Status) (cat : nat) (msg : string) :
  respects R (@FILTERED_LOG G st cat msg).
Proof.
  unfold FILTERED_LOG. apply respects_bind; [apply respects_get_comp |].
  intros comp. destruct (_ || _); [apply respects_call_logger | apply respects_ret].
Qed.

Lemma respects_forM {St} (body : nat -> St -> M G St) :
  (forall i s, respects R (body i s)) ->
  forall count lo s, respects R (forM count lo body s).
Proof.
  intros Hb count. induction count as [| count IH]; intros lo s; cbn [forM].
  - apply respects_ret.
  - apply respects_bind; [apply Hb | intros s'; apply IH].
Qed.

Lemma respects_forRet {St Rt} (body : nat -> St -> M G (St + Rt)) :
  (forall i s, respects R (body i s)) ->
  forall count lo s, respects R (forRet count lo body s).
Proof.
  intros Hb count. induction count as [| count IH]; intros lo s; cbn [forRet].
  - apply respects_ret.
  - apply respects_bind; [apply Hb |].
    intros [s' | v]; [apply IH | apply respects_ret].
Qed.

Lemma respects_read_arr {A} (a : option (list A)) (i0 : nat) :
  respects R (@read_arr G A a i0).
Proof. destruct a; [apply respects_of_option | apply respects_undefined]. Qed.

Lemma respects_write_arr {A} (a : option (list A)) (i0 : nat) (v : A) :
  respects R (@write_arr G A a i0 v).
Proof.
  destruct a as [l |]; cbn [write_arr]; [| apply respects_undefined].
  destruct (i0 <? List.length l); [apply respects_ret | apply respects_undefined].
Qed.

Lemma respects_variables_at (vr : nat) : respects R (@variables_at G vr).
Proof.
  unfold variables_at. apply respects_bind; [apply respects_get_comp |].
  intros c. destruct (vr <? _); [apply respects_ret | apply respects_undefined].
Qed.

Lemma respects_load (p : ptr) (j : nat) : respects R (@load G p j).
Proof.
  destruct p; cbn [load]; [apply respects_undefined |].
  apply respects_bind; [apply respects_get_comp | intros c].
  apply respects_bind; intros; apply respects_of_option.
Qed.

Lemma respects_loadR (p : ptr) (j : nat) : respects R (@loadR G p j).
Proof.
  unfold loadR. apply respects_bind; [apply respects_load |].
  intros []; first [apply respects_ret | apply respects_undefined].
Qed.

Lemma respects_loadI (p : ptr) (j : nat) : respects R (@loadI G p j).
Proof.
  unfold loadI. apply respects_bind; [apply respects_load |].
  intros []; first [apply respects_ret | apply respects_undefined].
Qed.

Lemma respects_loadB (p : ptr) (j : nat) : respects R (@loadB G p j).
Proof.
  unfold loadB. apply respects_bind; [apply respects_load |].
  intros []; first [apply respects_ret | apply respects_undefined].
Qed.

Lemma respects_loadS (p : ptr) (j : nat) : respects R (@loadS G p j).
Proof.
  unfold loadS. apply respects_bind; [apply respects_load |].
  intros []; first [apply respects_ret | apply respects_undefined].
Qed.

Lemma respects_store (p : ptr) (j : nat) (v : cell) :
  (forall vars c, R c (set_variables vars c)) -> respects R (@store G p j v).
Proof.
  intros H. destruct p; cbn [store]; [apply respects_undefined |].
  apply respects_bind; [apply respects_get_comp | intros c].
  apply respects_bind; [apply respects_of_option | intros blk].
  destruct (j <? _); [apply respects_modify_comp; intros; apply H | apply respects_undefined].
Qed.

Lemma respects_invalidState (f : string) (mask : Z) :
  (forall c, R c (set_state modelError c)) -> respects R (@invalidState G f mask).
Proof.
  intros H. unfold invalidState. apply respects_bind; [apply respects_get_comp | intros c].
  destruct (_ =? _)%Z; [| apply respects_ret].
  apply respects_bind; [apply respects_modify_comp; exact H | intros _].
  apply respects_bind; [apply respects_FILTERED_LOG | intros _; apply respects_ret].
Qed.

Lemma respects_nullPointer {A} (f arg : string) (p : option A) :
  (forall c, R c (set_state modelError c)) -> respects R (@nullPointer G A f arg p).
Proof.
  intros H. destruct p; cbn [nullPointer]; [apply respects_ret |].
  apply respects_bind; [apply respects_modify_comp; exact H | intros _].
  apply respects_bind; [apply respects_FILTERED_LOG | intros _; apply respects_ret].
Qed.

Lemma respects_invalidNumber (f arg : string) (n nExpected : nat) :
  (forall c, R c (set_state modelError c)) -> respects R (@invalidNumber G f arg n nExpected).
Proof.
  intros H. unfold invalidNumber. destruct (negb _); [| apply respects_ret].
  apply respects_bind; [apply respects_modify_comp; exact H | intros _].
  apply respects_bind; [apply respects_FILTERED_LOG | intros _; apply respects_ret].
Qed.

Lemma respects_vrOutOfRange {model : Model} (f : string) (vr : fmi3ValueReference)
    (type : ascii) :
  (forall c, R c (set_state modelError c)) -> respects R (@vrOutOfRange G model f vr type).
Proof.
  intros H. unfold vrOutOfRange, variableType.
  destruct (_ <=? _)%N.
  - apply respects_bind; [apply respects_FILTERED_LOG | intros _].
    apply respects_bind; [apply respects_modify_comp; exact H | intros _; apply respects_ret].
  - apply respects_bind.
    + destruct (_ <? _); [apply respects_ret | apply respects_undefined].
    + intros t. destruct (negb _); [| apply respects_ret].
      apply respects_bind; [apply respects_FILTERED_LOG | intros _].
      apply respects_bind; [apply respects_modify_comp; exact H | intros _; apply respects_ret].
Qed.

End Frames.

(** Follows a computation of the engine with the frame lemmas; what it
    cannot settle is left as a goal. *)
Ltac frame_side :=
  intros;
  solve [ reflexivity | left; reflexivity | right; reflexivity
        | exact (fun H => H) | exact (fun _ => eq_refl) ].

Ltac frame :=
  unfold keeps;
  repeat first
    [ apply respects_ret | apply respects_undefined | apply respects_of_option
    | apply respects_get_comp | apply respects_get_globals | apply respects_put_globals
    | apply respects_call_logger | apply respects_FILTERED_LOG
    | apply respects_read_arr | apply respects_write_arr | apply respects_variables_at
    | apply respects_load | apply respects_loadR | apply respects_loadI
    | apply respects_loadB | apply respects_loadS
    | apply respects_store; frame_side
    | apply respects_invalidState; frame_side
    | apply respects_nullPointer; frame_side
    | apply respects_invalidNumber; frame_side
    | apply respects_vrOutOfRange; frame_side
    | apply respects_modify_comp; frame_side
    | assumption
    | match goal with H : forall _, respects _ _ |- _ => apply H end
    | match goal with H : forall _ _, respects _ _ |- _ => apply H end
    | apply respects_forM; intros
    | apply respects_forRet; intros
    | apply respects_bind; [| intros]
    | match goal with
      | |- respects _ (if ?b then _ else _) => destruct b
      | |- respects _ (match ?x with _ => _ end) => destruct x
      end ].

Ltac unfold_engine :=
  unfold status_of, fmi3SetupExperiment, fmi3EnterInitializationMode,
    fmi3ExitInitializationMode, fmi3Terminate, fmi3Reset, fmi3SetDebugLogging,
    fmi3GetReal, fmi3GetInteger, fmi3GetBoolean, fmi3GetString, getXXX, getXXX_item,
    fmi3SetReal, fmi3SetInteger, fmi3SetBoolean, fmi3SetString, setXXX, setXXX_item,
    write_real, write_integer, write_boolean, write_string,
    read_real, read_integer, read_boolean, read_string, varR, varI, varB, varS,
    variableSize, variableType,
    fmi3GetFMUstate, fmi3SetFMUstate, fmi3FreeFMUstate,
    fmi3SerializedFMUstateSize, fmi3SerializeFMUstate, fmi3DeSerializeFMUstate,
    fmi3GetDirectionalDerivative, unsupportedFunction,
    fmi3SetRealInputDerivatives, fmi3GetRealOutputDerivatives, fmi3CancelStep,
    fmi3DoStep, doStep_substep, sample_eventIndicators, save_states, euler_states,
    euler_state, check_stateEvents, check_stateEvent,
    fmi3GetStatus, fmi3GetRealStatus, fmi3GetIntegerStatus,
    fmi3GetBooleanStatus, fmi3GetStringStatus, getStatus, fmi3EnterEventMode,
    fmi3NewDiscreteStates, modify_eventInfo, fmi3EnterContinuousTimeMode,
    fmi3CompletedIntegratorStep, fmi3SetTime, fmi3SetContinuousStates,
    fmi3GetDerivatives, fmi3GetEventIndicators, fmi3GetContinuousStates,
    fmi3GetNominalsOfContinuousStates, find_category, set_logCategory, write_out;
  cbv zeta.

Section EngineFrames.

Context {G : Type} {model : Model} {hooks : Hooks G}.

(** X1.  Whatever the operation and its arguments, if the model's five
    functions leave [comp->state] alone, or move it to states the engine
    assigns only, the state after a call is the state before it or one of
    the eight states the engine assigns: no call puts the instance in
    [modelStartAndEnd], [modelStepInProgress], [modelStepCanceled] or
    [modelFatal]. *)
Theorem X1_no_call_enters_an_unassigned_state (call : Call) (w w' : World G)
    (status : fmi3Status) :
  hooks_respect hooks state_moves ->
  run call w = Some (status, w') ->
  state (inst w') = state (inst w) \/ assigned_state (state (inst w')) = true.
Proof.
  intros (Hs & Hc & Hr & He & Hu). revert w status w'.
  change (respects state_moves (run call)).
  destruct call; cbn [run]; unfold_engine; frame.
Qed.

(** X2.  The operations that neither store into a block of the variable store
    nor call a function of the model leave every block as it is, whatever
    they return: among them [fmi3SetString], [fmi3SetContinuousStates] and
    [fmi3GetRealOutputDerivatives]. *)
Theorem X2_variable_store_is_written_by_setters_and_model_only
    (call : Call) (w w' : World G) (status : fmi3Status) :
  stores_or_calls_model call = false ->
  run call w = Some (status, w') ->
  variables (inst w') = variables (inst w).
Proof.
  intros Hc. revert w status w'. change (keeps variables (run call)).
  destruct call; try discriminate Hc; clear Hc; cbn [run]; unfold_engine; frame.
Qed.

(** X3.  If the model's five functions leave [comp->time] alone, the
    operations other than [fmi3SetupExperiment], [fmi3SetTime] and
    [fmi3DoStep] leave it alone too, whatever they return. *)
Theorem X3_time_moves_in_three_operations_only
    (call : Call) (w w' : World G) (status : fmi3Status) :
  hooks_respect hooks (kept time) ->
  sets_time call = false ->
  run call w = Some (status, w') ->
  time (inst w') = time (inst w).
Proof.
  intros (Hs & Hc & Hr & He & Hu) Hcall. revert w status w'.
  change (keeps time (run call)).
  destruct call; try discriminate Hcall; clear Hcall; cbn [run]; unfold_engine; frame.
Qed.

End EngineFrames.

Section Results.

Context {G : Type}.

Lemma yields_ret {A} (P : A -> Prop) (a : A) : P a -> yields P (@ret G A a).
Proof. intros H w a' w' E. inversion E; subst. exact H. Qed.

Lemma yields_always {A} (P : A -> Prop) (c : M G A) : (forall a, P a) -> yields P c.
Proof. intros H w a w' _. apply H. Qed.

Lemma yields_undefined {A} (P : A -> Prop) : yields P (@undefined G A).
Proof. intros w a w' E. discriminate E. Qed.

Lemma yields_bind_with {A B} (Q : A -> Prop) (P : B -> Prop) (c : M G A) (k : A -> M G B) :
  yields Q c -> (forall a, Q a -> yields P (k a)) -> yields P (bind c k).
Proof.
  intros Hc Hk w b0 w' E. unfold bind in E.
  destruct (c w) as [[a w1] |] eqn:Ec; [| discriminate].
  exact (Hk a (Hc _ _ _ Ec) _ _ _ E).
Qed.

Lemma yields_bind {A B} (P : B -> Prop) (c : M G A) (k : A -> M G B) :
  (forall a, yields P (k a)) -> yields P (bind c k).
Proof.
  intros Hk. apply (@yields_bind_with A B (fun _ => True) P); [| intros a _; apply Hk].
  intros w a w' _. exact I.
Qed.

Lemma yields_map {A B} (P : B -> Prop) (f : A -> B) (c : M G A) :
  yields (fun a => P (f a)) c -> yields P (bind c (fun a => ret (f a))).
Proof.
  intros Hc. apply (@yields_bind_with A B (fun a => P (f a)) P); [exact Hc |].
  intros a Ha. apply yields_ret. exact Ha.
Qed.

Lemma yields_forRet {St Rt} (P : Rt -> Prop) (body : nat -> St -> M G (St + Rt)) :
  (forall i s, yields (fun r => match r with inl _ => True | inr v => P v end) (body i s)) ->
  forall count lo s,
    yields (fun r => match r with inl _ => True | inr v => P v end) (forRet count lo body s).
Proof.
  intros Hb count. induction count as [| count IH]; intros lo s; cbn [forRet].
  - apply yields_ret. exact I.
  - eapply yields_bind_with; [apply Hb |].
    intros [s' | v] Hv; [apply IH | apply yields_ret; exact Hv].
Qed.

End Results.

Ltac yield_side :=
  cbv beta iota in *; cbn [fst snd] in *; cbv beta iota in *;
  solve [exact I | assumption | auto 6].

(** Follows a computation of the engine to each of its [return]s. *)
Ltac yield :=
  repeat first
    [ apply yields_ret; yield_side
    | apply yields_always; intros; yield_side
    | apply yields_undefined
    | match goal with
      | |- yields ?P (bind (forRet _ _ _ _) _) =>
          apply (@yields_bind_with _ _ _
                   (fun r => match r with inl _ => True | inr v => P v end) P);
          [apply yields_forRet; intros | intros [? | ?] ?]
      end
    | apply yields_map
    | apply yields_bind; intros
    | match goal with
      | |- yields _ (if ?b then _ else _) => destruct b
      | |- yields _ (match ?x with _ => _ end) => destruct x
      end ].

Section EngineResults.

Context {G : Type} {model : Model} {hooks : Hooks G}.

(** X4.  Whatever the operation, its arguments and the model, a call that
    returns returns [fmi3OK], [fmi3Error] or [fmi3Discard], never
    [fmi3Warning], [fmi3Fatal] or [fmi3Pending]; and [fmi3Discard] comes from
    [fmi3DoStep] and the status inquiries only. *)
Theorem X4_statuses_an_operation_returns (call : Call) (w w' : World G)
    (status : fmi3Status) :
  run call w = Some (status, w') ->
  status = fmi3OK \/ status = fmi3Error
  \/ (status = fmi3Discard /\ may_discard call = true).
Proof.
  revert w status w'.
  change (yields (fun status => status = fmi3OK \/ status = fmi3Error
                                \/ (status = fmi3Discard /\ may_discard call = true))
            (run call)).
  destruct call; cbn [run may_discard]; unfold status_of; unfold_engine; yield.
Qed.

Lemma refusal_shape (f : string) (mask : Z) (callMsg errorMsg : string) (w : World G) :
  exists w',
    (bad <- invalidState f mask ;;
     if bad then ret fmi3Error else
     FILTERED_LOG fmi3OK LOG_FMI_CALL callMsg ;;
     FILTERED_LOG fmi3Error LOG_ERROR errorMsg ;;
     ret fmi3Error) w = Some (fmi3Error, w')
    /\ List.length (host_log w) < List.length (host_log w')
    /\ (legal (state (inst w)) mask -> inst w' = inst w).
Proof.
  destruct (Z.eq_dec (Z.land (state (inst w)) mask) 0) as [H | H].
  - unfold bind. rewrite invalidState_illegal by exact H.
    eexists. split; [reflexivity |]. split.
    + cbn. rewrite length_app. cbn. lia.
    + intros Hl. contradiction.
  - mstep. rewrite invalidState_legal by exact H. mstep.
    destruct (FILTERED_LOG_inst fmi3OK LOG_FMI_CALL callMsg w) as [l ->].
    unfold bind. rewrite FILTERED_LOG_error.
    eexists. split; [reflexivity |]. split.
    + cbn. rewrite !length_app. cbn. lia.
    + reflexivity.
Qed.

(** X5.  The seven operations that go to [unsupportedFunction],
    [fmi3SetRealInputDerivatives] and [fmi3CancelStep] return [fmi3Error]
    from every state and send the host at least one log record; called in a
    state of their mask they leave the instance as it is. *)
Theorem X5_operations_that_are_not_implemented (call : Call) (w : World G) :
  not_implemented call = true ->
  exists w',
    run call w = Some (fmi3Error, w')
    /\ List.length (host_log w) < List.length (host_log w')
    /\ (legal (state (inst w)) (call_mask call) -> inst w' = inst w).
Proof.
  intros H. destruct call; try discriminate H; cbn [run call_mask];
    apply refusal_shape.
Qed.

End EngineResults.

(* ------------------------------------------------------------------------- *)
(** * Creation and life cycle *)
(* ------------------------------------------------------------------------- *)

Section LifeCycle.

Context {G : Type} {model : Model} {hooks : Hooks G}.

(** X6.  The transitions that involve no function of the model.  In a state
    of its mask, each of [fmi3SetupExperiment], [fmi3EnterInitializationMode],
    [fmi3Terminate], [fmi3EnterEventMode], [fmi3EnterContinuousTimeMode] and
    [fmi3SetTime] returns [fmi3OK] and changes the instance by its one
    assignment (the start time; the new state, with the new-iteration flag
    for event mode; the time); only log records are added besides. *)
Theorem X6_transitions_without_the_model (call : Call)
    (effect : ModelInstance -> ModelInstance) (w : World G) :
  lifecycle_effect call = Some effect ->
  legal (state (inst w)) (call_mask call) ->
  exists l,
    run call w
    = Some (fmi3OK, mkWorld (effect (inst w)) (host_log w ++ l) (globals w)).
Proof.
  intros He Hl.
  destruct call; try discriminate He; cbn [lifecycle_effect] in He;
    injection He as <-; cbn [run call_mask] in *; unfold_engine;
    mstep; rewrite invalidState_legal by exact Hl; mstep;
    match goal with |- context [FILTERED_LOG fmi3OK LOG_FMI_CALL ?m w] =>
      destruct (FILTERED_LOG_inst fmi3OK LOG_FMI_CALL m w) as [l ->] end;
    exists l; reflexivity.
Qed.

(** X7.  [fmi3ExitInitializationMode] in initialization mode: a call that
    returns returns [fmi3OK] and leaves the values clean; the instance is in
    event mode with the new-iteration flag set when its type is model
    exchange, in [modelStepComplete] when it is co-simulation.  When the
    values were clean already, [calculateValues] is not called: the variable
    store and the model's globals are as before. *)
Theorem X7_exit_initialization_mode (w w' : World G) (status : fmi3Status) :
  legal (state (inst w)) MASK_fmi3ExitInitializationMode ->
  fmi3ExitInitializationMode w = Some (status, w') ->
  status = fmi3OK
  /\ isDirtyValues (inst w') = false
  /\ match type (inst w') with
     | fmi3ModelExchange =>
         state (inst w') = modelEventMode /\ isNewEventIteration (inst w') = true
     | fmi3CoSimulation => state (inst w') = modelStepComplete
     end
  /\ (isDirtyValues (inst w) = false ->
      variables (inst w') = variables (inst w) /\ globals w' = globals w).
Proof.
  intros Hl E. unfold fmi3ExitInitializationMode in E.
  apply bind_Some in E. destruct E as (bad & w0 & E0 & E).
  rewrite invalidState_legal in E0 by exact Hl. injection E0 as <- <-.
  cbv beta iota in E.
  apply bind_Some in E. destruct E as ([] & w1 & E1 & E).
  destruct (FILTERED_LOG_inst fmi3OK LOG_FMI_CALL "fmi3ExitInitializationMode" w)
    as [l El]. rewrite El in E1. injection E1 as <-.
  apply bind_Some in E. destruct E as (comp & w2 & E2 & E).
  injection E2 as <- <-. cbn [inst] in E.
  apply bind_Some in E. destruct E as ([] & w3 & E3 & E).
  apply bind_Some in E. destruct E as (comp & w4 & E4 & E).
  injection E4 as <- <-.
  apply bind_Some in E. destruct E as ([] & w5 & E5 & E).
  injection E as <- <-.
  assert (D3 : isDirtyValues (inst w3) = false
               /\ (isDirtyValues (inst w) = false ->
                   variables (inst w3) = variables (inst w) /\ globals w3 = globals w)).
  { destruct (isDirtyValues (inst w)) eqn:Ed.
    - apply bind_Some in E3. destruct E3 as ([] & wc & _ & E3).
      injection E3 as <-. split; [reflexivity | discriminate].
    - injection E3 as <-. split; [exact Ed | intros _; split; reflexivity]. }
  destruct D3 as [D3 K3].
  destruct (type (inst w3)) eqn:Et.
  - apply bind_Some in E5. destruct E5 as ([] & w6 & E6 & E5).
    injection E6 as <-. injection E5 as <-. cbn. rewrite Et.
    repeat split; try assumption; apply K3; assumption.
  - injection E5 as <-. cbn. rewrite Et.
    repeat split; try assumption; apply K3; assumption.
Qed.

(** X8.  [fmi3Reset] in a state of its mask, [modelError] included: the
    instance goes back to [modelInstantiated], the model's [setStartValues]
    runs on it, and the values are marked dirty; the call returns [fmi3OK].
    The time, the event info and the logging settings are not re-initialized
    by the engine. *)
Theorem X8_reset_reapplies_the_start_values (w w' : World G) (status : fmi3Status) :
  legal (state (inst w)) MASK_fmi3Reset ->
  fmi3Reset w = Some (status, w') ->
  status = fmi3OK
  /\ isDirtyValues (inst w') = true
  /\ exists l w1,
       setStartValues
         (mkWorld (set_state modelInstantiated (inst w)) (host_log w ++ l) (globals w))
       = Some (tt, w1)
       /\ w' = mkWorld (set_isDirtyValues fmi3True (inst w1)) (host_log w1) (globals w1).
Proof.
  intros Hl E. unfold fmi3Reset in E.
  apply bind_Some in E. destruct E as (bad & w0 & E0 & E).
  rewrite invalidState_legal in E0 by exact Hl. injection E0 as <- <-.
  cbv beta iota in E.
  apply bind_Some in E. destruct E as ([] & w1 & E1 & E).
  destruct (FILTERED_LOG_inst fmi3OK LOG_FMI_CALL "fmi3Reset" w) as [l El].
  rewrite El in E1. injection E1 as <-.
  apply bind_Some in E. destruct E as ([] & w2 & E2 & E). injection E2 as <-.
  apply bind_Some in E. destruct E as ([] & w3 & E3 & E).
  apply bind_Some in E. destruct E as ([] & w4 & E4 & E). injection E4 as <-.
  injection E as <- <-.
  split; [reflexivity |]. split; [reflexivity |].
  exists l, w3. split; [exact E3 | reflexivity].
Qed.

(** X9.  [fmi3FreeInstance] releases the instance exactly when the state is
    in its mask; otherwise the instance stays allocated, in [modelError]. *)
Theorem X9_free_instance_releases_in_legal_states_only (w : World G) :
  exists (after : option ModelInstance) (log : list LogRecord),
    fmi3FreeInstance w = Some (after, log, globals w)
    /\ (after = None <-> legal (state (inst w)) MASK_fmi3FreeInstance)
    /\ (forall comp, after = Some comp -> comp = set_state modelError (inst w)).
Proof.
  destruct (Z.eq_dec (Z.land (state (inst w)) MASK_fmi3FreeInstance) 0) as [H | H].
  - rewrite fmi3FreeInstance_illegal by exact H.
    eexists _, _. split; [reflexivity |]. split.
    + split; [discriminate | intros Hl; contradiction].
    + intros comp Hc. injection Hc as <-. reflexivity.
  - unfold fmi3FreeInstance. rewrite invalidState_legal by exact H.
    destruct (FILTERED_LOG_inst fmi3OK LOG_FMI_CALL "fmi3FreeInstance" w) as [l ->].
    eexists _, _. split; [reflexivity |]. split.
    + split; [intros _; exact H | reflexivity].
    + discriminate.
Qed.

Lemma allocate_variables_shape :
  forall (count i0 : nat) (vars : list (list cell)),
    allocate_variables count i0 = Some vars ->
    List.length vars = count
    /\ forall j, j < count ->
         exists c, zero_cell (nth (i0 + j) s_variableTypes Ascii.zero) = Some c
                   /\ nth_error vars j = Some (repeat c (nth (i0 + j) s_variableSizes 0)).
Proof.
  induction count as [| count IH]; intros i0 vars E; cbn [allocate_variables] in E.
  - injection E as <-. split; [reflexivity | intros j Hj; lia].
  - destruct (zero_cell (nth i0 s_variableTypes Ascii.zero)) as [c |] eqn:Ec;
      [| discriminate].
    destruct (allocate_variables count (1 + i0)) as [rest |] eqn:Er; [| discriminate].
    injection E as <-. destruct (IH _ _ Er) as [Hlen Hnth].
    split; [cbn; rewrite Hlen; reflexivity |].
    intros [| j] Hj.
    + exists c. rewrite Nat.add_0_r. split; [exact Ec | reflexivity].
    + destruct (Hnth j ltac:(lia)) as (c' & Hc' & Hn').
      exists c'. replace (i0 + Datatypes.S j) with (1 + i0 + j) by lia.
      split; [exact Hc' | exact Hn'].
Qed.

Lemma allocate_variables_fails :
  forall (count i0 : nat),
    allocate_variables count i0 = None ->
    exists j, j < count /\ zero_cell (nth (i0 + j) s_variableTypes Ascii.zero) = None.
Proof.
  induction count as [| count IH]; intros i0 E; cbn [allocate_variables] in E.
  - discriminate.
  - destruct (zero_cell (nth i0 s_variableTypes Ascii.zero)) as [c |] eqn:Ec.
    + destruct (allocate_variables count (1 + i0)) as [rest |] eqn:Er; [discriminate |].
      destruct (IH _ Er) as (j & Hj & Hz).
      exists (Datatypes.S j). split; [lia |].
      replace (i0 + Datatypes.S j) with (1 + i0 + j) by lia. exact Hz.
    + exists 0. split; [lia |]. rewrite Nat.add_0_r. exact Ec.
Qed.

(** X10.  The allocation loop of [fmi3Instantiate] builds the variable store
    the model's tables describe: one block per value reference, of the
    declared size, each cell the zero of the declared kind.  It gives up
    exactly when some kind letter is none of r, i, b, s. *)
Theorem X10_allocated_store_follows_the_tables :
  match allocate_variables N_VARIABLES 0 with
  | Some vars =>
      List.length vars = N_VARIABLES
      /\ forall vr, vr < N_VARIABLES ->
           exists c, zero_cell (nth vr s_variableTypes Ascii.zero) = Some c
                     /\ nth_error vars vr = Some (repeat c (nth vr s_variableSizes 0))
  | None =>
      exists vr, vr < N_VARIABLES /\ zero_cell (nth vr s_variableTypes Ascii.zero) = None
  end.
Proof.
  destruct (allocate_variables N_VARIABLES 0) as [vars |] eqn:E.
  - exact (allocate_variables_shape _ _ E).
  - exact (allocate_variables_fails _ _ E).
Qed.

(** X11.  When [fmi3Instantiate] returns a component, the callbacks were all
    there, the name was a non-empty string and the GUID was the model's; and
    whatever [setStartValues] did, the component has its values marked dirty,
    the new-iteration flag cleared and the event info zeroed. *)
Theorem X11_instantiate_returns_a_component_only_for_a_valid_request
    (instanceName fmuGUID fmuResourceLocation : option fmi3String) (fmuType : fmi3Type)
    (functions : fmi3CallbackFunctions) (visible loggingOn : fmi3Boolean)
    (log log' : list LogRecord) (g g' : G) (comp : ModelInstance) :
  fmi3Instantiate instanceName fmuType fmuGUID fmuResourceLocation functions
    visible loggingOn log g = Some (Some comp, log', g') ->
  logger functions = true
  /\ allocateMemory functions = true
  /\ freeMemory functions = true
  /\ (exists name, instanceName = Some name /\ name <> EmptyString)
  /\ fmuGUID = Some MODEL_GUID
  /\ isDirtyValues comp = true
  /\ isNewEventIteration comp = false
  /\ eventInfo comp = zero_eventInfo.
Proof.
  intros E. unfold fmi3Instantiate in E.
  destruct (logger functions); [| discriminate E].
  destruct (allocateMemory functions); [| discriminate E].
  destruct (freeMemory functions); [| discriminate E].
  cbn [negb orb] in E.
  destruct instanceName as [name |]; [| discriminate E].
  destruct (String.length name =? 0) eqn:En; [discriminate E |].
  destruct fmuGUID as [guid |]; [| discriminate E].
  destruct (String.length guid =? 0); [discriminate E |].
  destruct (String.eqb_spec guid MODEL_GUID) as [-> | Hg]; [| discriminate E].
  cbn [negb] in E.
  destruct (allocate_variables N_VARIABLES 0) as [vars |]; [| discriminate E].
  cbv zeta in E.
  match type of E with match ?c ?w0 with _ => _ end = _ =>
    destruct (c w0) as [[[] w1] |] eqn:Ec; [| discriminate E] end.
  injection E as <- <- <-.
  apply bind_Some in Ec. destruct Ec as ([] & w2 & _ & Ec).
  apply bind_Some in Ec. destruct Ec as ([] & w3 & E3 & Ec). injection E3 as <-.
  apply bind_Some in Ec. destruct Ec as ([] & w4 & E4 & Ec). injection E4 as <-.
  apply bind_Some in Ec. destruct Ec as ([] & w5 & E5 & Ec). injection E5 as <-.
  match type of Ec with FILTERED_LOG ?s ?c ?m ?w0 = _ =>
    destruct (FILTERED_LOG_inst s c m w0) as [l El] end.
  rewrite El in Ec. injection Ec as <-.
  repeat split.
  exists name. split; [reflexivity |].
  intros ->. discriminate En.
Qed.

(** X12.  A request [fmi3Instantiate] refuses: with a callback missing, no
    name or an empty one, no GUID, an empty one or one that is not the
    model's, the result is NULL, the model's code does not run (its globals
    are as before), and the host's logger gets one record, of status
    [fmi3Error] and category [error] -- or none when it is the logger that
    is missing. *)
Theorem X12_instantiate_refuses_an_invalid_request
    (instanceName fmuGUID fmuResourceLocation : option fmi3String) (fmuType : fmi3Type)
    (functions : fmi3CallbackFunctions) (visible loggingOn : fmi3Boolean)
    (log : list LogRecord) (g : G) :
  logger functions = false \/ allocateMemory functions = false
  \/ freeMemory functions = false
  \/ instanceName = None \/ instanceName = Some EmptyString
  \/ fmuGUID = None \/ fmuGUID = Some EmptyString
  \/ (exists guid, fmuGUID = Some guid /\ guid <> MODEL_GUID) ->
  exists l,
    fmi3Instantiate instanceName fmuType fmuGUID fmuResourceLocation functions
      visible loggingOn log g = Some (None, log ++ l, g)
    /\ (logger functions = false -> l = [])
    /\ (logger functions = true ->
        exists name message, l = [mkLog name fmi3Error "error" message]).
Proof.
  intros H. unfold fmi3Instantiate, host_logger.
  destruct (logger functions) eqn:Hlog; cbn [negb].
  2:{ exists []. rewrite app_nil_r. split; [reflexivity |].
      split; [reflexivity | discriminate]. }
  assert (K : forall name message,
             exists l,
               Some (@None ModelInstance, log ++ [mkLog name fmi3Error "error" message], g)
               = Some (None, log ++ l, g)
               /\ (true = false -> l = [])
               /\ (true = true ->
                   exists name message, l = [mkLog name fmi3Error "error" message])).
  { intros name message. eexists. split; [reflexivity |].
    split; [discriminate | intros _; eexists _, _; reflexivity]. }
  destruct (allocateMemory functions) eqn:Ha; cbn [negb orb]; [| apply K].
  destruct (freeMemory functions) eqn:Hf; cbn [negb orb]; [| apply K].
  destruct instanceName as [name |]; [| apply K].
  destruct (String.length name =? 0) eqn:En; [apply K |].
  destruct fmuGUID as [guid |]; [| apply K].
  destruct (String.length guid =? 0) eqn:Eg; [apply K |].
  destruct (String.eqb_spec guid MODEL_GUID) as [-> | Hg]; cbn [negb]; [| apply K].
  exfalso.
  destruct H as [H | [H | [H | [H | [H | [H | [H | (guid & H & Hne)]]]]]]];
    try discriminate H.
  - injection H as ->. discriminate En.
  - injection H as H. rewrite H in Eg. discriminate Eg.
  - injection H as <-. apply Hne. reflexivity.
Qed.

End LifeCycle.

(* ------------------------------------------------------------------------- *)
(** * Arguments of the operations *)
(* ------------------------------------------------------------------------- *)

Section Arguments.

Context {G : Type} {model : Model} {hooks : Hooks G}.

(** X13.  A typed get or set of no variable ([nvr = 0]) in a state of its
    mask returns [fmi3OK] and leaves the instance as it is, whatever the two
    arrays are, NULL included: a get does not recompute dirty values and does
    not clean them, a set does not mark them dirty. *)
Theorem X13_get_or_set_of_no_variable (call : Call) (w : World G) :
  empty_batch call = true ->
  legal (state (inst w)) (call_mask call) ->
  exists l,
    run call w = Some (fmi3OK, mkWorld (inst w) (host_log w ++ l) (globals w)).
Proof.
  intros He Hl.
  destruct call; try discriminate He;
    match goal with nvr : nat |- _ => destruct nvr; [clear He | discriminate He] end;
    cbn [run call_mask] in *; unfold_engine.
  1-4: mstep; mstep; rewrite invalidState_legal by exact Hl;
       exists []; rewrite app_nil_r; destruct w; reflexivity.
  all: mstep; rewrite invalidState_legal by exact Hl;
       cbv beta iota delta [fmi3True fmi3False]; cbn [Nat.ltb Nat.leb];
       unfold bind at 1; unfold ret at 1; unfold bind at 1; unfold ret at 1;
       cbv beta iota; unfold bind at 1;
       match goal with |- context [FILTERED_LOG fmi3OK LOG_FMI_CALL ?m ?w0] =>
         destruct (FILTERED_LOG_inst fmi3OK LOG_FMI_CALL m w0) as [l ->] end;
       exists l; reflexivity.
Qed.

(** [fmi3SetContinuousStates] does not tell two counts apart that differ by a
    multiple of 2^32: it returns [fmi3OK] on the model's number of states plus
    2^32, the array not NULL. *)
Lemma fmi3SetContinuousStates_congruent (x : option (list fmi3Real)) (n m : nat) (k : Z)
    (w : World G) :
  Z.of_nat m = (Z.of_nat n + k * 2 ^ 32)%Z ->
  fmi3SetContinuousStates x m w = fmi3SetContinuousStates x n w.
Proof.
  intros H. unfold fmi3SetContinuousStates, bind.
  destruct (invalidState _ _ w) as [[[] w1] |]; try reflexivity.
  erewrite invalidNumber_congruent by exact H. reflexivity.
Qed.

(** X14.  An argument [nullPointer] or [invalidNumber] refuses -- an array
    that is NULL where [nvr > 0], a NULL out pointer of
    [fmi3CompletedIntegratorStep], a count that, converted to the [int]
    [invalidNumber] takes, is not the model's number of states or event
    indicators, a NULL array of states, derivatives or nominals -- makes the
    call return [fmi3Error] with the instance in [modelError], like a call in
    an illegal state: one error record is logged, and nothing else has
    changed (no value was read, written or recomputed).  (A count that
    differs from the model's by a multiple of 2^32 is not such an argument:
    [invalidNumber_congruent].) *)
Theorem X14_invalid_argument_is_an_error (call : Call) (w : World G) :
  invalid_argument call = true ->
  legal (state (inst w)) (call_mask call) ->
  exists message,
    run call w
    = Some (fmi3Error,
            mkWorld (set_state modelError (inst w))
              (host_log w ++ [mkLog (instanceName (inst w)) fmi3Error "logError" message])
              (globals w)).
Proof.
  intros Ha Hl.
  destruct call; try discriminate Ha; cbn [run call_mask invalid_argument] in *;
    unfold_engine; mstep; try mstep; rewrite invalidState_legal by exact Hl.
  1-8: destruct nvr as [| nvr]; [discriminate Ha |];
       destruct vr, value; try discriminate Ha; eexists; reflexivity.
  - destruct enterEventMode, terminate; try discriminate Ha; eexists; reflexivity.
  - cbv beta iota. unfold bind at 1. unfold invalidNumber. unfold wrong_count in Ha.
    destruct (int_of_size_t nx =? int_of_size_t NUMBER_OF_STATES)%Z;
      [| eexists; reflexivity].
    destruct x; [discriminate Ha | eexists; reflexivity].
  - cbv beta iota. unfold bind at 1. unfold invalidNumber. unfold wrong_count in Ha.
    destruct (int_of_size_t nx =? int_of_size_t NUMBER_OF_STATES)%Z;
      [| eexists; reflexivity].
    destruct derivatives; [discriminate Ha | eexists; reflexivity].
  - cbv beta iota. unfold bind at 1. unfold invalidNumber. unfold wrong_count in Ha.
    destruct (int_of_size_t ni =? int_of_size_t NUMBER_OF_EVENT_INDICATORS)%Z;
      [discriminate Ha | eexists; reflexivity].
  - cbv beta iota. unfold bind at 1. unfold invalidNumber. unfold wrong_count in Ha.
    destruct (int_of_size_t nx =? int_of_size_t NUMBER_OF_STATES)%Z;
      [| eexists; reflexivity].
    destruct states; [discriminate Ha | eexists; reflexivity].
  - cbv beta iota. unfold bind at 1. unfold invalidNumber. unfold wrong_count in Ha.
    destruct (int_of_size_t nx =? int_of_size_t NUMBER_OF_STATES)%Z;
      [| eexists; reflexivity].
    destruct x_nominal; [discriminate Ha | eexists; reflexivity].
Qed.

End Arguments.

(* ------------------------------------------------------------------------- *)
(** * Buffers the engine fills with a constant *)
(* ------------------------------------------------------------------------- *)

Section Fill.

Context {G : Type} {model : Model} {hooks : Hooks G}.

Lemma upd_app_length {A} (pre : list A) (x v : A) (rest : list A) :
  upd (List.length pre) v (pre ++ x :: rest) = pre ++ v :: rest.
Proof. induction pre as [| y pre IH]; cbn; [reflexivity | rewrite IH; reflexivity]. Qed.

Lemma fill_loop {A} (v : A) :
  forall (n : nat) (pre rest : list A) (w : World G),
    n <= List.length rest ->
    forM n (List.length pre) (fun i0 out => write_arr out i0 v) (Some (pre ++ rest)) w
    = Some (Some (pre ++ repeat v n ++ skipn n rest), w).
Proof.
  induction n as [| n IH]; intros pre rest w Hn; cbn [forM repeat skipn].
  - reflexivity.
  - destruct rest as [| x rest]; [cbn in Hn; lia |]. cbn in Hn.
    unfold bind. cbn [write_arr].
    replace (List.length pre <? List.length (pre ++ x :: rest)) with true
      by (symmetry; apply Nat.ltb_lt; rewrite length_app; cbn; lia).
    unfold ret at 1. rewrite upd_app_length.
    replace (pre ++ v :: rest) with ((pre ++ [v]) ++ rest)
      by (rewrite <- app_assoc; reflexivity).
    replace (Datatypes.S (List.length pre)) with (List.length (pre ++ [v]))
      by (rewrite length_app; cbn; lia).
    rewrite IH by lia. rewrite <- app_assoc. reflexivity.
Qed.

(** X15.  [fmi3GetNominalsOfContinuousStates] in a state of its mask, with
    [nx] the model's number of states and an array of at least [nx]
    elements: the call returns [fmi3OK], the first [nx] elements of the array
    are 1.0 and the others are as before; the instance is as before. *)
Theorem X15_nominals_are_all_one (x_nominal : list fmi3Real) (nx : nat) (w : World G) :
  legal (state (inst w)) MASK_fmi3GetNominalsOfContinuousStates ->
  nx = NUMBER_OF_STATES ->
  nx <= List.length x_nominal ->
  exists l,
    fmi3GetNominalsOfContinuousStates (Some x_nominal) nx w
    = Some ((fmi3OK, Some (repeat 1%float nx ++ skipn nx x_nominal)),
            mkWorld (inst w) (host_log w ++ l) (globals w)).
Proof.
  intros Hl -> Hn. unfold fmi3GetNominalsOfContinuousStates.
  mstep. rewrite invalidState_legal by exact Hl. mstep.
  unfold invalidNumber. rewrite Z.eqb_refl. cbn [negb]. unfold ret at 1.
  cbv beta iota. mstep. cbn [nullPointer]. unfold ret at 1.
  cbv beta iota delta [fmi3False]. unfold bind at 1.
  match goal with |- context [FILTERED_LOG fmi3OK LOG_FMI_CALL ?m w] =>
    destruct (FILTERED_LOG_inst fmi3OK LOG_FMI_CALL m w) as [l ->] end.
  pose proof (@fill_loop fmi3Real 1%float NUMBER_OF_STATES [] x_nominal) as Hf.
  cbn [app List.length] in Hf.
  unfold bind. rewrite Hf by exact Hn.
  exists l. reflexivity.
Qed.

(** X16.  [fmi3GetRealOutputDerivatives] in a state of its mask returns
    [fmi3Error] -- the model cannot compute derivatives of outputs -- and yet
    writes: the first [nvr] elements of [value] are set to 0, the others are
    as before.  The instance is as before. *)
Theorem X16_output_derivatives_are_zeroed_with_an_error
    (value : list fmi3Real) (nvr : nat) (w : World G) :
  legal (state (inst w)) MASK_fmi3GetRealOutputDerivatives ->
  nvr <= List.length value ->
  exists l,
    fmi3GetRealOutputDerivatives nvr (Some value) w
    = Some ((fmi3Error, Some (repeat 0%float nvr ++ skipn nvr value)),
            mkWorld (inst w) (host_log w ++ l) (globals w)).
Proof.
  intros Hl Hn. unfold fmi3GetRealOutputDerivatives.
  mstep. rewrite invalidState_legal by exact Hl. mstep.
  match goal with |- context [FILTERED_LOG fmi3OK LOG_FMI_CALL ?m w] =>
    destruct (FILTERED_LOG_inst fmi3OK LOG_FMI_CALL m w) as [l ->] end.
  unfold bind at 1. rewrite FILTERED_LOG_error.
  pose proof (@fill_loop fmi3Real 0%float nvr [] value) as Hf.
  cbn [app List.length] in Hf.
  unfold bind. rewrite Hf by exact Hn.
  eexists. cbn [inst host_log globals]. rewrite <- app_assoc. reflexivity.
Qed.

End Fill.

(* ------------------------------------------------------------------------- *)
(** * Events *)
(* ------------------------------------------------------------------------- *)

Section Events.

Context {G : Type} {model : Model} {hooks : Hooks G}.

Lemma doStep_substep_discard (h : fmi3Real) (k : nat) (l : StepLocals)
    (w w' : World G) (status : fmi3Status) :
  doStep_substep h k l w = Some (inr status, w') ->
  state (inst w') = modelStepFailed
  /\ terminateSimulation (eventInfo (inst w')) = true.
Proof.
  intros H. unfold doStep_substep in H.
  apply bind_Some in H as [[] [w1 [_ H]]].
  apply bind_Some in H as [[] [w2 [_ H]]].
  apply bind_Some in H as [[] [w3 [_ H]]].
  apply bind_Some in H as [[se1 prev1] [w4 [_ H]]].
  apply bind_Some in H as [comp [w5 [_ H]]].
  apply bind_Some in H as [te1 [w6 [_ H]]].
  apply bind_Some in H as [l1 [w7 [_ H]]].
  apply bind_Some in H as [comp' [w8 [Hc H]]].
  injection Hc as <- <-.
  destruct (terminateSimulation (eventInfo (inst w7))) eqn:Et.
  - apply bind_Some in H as [[] [w9 [H9 H]]].
    apply bind_Some in H as [[] [w10 [H10 H]]].
    apply ret_Some in H. injection H as _ <-. injection H10 as <-.
    match type of H9 with FILTERED_LOG ?s ?c ?m ?w0 = _ =>
      destruct (FILTERED_LOG_inst s c m w0) as [l0 E0] end.
    rewrite E0 in H9. injection H9 as <-.
    split; [reflexivity | exact Et].
  - apply ret_Some in H. inversion H.
Qed.

Lemma doStep_loop_discard (h : fmi3Real) :
  forall (n k : nat) (l : StepLocals) (w w' : World G) (status : fmi3Status),
    forRet n k (doStep_substep h) l w = Some (inr status, w') ->
    state (inst w') = modelStepFailed
    /\ terminateSimulation (eventInfo (inst w')) = true.
Proof.
  induction n as [| n IH]; intros k l w w' status H.
  - cbn in H. apply ret_Some in H. inversion H.
  - cbn [forRet] in H. apply bind_Some in H as [[l1 | st] [w1 [H1 H]]].
    + exact (IH _ _ _ _ _ H).
    + apply ret_Some in H. inversion H. subst.
      exact (doStep_substep_discard _ _ _ _ H1).
Qed.

Lemma fmi3DoStep_discard
    (currentCommunicationPoint communicationStepSize : fmi3Real)
    (noSetFMUStatePriorToCurrentPoint : fmi3Boolean) (w w' : World G) :
  fmi3DoStep currentCommunicationPoint communicationStepSize
    noSetFMUStatePriorToCurrentPoint w = Some (fmi3Discard, w') ->
  state (inst w') = modelStepFailed
  /\ terminateSimulation (eventInfo (inst w')) = true.
Proof.
  intros H. unfold fmi3DoStep in H.
  apply bind_Some in H as [bad [wa [_ H]]].
  destruct bad; [apply ret_Some in H; inversion H |].
  apply bind_Some in H as [[] [wl [_ H]]].
  destruct (communicationStepSize <=? 0)%float.
  { apply bind_Some in H as [[] [wx [_ H]]].
    apply bind_Some in H as [[] [wy [_ H]]].
    apply ret_Some in H. inversion H. }
  apply bind_Some in H as [prev [w0 [_ H]]].
  apply bind_Some in H as [[] [wt [_ H]]].
  apply bind_Some in H as [res [wr [Hloop H]]].
  destruct res as [l' | st]; apply ret_Some in H; inversion H; subst.
  exact (doStep_loop_discard _ _ _ _ _ Hloop).
Qed.

(** X17.  When [fmi3DoStep] returns [fmi3Discard], the model has requested
    termination ([eventInfo.terminateSimulation] is set) and the instance is
    in [modelStepFailed].  From there another [fmi3DoStep] is an illegal call
    and returns [fmi3Error], while [fmi3Terminate] returns [fmi3OK] and takes
    the instance to [modelTerminated]. *)
Theorem X17_discarded_step_leaves_the_instance_in_step_failed
    (currentCommunicationPoint communicationStepSize : fmi3Real)
    (noSetFMUStatePriorToCurrentPoint : fmi3Boolean) (w w' : World G) :
  fmi3DoStep currentCommunicationPoint communicationStepSize
    noSetFMUStatePriorToCurrentPoint w = Some (fmi3Discard, w') ->
  state (inst w') = modelStepFailed
  /\ terminateSimulation (eventInfo (inst w')) = true
  /\ (forall t h b, fmi3DoStep t h b w' = Some (fmi3Error, illegal_call w'))
  /\ exists l,
       fmi3Terminate w'
       = Some (fmi3OK,
               mkWorld (set_state modelTerminated (inst w')) (host_log w' ++ l)
                 (globals w')).
Proof.
  intros H. destruct (fmi3DoStep_discard _ _ _ _ H) as [Ks Kt].
  split; [exact Ks |]. split; [exact Kt |]. split.
  - intros t h b0. unfold fmi3DoStep, bind.
    rewrite invalidState_illegal by (rewrite Ks; reflexivity). reflexivity.
  - unfold fmi3Terminate. mstep.
    rewrite invalidState_legal by (unfold legal; rewrite Ks; discriminate).
    mstep.
    destruct (FILTERED_LOG_inst fmi3OK LOG_FMI_CALL "fmi3Terminate" w') as [l ->].
    exists l. reflexivity.
Qed.

(** X24.  [fmi3DoStep] discards a step only at the model's request: if no
    function of the model sets [eventInfo.terminateSimulation] and the flag
    is clear before the call, the call does not return [fmi3Discard], and
    the flag is clear after it. *)
Theorem X24_step_is_discarded_at_the_request_of_the_model_only
    (currentCommunicationPoint communicationStepSize : fmi3Real)
    (noSetFMUStatePriorToCurrentPoint : fmi3Boolean) (w w' : World G)
    (status : fmi3Status) :
  hooks_respect hooks no_termination_request ->
  terminateSimulation (eventInfo (inst w)) = false ->
  fmi3DoStep currentCommunicationPoint communicationStepSize
    noSetFMUStatePriorToCurrentPoint w = Some (status, w') ->
  status <> fmi3Discard
  /\ terminateSimulation (eventInfo (inst w')) = false.
Proof.
  intros (Hs & Hc & Hr & He & Hu) Ht E.
  assert (K : respects no_termination_request
                (fmi3DoStep currentCommunicationPoint communicationStepSize
                   noSetFMUStatePriorToCurrentPoint))
    by (unfold_engine; frame).
  pose proof (K _ _ _ E Ht) as Ht'.
  split; [| exact Ht'].
  intros ->. destruct (fmi3DoStep_discard _ _ _ _ E) as [_ Kt].
  rewrite Kt in Ht'. discriminate Ht'.
Qed.

(** X18.  [fmi3NewDiscreteStates] in event mode, with an event info record
    to fill.  The model's [eventUpdate] sees the instance with four flags of
    its event info cleared (new discrete states needed, terminate, nominals
    changed, values changed) and the next event time as it was; it is told of
    a time event exactly when a next event time is defined and is not after
    the current time, and of a new iteration as the instance's flag says.
    Afterwards that flag is cleared, the call returns [fmi3OK], and the
    caller's record is the instance's event info as the model left it. *)
Theorem X18_new_discrete_states (eventInfo_out : fmi3EventInfo) (w w' : World G)
    (status : fmi3Status) (out : option fmi3EventInfo) :
  legal (state (inst w)) MASK_fmi3NewDiscreteStates ->
  fmi3NewDiscreteStates (Some eventInfo_out) w = Some ((status, out), w') ->
  status = fmi3OK
  /\ out = Some (eventInfo (inst w'))
  /\ isNewEventIteration (inst w') = false
  /\ exists l w1,
       eventUpdate
         (if nextEventTimeDefined (eventInfo (inst w))
             && (nextEventTime (eventInfo (inst w)) <=? time (inst w))%float
          then 1 else 0)%Z
         (Z.b2z (isNewEventIteration (inst w)))
         (mkWorld
            (set_eventInfo
               (mkEventInfo false false false false
                  (nextEventTimeDefined (eventInfo (inst w)))
                  (nextEventTime (eventInfo (inst w))))
               (inst w))
            (host_log w ++ l) (globals w))
       = Some (tt, w1)
       /\ w' = mkWorld (set_isNewEventIteration fmi3False (inst w1)) (host_log w1)
                 (globals w1).
Proof.
  intros Hl E. unfold fmi3NewDiscreteStates in E.
  apply bind_Some in E. destruct E as (bad & w0 & E0 & E).
  rewrite invalidState_legal in E0 by exact Hl. injection E0 as <- <-.
  cbv beta iota in E.
  apply bind_Some in E. destruct E as ([] & w1 & E1 & E).
  destruct (FILTERED_LOG_inst fmi3OK LOG_FMI_CALL "fmi3NewDiscreteStates" w) as [l El].
  rewrite El in E1. injection E1 as <-.
  apply bind_Some in E. destruct E as ([] & w2 & E2 & E). injection E2 as <-.
  apply bind_Some in E. destruct E as ([] & w3 & E3 & E). injection E3 as <-.
  apply bind_Some in E. destruct E as ([] & w4 & E4 & E). injection E4 as <-.
  apply bind_Some in E. destruct E as ([] & w5 & E5 & E). injection E5 as <-.
  apply bind_Some in E. destruct E as (comp & w6 & E6 & E). injection E6 as <- <-.
  cbv zeta in E.
  apply bind_Some in E. destruct E as ([] & w7 & E7 & E).
  apply bind_Some in E. destruct E as ([] & w8 & E8 & E). injection E8 as <-.
  apply bind_Some in E. destruct E as (comp & w9 & E9 & E). injection E9 as <- <-.
  apply bind_Some in E. destruct E as (o & w10 & E10 & E).
  cbn [write_out] in E10. injection E10 as <- <-.
  injection E as <- <- <-.
  split; [reflexivity |]. split; [reflexivity |]. split; [reflexivity |].
  exists l, w7. split; [exact E7 | reflexivity].
Qed.

End Events.

(* ------------------------------------------------------------------------- *)
(** * Logging categories *)
(* ------------------------------------------------------------------------- *)

Section Categories.

Context {G : Type} {model : Model} {hooks : Hooks G}.

Lemma find_category_marks (loggingOn : fmi3Boolean) (category : fmi3String)
    (a0 a1 a2 a3 : fmi3Boolean) (w : World G) :
  logCategories (inst w) = [a0; a1; a2; a3] ->
  find_category loggingOn category w
  = Some (negb (unsupported_category category),
          mkWorld
            (set_logCategories
               [if String.eqb "logAll" category then loggingOn else a0;
                if String.eqb "logError" category then loggingOn else a1;
                if String.eqb "logFmiCall" category then loggingOn else a2;
                if String.eqb "logEvent" category then loggingOn else a3]
               (inst w))
            (host_log w) (globals w)).
Proof.
  intros H. unfold find_category, unsupported_category, set_logCategory.
  cbn [forRet NUMBER_OF_CATEGORIES logCategoriesNames nth existsb].
  unfold bind, modify_comp, ret. cbn [inst host_log globals].
  destruct (String.eqb_spec "logAll" category) as [<- | N0].
  { cbn. rewrite H. reflexivity. }
  destruct (String.eqb_spec "logError" category) as [<- | N1].
  { cbn. rewrite H. reflexivity. }
  destruct (String.eqb_spec "logFmiCall" category) as [<- | N2].
  { cbn. rewrite H. reflexivity. }
  destruct (String.eqb_spec "logEvent" category) as [<- | N3].
  { cbn. rewrite H. reflexivity. }
  cbn. rewrite <- H. destruct w as [c0 lg g0]. destruct c0. reflexivity.
Qed.

Lemma categories_selected_snoc (loggingOn : fmi3Boolean) (done : list fmi3String)
    (category : fmi3String) :
  map (fun name =>
         if String.eqb name category then loggingOn
         else existsb (String.eqb name) done && loggingOn) logCategoriesNames
  = categories_selected loggingOn (done ++ [category]).
Proof.
  unfold categories_selected. apply map_ext. intros name.
  rewrite existsb_app. cbn [existsb].
  destruct (String.eqb name category); cbn [orb].
  - rewrite orb_true_r. reflexivity.
  - rewrite orb_false_r. reflexivity.
Qed.

Lemma select_categories_loop (loggingOn : fmi3Boolean) (categories : list fmi3String) :
  forall (rest done : list fmi3String) (w : World G),
    categories = done ++ rest ->
    logCategories (inst w) = categories_selected loggingOn done ->
    forM (List.length rest) (List.length done)
      (fun i0 _ =>
         category <- read_arr (Some categories) i0 ;;
         categoryFound <- find_category loggingOn category ;;
         if negb categoryFound then
           comp <- get_comp ;;
           call_logger (instanceName comp) fmi3Warning
             (nth LOG_ERROR logCategoriesNames "")
             "logging category '%s' is not supported by model"
         else ret tt) tt w
    = Some (tt,
            mkWorld
              (set_logCategories (categories_selected loggingOn categories) (inst w))
              (host_log w
               ++ map (fun _ => unsupported_category_warning (inst w))
                    (filter unsupported_category rest))
              (globals w)).
Proof.
  induction rest as [| category rest IH]; intros done w Hc Hf.
  - cbn [List.length forM filter map]. rewrite app_nil_r in Hc. rewrite app_nil_r.
    subst done. rewrite <- Hf. destruct w as [c0 lg g0]. destruct c0. reflexivity.
  - cbn [List.length forM]. unfold bind at 1. unfold bind at 1.
    cbn [read_arr]. unfold of_option.
    replace (nth_error categories (List.length done)) with (Some category)
      by (subst categories; rewrite nth_error_app2 by lia;
          rewrite Nat.sub_diag; reflexivity).
    unfold ret at 1. unfold bind at 1.
    unfold categories_selected in Hf. cbn [map logCategoriesNames] in Hf.
    erewrite find_category_marks by exact Hf.
    pose proof (categories_selected_snoc loggingOn done category) as Hs.
    cbn [map logCategoriesNames] in Hs. rewrite Hs. clear Hs.
    replace (Datatypes.S (List.length done)) with (List.length (done ++ [category]))
      by (rewrite length_app; cbn; lia).
    cbn [filter].
    destruct (unsupported_category category); cbn [negb].
    + unfold bind at 1. unfold get_comp, call_logger. cbn [inst host_log globals].
      rewrite IH;
        [| subst categories; rewrite <- app_assoc; reflexivity | reflexivity].
      cbn [inst host_log globals map]. rewrite <- app_assoc. reflexivity.
    + unfold ret at 1.
      rewrite IH;
        [| subst categories; rewrite <- app_assoc; reflexivity | reflexivity].
      reflexivity.
Qed.

(** X19.  [fmi3SetDebugLogging] with a list of category names, in a state of
    its mask: the call returns [fmi3OK]; afterwards a category is on exactly
    when its name is in the list and [loggingOn] is true -- whatever was on
    before is forgotten; and the logger gets one warning for each name of
    the list that is not a category of the model, in the order of the
    list. *)
Theorem X19_debug_logging_selects_the_named_categories
    (loggingOn : fmi3Boolean) (categories : list fmi3String) (w : World G) :
  legal (state (inst w)) MASK_fmi3SetDebugLogging ->
  List.length (logCategories (inst w)) = NUMBER_OF_CATEGORIES ->
  categories <> [] ->
  exists l,
    fmi3SetDebugLogging loggingOn (List.length categories) (Some categories) w
    = Some (fmi3OK,
            mkWorld
              (set_logCategories (categories_selected loggingOn categories)
                 (set_loggingOn loggingOn (inst w)))
              (host_log w ++ l
               ++ map (fun _ => unsupported_category_warning (inst w))
                    (filter unsupported_category categories))
              (globals w)).
Proof.
  intros Hl Hlen Hne. unfold fmi3SetDebugLogging.
  mstep. rewrite invalidState_legal by exact Hl. mstep. mstep.
  unfold modify_comp at 1.
  match goal with |- context [FILTERED_LOG fmi3OK LOG_FMI_CALL ?m ?w0] =>
    destruct (FILTERED_LOG_inst fmi3OK LOG_FMI_CALL m w0) as [l ->] end.
  cbn [inst host_log globals]. unfold bind at 1.
  rewrite reset_categories by exact Hlen.
  cbn [inst host_log globals].
  destruct categories as [| c0 cs]; [contradiction |].
  replace (List.length (c0 :: cs) =? 0) with false by reflexivity.
  unfold bind at 1.
  pose proof (@select_categories_loop loggingOn (c0 :: cs) (c0 :: cs) []) as Hloop.
  cbn [List.length] in Hloop. cbn [List.length]. rewrite Hloop by reflexivity.
  exists l. cbn [inst host_log globals]. rewrite <- app_assoc. reflexivity.
Qed.

End Categories.

(* ------------------------------------------------------------------------- *)
(** * Dirty values and the getters *)
(* ------------------------------------------------------------------------- *)

Section CleanValues.

Context {G : Type} {model : Model}.

Lemma bind_congr {A B} (c : M G A) (k1 k2 : A -> M G B) (w : World G) :
  (forall a w', c w = Some (a, w') -> k1 a w' = k2 a w') ->
  bind c k1 w = bind c k2 w.
Proof.
  intros H. unfold bind. destruct (c w) as [[a w'] |]; [apply H |]; reflexivity.
Qed.

Lemma getXXX_clean {V} (hooks1 hooks2 : Hooks G) (name : string) (mask : Z) (type : ascii)
    (read : fmi3ValueReference -> nat -> M G V) (itemMsg : string)
    (vr : option (list fmi3ValueReference)) (nvr : nat)
    (value : option (list V)) (nValues : nat) (w : World G) :
  isDirtyValues (inst w) = false ->
  @getXXX G model hooks1 V name mask type read itemMsg vr nvr value nValues w
  = @getXXX G model hooks2 V name mask type read itemMsg vr nvr value nValues w.
Proof.
  intros Hd. unfold getXXX.
  apply bind_congr. intros bad w0 E0.
  assert (D0 : isDirtyValues (inst w0) = false)
    by (rewrite <- Hd; eapply keeps_dirty_invalidState; exact E0).
  destruct bad; [reflexivity |].
  apply bind_congr. intros bad w1 E1.
  assert (D1 : isDirtyValues (inst w1) = false).
  { rewrite <- D0. destruct (0 <? nvr).
    - eapply keeps_dirty_nullPointer; exact E1.
    - injection E1 as _ <-. reflexivity. }
  destruct bad; [reflexivity |].
  apply bind_congr. intros bad w2 E2.
  assert (D2 : isDirtyValues (inst w2) = false).
  { rewrite <- D1. destruct (0 <? nvr).
    - eapply keeps_dirty_nullPointer; exact E2.
    - injection E2 as _ <-. reflexivity. }
  destruct bad; [reflexivity |].
  apply bind_congr. intros comp w3 E3. injection E3 as <- <-.
  rewrite D2, andb_false_r. reflexivity.
Qed.

(** X20.  When the values are clean, a typed get does not call the model's
    [calculateValues]: it returns the same result and leaves the same world
    with any other model functions in place of the model's, as long as
    [getReal] is the same for [fmi3GetReal]. *)
Theorem X20_get_of_clean_values_does_not_recompute
    (hooks1 hooks2 : Hooks G) (vr : option (list fmi3ValueReference)) (nvr nValues : nat)
    (w : World G) :
  isDirtyValues (inst w) = false ->
  (@getReal G hooks1 = @getReal G hooks2 ->
   forall value,
     @fmi3GetReal G model hooks1 vr nvr value nValues w
     = @fmi3GetReal G model hooks2 vr nvr value nValues w)
  /\ (forall value,
        @fmi3GetInteger G model hooks1 vr nvr value nValues w
        = @fmi3GetInteger G model hooks2 vr nvr value nValues w)
  /\ (forall value,
        @fmi3GetBoolean G model hooks1 vr nvr value nValues w
        = @fmi3GetBoolean G model hooks2 vr nvr value nValues w)
  /\ (forall value,
        @fmi3GetString G model hooks1 vr nvr value nValues w
        = @fmi3GetString G model hooks2 vr nvr value nValues w).
Proof.
  intros Hd. repeat split; intros.
  - unfold fmi3GetReal, read_real.
    match goal with H : getReal = getReal |- _ => rewrite H end.
    apply getXXX_clean. exact Hd.
  - apply getXXX_clean. exact Hd.
  - apply getXXX_clean. exact Hd.
  - apply getXXX_clean. exact Hd.
Qed.

Context {hooks : Hooks G}.

(** X21.  After a typed get of at least one variable that passed the checks
    of the state and of the two arrays, the values are clean, whether the
    get returned [fmi3OK] or stopped with [fmi3Error] at an entry
    [vrOutOfRange] refused -- provided the model's [getReal] does not touch
    the dirty flag: the recomputation a set owes is done once. *)
Theorem X21_get_leaves_the_values_clean (call : Call) (w w' : World G)
    (status : fmi3Status) :
  (forall vr, keeps isDirtyValues (getReal vr)) ->
  is_get call = true ->
  empty_batch call = false ->
  invalid_argument call = false ->
  legal (state (inst w)) (call_mask call) ->
  run call w = Some (status, w') ->
  isDirtyValues (inst w') = false.
Proof.
  intros Hr Hg He Ha Hl E.
  assert (K : forall {V} name type (read : fmi3ValueReference -> nat -> M G V) itemMsg
                vr nvr value nValues res,
             (forall v j, keeps isDirtyValues (read v j)) ->
             nvr <> 0 ->
             getXXX name (call_mask call) type read itemMsg (Some vr) nvr (Some value)
               nValues w = Some (res, w') ->
             isDirtyValues (inst w') = false).
  { clear E. intros V name type read itemMsg vr nvr value nValues res Hread Hn E.
    unfold getXXX in E.
    apply bind_Some in E. destruct E as (bad & w0 & E0 & E).
    rewrite invalidState_legal in E0 by exact Hl. injection E0 as <- <-.
    cbv beta iota in E.
    destruct nvr as [| nvr]; [contradiction |].
    cbn [Nat.ltb Nat.leb nullPointer] in E.
    apply bind_Some in E. destruct E as (bad & w0 & E0 & E). injection E0 as <- <-.
    apply bind_Some in E. destruct E as (bad & w0 & E0 & E). injection E0 as <- <-.
    apply bind_Some in E. destruct E as (comp & w0 & E0 & E). injection E0 as <- <-.
    apply bind_Some in E. destruct E as ([] & w1 & E1 & E).
    assert (D1 : isDirtyValues (inst w1) = false).
    { cbn [andb] in E1. destruct (isDirtyValues (inst w)) eqn:Ed.
      - apply bind_Some in E1. destruct E1 as ([] & wc & _ & E1).
        injection E1 as <-. reflexivity.
      - injection E1 as <-. exact Ed. }
    apply bind_Some in E. destruct E as (r0 & w2 & E2 & E).
    assert (D2 : isDirtyValues (inst w2) = false).
    { rewrite <- D1. revert E2.
      match goal with |- ?c w1 = _ -> _ =>
        assert (Hk : keeps isDirtyValues c); [| exact (Hk _ _ _) ] end.
      unfold getXXX_item, variableSize. frame. apply Hread. }
    destruct r0; injection E as _ <-; exact D2. }
  destruct call; try discriminate Hg; cbn [run call_mask] in *; unfold status_of in E;
    apply bind_Some in E; destruct E as (res & w1 & E1 & E); injection E as _ <-;
    (destruct nvr as [| nvr]; [discriminate He |]);
    destruct vr as [vr |], value as [value |]; try discriminate Ha;
    unfold fmi3GetReal, fmi3GetInteger, fmi3GetBoolean, fmi3GetString in E1.
  - eapply K; [| | exact E1]; [| discriminate].
    intros v j. unfold read_real. frame. apply Hr.
  - eapply K; [| | exact E1]; [| discriminate].
    intros v j. unfold read_integer, varI. frame.
  - eapply K; [| | exact E1]; [| discriminate].
    intros v j. unfold read_boolean, varB. frame.
  - eapply K; [| | exact E1]; [| discriminate].
    intros v j. unfold read_string, varS. frame.
Qed.

End CleanValues.

(* ------------------------------------------------------------------------- *)
(** * Integer variables: a set, then a get *)
(* ------------------------------------------------------------------------- *)

Section IntegerRoundTrip.

Context {G : Type} {model : Model} {hooks : Hooks G}.

(** The inner loop of [fmi3SetInteger] on the first entry of a batch. *)
Lemma write_integer_loop (vr : fmi3ValueReference) (value : list fmi3Integer) :
  forall (c lo : nat) (blk : list cell) (w : World G),
    lo + c = List.length value ->
    List.length blk = List.length value ->
    nth_error (variables (inst w)) (N.to_nat vr) = Some blk ->
    firstn lo blk = map CInt (firstn lo value) ->
    forM c lo (fun j k => write_integer (Some value) vr j k) lo w
    = Some (List.length value,
            mkWorld (set_variables
                       (upd (N.to_nat vr) (map CInt value) (variables (inst w)))
                       (inst w))
              (host_log w) (globals w)).
Proof.
  induction c as [| c IH]; intros lo blk w Hn Hl Hb Hf.
  - cbn [forM]. unfold ret.
    assert (lo = List.length value) by lia. subst lo.
    rewrite firstn_all in Hf. rewrite <- Hl, firstn_all in Hf. subst blk.
    erewrite upd_nth_error by exact Hb.
    destruct w as [cmp lg g]; destruct cmp; reflexivity.
  - cbn [forM]. unfold bind at 1. unfold write_integer at 1. unfold bind at 1.
    destruct (nth_error value lo) as [x |] eqn:Ex;
      [| apply nth_error_None in Ex; lia].
    cbn [read_arr]. rewrite Ex. cbn [of_option]. unfold ret at 1. cbv beta iota.
    unfold bind at 1. unfold varI.
    rewrite variables_at_in_range by (eapply nth_error_in_range; exact Hb).
    unfold bind at 1. erewrite store_block; [| exact Hb | lia].
    unfold ret at 1. cbv beta iota.
    change (1 + lo) with (Datatypes.S lo).
    rewrite (IH (Datatypes.S lo) (upd lo (CInt x) blk)).
    + cbn [inst host_log globals set_variables variables]. rewrite upd_upd.
      reflexivity.
    + lia.
    + rewrite upd_length. exact Hl.
    + cbn [inst set_variables variables]. apply nth_error_upd_eq.
      eapply nth_error_in_range; exact Hb.
    + rewrite firstn_succ_upd by lia. erewrite (@firstn_succ_nth_error _ lo) by exact Ex.
      rewrite map_app, Hf. reflexivity.
Qed.

(** The inner loop of [fmi3GetInteger] on the first entry of a batch. *)
Lemma read_integer_loop (vr : fmi3ValueReference) (value : list fmi3Integer) (w : World G) :
  nth_error (variables (inst w)) (N.to_nat vr) = Some (map CInt value) ->
  forall (c lo : nat) (buffer : list fmi3Integer),
    lo + c = List.length value ->
    List.length buffer = List.length value ->
    firstn lo buffer = firstn lo value ->
    forM c lo
      (fun j s => x <- read_integer vr j ;;
                  value' <- write_arr (snd s) (fst s) x ;;
                  ret (1 + fst s, value')) (lo, Some buffer) w
    = Some ((List.length value, Some value), w).
Proof.
  intros Hb. induction c as [| c IH]; intros lo buffer Hn Hl Hf.
  - cbn [forM]. unfold ret.
    assert (lo = List.length value) by lia. subst lo.
    rewrite firstn_all in Hf. rewrite <- Hl, firstn_all in Hf. subst buffer.
    reflexivity.
  - cbn [forM]. unfold bind at 1. unfold bind at 1.
    unfold read_integer, varI, bind.
    rewrite variables_at_in_range by (eapply nth_error_in_range; exact Hb).
    unfold loadI, bind.
    destruct (nth_error value lo) as [x |] eqn:Ex;
      [| apply nth_error_None in Ex; lia].
    erewrite load_block; [| exact Hb | exact (map_nth_error CInt _ _ Ex)].
    cbn [as_int ret fst snd write_arr].
    destruct (Nat.ltb_spec lo (List.length buffer)); [| lia].
    unfold ret. change (1 + lo) with (Datatypes.S lo).
    apply IH.
    + lia.
    + rewrite upd_length. exact Hl.
    + rewrite firstn_succ_upd by lia. erewrite (@firstn_succ_nth_error _ lo) by exact Ex.
      rewrite Hf. reflexivity.
Qed.

(** X22.  In a state where both calls are legal, for an integer variable in
    range whose elements the engine transfers all, [fmi3SetInteger] and then
    [fmi3GetInteger] return [fmi3OK] and the get yields exactly the values
    that were set, provided the model's [calculateValues], which the get
    calls because the set marked the values dirty, leaves the variable's
    block alone.  The get reads the block itself: no function of the model's
    stands between. *)
Theorem X22_set_integer_then_get_integer
    (vr : fmi3ValueReference) (value buffer : list fmi3Integer) (blk : list cell)
    (nValues nBuffer : nat) (w : World G) :
  legal (state (inst w)) MASK_fmi3SetInteger ->
  legal (state (inst w)) MASK_fmi3GetInteger ->
  (vr < N.of_nat N_VARIABLES)%N ->
  nth (N.to_nat vr) s_variableTypes Ascii.zero = "i"%char ->
  nth_error (variables (inst w)) (N.to_nat vr) = Some blk ->
  nth 0 s_variableSizes 0 = List.length value ->
  List.length blk = List.length value ->
  List.length buffer = List.length value ->
  (forall w1,
      fmi3SetInteger (Some [vr]) 1 (Some value) nValues w = Some (fmi3OK, w1) ->
      exists w2,
        calculateValues w1 = Some (tt, w2)
        /\ nth_error (variables (inst w2)) (N.to_nat vr)
           = nth_error (variables (inst w1)) (N.to_nat vr)) ->
  exists w1 w2,
    fmi3SetInteger (Some [vr]) 1 (Some value) nValues w = Some (fmi3OK, w1)
    /\ fmi3GetInteger (Some [vr]) 1 (Some buffer) nBuffer w1
       = Some ((fmi3OK, Some value), w2)
    /\ isDirtyValues (inst w1) = true
    /\ isDirtyValues (inst w2) = false.
Proof.
  intros Hset Hget Hr Ht Hb Hsz Hl Hbuf Hcalc.
  assert (Hn : 0 < N_VARIABLES) by lia.
  assert (Eset : exists l,
             fmi3SetInteger (Some [vr]) 1 (Some value) nValues w
             = Some (fmi3OK,
                     mkWorld (set_isDirtyValues fmi3True
                                (set_variables
                                   (upd (N.to_nat vr) (map CInt value)
                                      (variables (inst w))) (inst w)))
                       (host_log w ++ l) (globals w))).
  { unfold fmi3SetInteger, setXXX.
    mstep. rewrite invalidState_legal by exact Hset.
    cbn [Nat.ltb Nat.leb nullPointer]. mstep. unfold ret at 1. mstep.
    unfold ret at 1. mstep.
    match goal with |- context [FILTERED_LOG fmi3OK LOG_FMI_CALL ?m w] =>
      destruct (FILTERED_LOG_inst fmi3OK LOG_FMI_CALL m w) as [l1 ->] end.
    mstep. cbn [forRet]. mstep. unfold setXXX_item at 1.
    mstep. cbn [read_arr nth_error of_option]. unfold ret at 1. mstep.
    rewrite vrOutOfRange_valid by assumption.
    mstep. unfold variableSize.
    destruct (Nat.ltb_spec 0 N_VARIABLES); [| lia].
    unfold ret at 1. rewrite Hsz. mstep.
    rewrite (write_integer_loop vr value (List.length value) 0 (blk:=blk));
      [| lia | exact Hl | exact Hb | reflexivity].
    mstep.
    match goal with |- context [FILTERED_LOG fmi3OK LOG_FMI_CALL ?m ?w0] =>
      destruct (FILTERED_LOG_inst fmi3OK LOG_FMI_CALL m w0) as [l2 ->] end.
    unfold ret, bind, modify_comp. cbn [inst host_log globals].
    exists (l1 ++ l2). rewrite app_assoc. reflexivity. }
  destruct Eset as [l Eset]. eexists. rewrite Eset.
  destruct (Hcalc _ Eset) as [w2 [Ecalc Hkeep]].
  cbn [inst set_isDirtyValues set_variables variables] in Hkeep.
  rewrite nth_error_upd_eq in Hkeep by (eapply nth_error_in_range; exact Hb).
  assert (Eget : exists l',
             fmi3GetInteger (Some [vr]) 1 (Some buffer) nBuffer
               (mkWorld (set_isDirtyValues fmi3True
                           (set_variables
                              (upd (N.to_nat vr) (map CInt value)
                                 (variables (inst w))) (inst w)))
                  (host_log w ++ l) (globals w))
             = Some ((fmi3OK, Some value),
                     mkWorld (set_isDirtyValues fmi3False (inst w2))
                       (host_log w2 ++ l') (globals w2))).
  { unfold fmi3GetInteger, getXXX.
    mstep. rewrite invalidState_legal by exact Hget.
    cbn [Nat.ltb Nat.leb nullPointer]. mstep. unfold ret at 1. mstep.
    unfold ret at 1. mstep.
    unfold get_comp at 1. cbn [inst isDirtyValues set_isDirtyValues andb]. mstep.
    mstep. unfold fmi3True in Ecalc. mstep. rewrite Ecalc. unfold modify_comp at 1.
    cbn [forRet]. repeat mstep. unfold getXXX_item at 1.
    mstep. cbn [read_arr nth_error of_option]. unfold ret at 1. mstep.
    rewrite vrOutOfRange_valid by assumption.
    mstep. unfold variableSize.
    destruct (Nat.ltb_spec 0 N_VARIABLES); [| lia].
    unfold ret at 1. rewrite Hsz. mstep.
    rewrite (@read_integer_loop vr value
               (mkWorld (set_isDirtyValues false (inst w2)) (host_log w2) (globals w2)));
      [| exact Hkeep | lia | exact Hbuf | reflexivity].
    mstep.
    match goal with |- context [FILTERED_LOG fmi3OK LOG_FMI_CALL ?m ?w0] =>
      destruct (FILTERED_LOG_inst fmi3OK LOG_FMI_CALL m w0) as [l2 ->] end.
    unfold ret. cbn [inst host_log globals snd]. exists l2. reflexivity. }
  destruct Eget as [l' Eget]. eexists.
  split; [reflexivity |]. split; [exact Eget |]. split; reflexivity.
Qed.

End IntegerRoundTrip.

(* ------------------------------------------------------------------------- *)
(** * Status inquiries *)
(* ------------------------------------------------------------------------- *)

Section StatusInquiries.

Context {G : Type} {model : Model} {hooks : Hooks G}.

(** X23.  The status inquiries of co-simulation in a state of their mask.
    [fmi3GetRealStatus] asked for the last successful time answers [fmi3OK]
    with the instance's time, and [fmi3GetBooleanStatus] asked whether the
    simulation terminated answers [fmi3OK] with the flag of the event info;
    neither changes or logs anything.  Every inquiry that goes to
    [getStatus] and returns, returns [fmi3Discard], with one error record as
    the last of what it logs and the instance as it was. *)
Theorem X23_status_inquiries (w : World G) :
  legal (state (inst w)) MASK_fmi3GetStatus ->
  (forall value,
      fmi3GetRealStatus fmi3LastSuccessfulTime (Some value) w
      = Some ((fmi3OK, Some (time (inst w))), w))
  /\ (forall value,
        fmi3GetBooleanStatus fmi3Terminated (Some value) w
        = Some ((fmi3OK, Some (terminateSimulation (eventInfo (inst w)))), w))
  /\ (forall fname s status w',
        getStatus fname s w = Some (status, w') ->
        status = fmi3Discard
        /\ inst w' = inst w
        /\ exists l message,
             host_log w'
             = host_log w ++ l
               ++ [mkLog (instanceName (inst w)) fmi3Error "logError" message]).
Proof.
  intros Hl. split; [| split].
  - intros value. unfold fmi3GetRealStatus. mstep.
    rewrite invalidState_legal by exact Hl. reflexivity.
  - intros value. unfold fmi3GetBooleanStatus. mstep.
    rewrite invalidState_legal by exact Hl. reflexivity.
  - intros fname s status w' E. unfold getStatus in E.
    apply bind_Some in E. destruct E as (bad & w0 & E0 & E).
    rewrite invalidState_legal in E0 by exact Hl. injection E0 as <- <-.
    cbv beta iota in E.
    apply bind_Some in E. destruct E as (comp & w0 & E0 & E). injection E0 as <- <-.
    apply bind_Some in E. destruct E as ([] & w1 & E1 & E).
    assert (K1 : exists l, w1 = mkWorld (inst w) (host_log w ++ l) (globals w)).
    { destruct (isCategoryLogged (inst w) LOG_FMI_CALL).
      - destruct s; try discriminate E1;
          match type of E1 with FILTERED_LOG ?st ?c ?m ?w0 = _ =>
            destruct (FILTERED_LOG_inst st c m w0) as [l El] end;
          rewrite El in E1; injection E1 as <-; exists l; reflexivity.
      - injection E1 as <-. exists []. rewrite app_nil_r. destruct w; reflexivity. }
    destruct K1 as [l ->].
    apply bind_Some in E. destruct E as ([] & w2 & E2 & E). injection E as <- <-.
    destruct s; rewrite FILTERED_LOG_error in E2; injection E2 as <-;
      (split; [reflexivity |]); (split; [reflexivity |]);
      exists l; eexists; cbn [inst host_log]; rewrite <- app_assoc; reflexivity.
Qed.

End StatusInquiries.

(* ------------------------------------------------------------------------- *)
(** * The four models *)
(* ------------------------------------------------------------------------- *)

Ltac unfold_macros :=
  unfold r, r_assign, i, i_assign, b, b_assign, pos, pos_assign, R_assign, I_assign,
    B_assign, varR, varI, varB, varS.

Ltac model_frame :=
  unfold hooks_respect;
  cbv [setStartValues calculateValues getReal getEventIndicator eventUpdate
       Dahlquist.hooks BouncingBall.hooks Values.hooks LinearTransform.hooks];
  unfold Dahlquist.setStartValues, Dahlquist.calculateValues, Dahlquist.getReal,
    Dahlquist.getEventIndicator, Dahlquist.eventUpdate,
    BouncingBall.setStartValues, BouncingBall.calculateValues, BouncingBall.getReal,
    BouncingBall.getEventIndicator, BouncingBall.eventUpdate,
    Values.setStartValues, Values.calculateValues, Values.getReal,
    Values.getEventIndicator, Values.eventUpdate, Values.copy, setString,
    LinearTransform.setStartValues, LinearTransform.calculateValues,
    LinearTransform.getReal, LinearTransform.getEventIndicator,
    LinearTransform.eventUpdate;
  unfold_macros; unfold_engine;
  repeat match goal with |- _ /\ _ => split end; intros; frame.

Section ModelFrames.

Lemma Dahlquist_keeps_time : hooks_respect Dahlquist.hooks (kept time).
Proof. model_frame. Qed.

Lemma BouncingBall_keeps_time : hooks_respect BouncingBall.hooks (kept time).
Proof. model_frame. Qed.

Lemma Values_keeps_time : hooks_respect Values.hooks (kept time).
Proof. model_frame. Qed.

Lemma LinearTransform_keeps_time : hooks_respect LinearTransform.hooks (kept time).
Proof. model_frame. Qed.

Lemma Dahlquist_state_moves : hooks_respect Dahlquist.hooks state_moves.
Proof. model_frame. Qed.

Lemma BouncingBall_state_moves : hooks_respect BouncingBall.hooks state_moves.
Proof. model_frame. Qed.

Lemma Values_state_moves : hooks_respect Values.hooks state_moves.
Proof. model_frame. Qed.

Lemma LinearTransform_state_moves : hooks_respect LinearTransform.hooks state_moves.
Proof. model_frame. Qed.

Lemma Dahlquist_no_termination_request :
  hooks_respect Dahlquist.hooks no_termination_request.
Proof. model_frame. Qed.

Lemma BouncingBall_no_termination_request :
  hooks_respect BouncingBall.hooks no_termination_request.
Proof. model_frame. Qed.

Lemma LinearTransform_no_termination_request :
  hooks_respect LinearTransform.hooks no_termination_request.
Proof. model_frame. Qed.

End ModelFrames.

Section ValuesEvents.

Lemma i_read {G} (vr : fmi3ValueReference) (n : fmi3Integer) (rest : list cell)
    (w : World G) :
  nth_error (variables (inst w)) (N.to_nat vr) = Some (CInt n :: rest) ->
  i vr w = Some (n, w).
Proof.
  intros H. unfold i, varI, bind.
  rewrite variables_at_in_range by (eapply nth_error_in_range; exact H).
  unfold loadI, bind. erewrite load_block; [| exact H | reflexivity]. reflexivity.
Qed.

Lemma b_read {G} (vr : fmi3ValueReference) (v : fmi3Boolean) (rest : list cell)
    (w : World G) :
  nth_error (variables (inst w)) (N.to_nat vr) = Some (CBool v :: rest) ->
  b vr w = Some (v, w).
Proof.
  intros H. unfold b, varB, bind.
  rewrite variables_at_in_range by (eapply nth_error_in_range; exact H).
  unfold loadB, bind. erewrite load_block; [| exact H | reflexivity]. reflexivity.
Qed.

Lemma i_assign_write {G} (vr : fmi3ValueReference) (n : fmi3Integer) (c : cell)
    (rest : list cell) (w : World G) :
  nth_error (variables (inst w)) (N.to_nat vr) = Some (c :: rest) ->
  i_assign vr n w
  = Some (tt, mkWorld (set_variables
                         (upd (N.to_nat vr) (CInt n :: rest) (variables (inst w)))
                         (inst w))
                (host_log w) (globals w)).
Proof.
  intros H. unfold i_assign, varI, bind.
  rewrite variables_at_in_range by (eapply nth_error_in_range; exact H).
  erewrite store_block; [| exact H | cbn; lia]. reflexivity.
Qed.

Lemma b_assign_write {G} (vr : fmi3ValueReference) (v : fmi3Boolean) (c : cell)
    (rest : list cell) (w : World G) :
  nth_error (variables (inst w)) (N.to_nat vr) = Some (c :: rest) ->
  b_assign vr v w
  = Some (tt, mkWorld (set_variables
                         (upd (N.to_nat vr) (CBool v :: rest) (variables (inst w)))
                         (inst w))
                (host_log w) (globals w)).
Proof.
  intros H. unfold b_assign, varB, bind.
  rewrite variables_at_in_range by (eapply nth_error_in_range; exact H).
  erewrite store_block; [| exact H | cbn; lia]. reflexivity.
Qed.

Lemma setString_effect {G} {model : Model} (vr : fmi3ValueReference) (value : fmi3String)
    (size : nat) (w : World G) :
  legal (state (inst w)) MASK_fmi3SetString ->
  (vr < N.of_nat N_VARIABLES)%N ->
  nth (N.to_nat vr) s_variableTypes Ascii.zero = "s"%char ->
  exists l,
    setString vr value size w
    = Some (fmi3OK,
            mkWorld (set_isDirtyValues fmi3True (inst w)) (host_log w ++ l) (globals w)).
Proof.
  intros Hl Hr Ht. assert (Hn : 0 < N_VARIABLES) by lia.
  unfold setString, fmi3SetString, setXXX.
  mstep. rewrite invalidState_legal by exact Hl.
  cbn [Nat.ltb Nat.leb nullPointer]. mstep. unfold ret at 1. mstep.
  unfold ret at 1. mstep.
  match goal with |- context [FILTERED_LOG fmi3OK LOG_FMI_CALL ?m w] =>
    destruct (FILTERED_LOG_inst fmi3OK LOG_FMI_CALL m w) as [l1 ->] end.
  mstep. cbn [forRet]. mstep. unfold setXXX_item at 1.
  mstep. cbn [read_arr nth_error of_option]. unfold ret at 1. mstep.
  rewrite vrOutOfRange_valid by assumption.
  mstep. unfold variableSize.
  destruct (Nat.ltb_spec 0 N_VARIABLES); [| lia].
  unfold ret at 1. mstep.
  assert (Hloop : forall n lo k (w0 : World G),
             forM n lo (fun j k0 => write_string (Some [value]) vr j k0) k w0
             = Some (k, w0)).
  { induction n as [| n IH]; intros lo k w0; cbn [forM]; [reflexivity |].
    unfold bind, write_string, ret. apply IH. }
  rewrite Hloop. mstep.
  match goal with |- context [FILTERED_LOG fmi3OK LOG_FMI_CALL ?m ?w0] =>
    destruct (FILTERED_LOG_inst fmi3OK LOG_FMI_CALL m w0) as [l2 ->] end.
  unfold ret, bind, modify_comp. cbn [inst host_log globals].
  exists (l1 ++ l2). rewrite app_assoc. reflexivity.
Qed.

(** X26.  The time event of the Values model.  On a store of the model's
    shape, in a state where [fmi3SetString] is legal, [eventUpdate] told of
    a time event adds 1 to the integer output, negates the boolean output,
    and defines the next event one time unit after the current time.  While
    the new count is below 12 it goes to [fmi3SetString] for the month name,
    which marks the values dirty and stores nothing, so the string output is
    as before; from 12 on it requests termination instead.  Nothing else of
    the store moves. *)
Theorem X26_values_time_event
    (x dx : fmi3Real) (n_in n : fmi3Integer) (p q : fmi3Boolean)
    (s_in s_out : option fmi3String) (isTimeEvent isNewEventIteration : Z)
    (w : World unit) :
  variables (inst w)
  = [[CReal x]; [CReal dx]; [CInt n_in]; [CInt n]; [CBool p]; [CBool q];
     [CStr s_in]; [CStr s_out]] ->
  legal (state (inst w)) MASK_fmi3SetString ->
  isTimeEvent <> 0%Z ->
  (-1 <= n < 2147483647)%Z ->
  exists w',
    Values.eventUpdate isTimeEvent isNewEventIteration w = Some (tt, w')
    /\ variables (inst w')
       = [[CReal x]; [CReal dx]; [CInt n_in]; [CInt (n + 1)%Z]; [CBool p];
          [CBool (negb q)]; [CStr s_in]; [CStr s_out]]
    /\ nextEventTimeDefined (eventInfo (inst w')) = true
    /\ nextEventTime (eventInfo (inst w')) = (1 + time (inst w))%float
    /\ terminateSimulation (eventInfo (inst w'))
       = (12 <=? n + 1)%Z || terminateSimulation (eventInfo (inst w))
    /\ isDirtyValues (inst w') = (n + 1 <? 12)%Z || isDirtyValues (inst w)
    /\ state (inst w') = state (inst w)
    /\ time (inst w') = time (inst w).
Proof.
  intros Hv Hl Hte Hn.
  destruct w as [c lg g]. destruct c. cbn [inst variables state] in Hv, Hl. subst.
  unfold Values.eventUpdate.
  destruct (Z.eqb_spec isTimeEvent 0) as [E | _]; [contradiction |]. cbn [negb].
  mstep. unfold modify_comp at 1. mstep. unfold modify_comp at 1.
  mstep. erewrite i_read by reflexivity.
  mstep. destruct (Z.leb_spec (n + 1) 2147483647) as [_ | F]; [| lia].
  erewrite i_assign_write by reflexivity.
  mstep. erewrite b_read by reflexivity.
  mstep. erewrite b_assign_write by reflexivity.
  mstep. erewrite i_read by reflexivity.
  destruct (Z.ltb_spec (n + 1) 12) as [Lt | Ge].
  - destruct (Z.leb_spec 0 (n + 1)) as [_ | F]; [| lia].
    unfold Values.copy, bind.
    match goal with |- context [setString ?v ?s ?k ?w0] =>
      destruct (@setString_effect unit Values.model v s k w0) as [l El];
        [exact Hl | reflexivity | reflexivity |]; rewrite El end.
    eexists. split; [reflexivity |].
    cbn. destruct (Z.leb_spec 12 (n + 1)); [lia |].
    repeat split.
  - eexists. split; [reflexivity |].
    cbn. destruct (Z.leb_spec 12 (n + 1)); [| lia].
    repeat split.
Qed.

End ValuesEvents.

Section BouncingBallEvents.

Lemma r_read {G} (vr : fmi3ValueReference) (x : fmi3Real) (rest : list cell)
    (w : World G) :
  nth_error (variables (inst w)) (N.to_nat vr) = Some (CReal x :: rest) ->
  r vr w = Some (x, w).
Proof.
  intros H. unfold r, varR, bind.
  rewrite variables_at_in_range by (eapply nth_error_in_range; exact H).
  unfold loadR, bind. erewrite load_block; [| exact H | reflexivity]. reflexivity.
Qed.

Lemma r_assign_write {G} (vr : fmi3ValueReference) (x : fmi3Real) (c : cell)
    (rest : list cell) (w : World G) :
  nth_error (variables (inst w)) (N.to_nat vr) = Some (c :: rest) ->
  r_assign vr x w
  = Some (tt, mkWorld (set_variables
                         (upd (N.to_nat vr) (CReal x :: rest) (variables (inst w)))
                         (inst w))
                (host_log w) (globals w)).
Proof.
  intros H. unfold r_assign, varR, bind.
  rewrite variables_at_in_range by (eapply nth_error_in_range; exact H).
  erewrite store_block; [| exact H | cbn; lia]. reflexivity.
Qed.

(** X27.  The event function of the bouncing ball, on a store of the
    model's shape.  It remembers the velocity as [prevV] when the iteration
    is new and records whether the height is positive.  Above the ground
    ([h > 0]) the store is as before.  Otherwise the velocity becomes
    [-e * prevV], and if that is below 1e-3 both the velocity and its
    derivative are set to 0: after an impact the velocity is exactly 0 or
    not below 1e-3.  The function never requests termination and defines no
    next event time. *)
Theorem X27_bouncing_ball_event
    (h dh v dv g e : fmi3Real) (p0 : fmi3Boolean)
    (isTimeEvent isNewEventIteration : Z) (w : World BouncingBall.Globals) :
  variables (inst w)
  = [[CReal h]; [CReal dh]; [CReal v]; [CReal dv]; [CReal g]; [CReal e]] ->
  isPositive (inst w) = [p0] ->
  let prevV := if (isNewEventIteration =? 0)%Z then globals w else v in
  let tempV := (- e * prevV)%float in
  let v1 := if (v =? tempV)%float then v else tempV in
  let v2 := if (v1 <? 1e-3)%float then 0%float else v1 in
  exists w',
    BouncingBall.eventUpdate isTimeEvent isNewEventIteration w = Some (tt, w')
    /\ globals w' = prevV
    /\ isPositive (inst w') = [(0 <? h)%float]
    /\ variables (inst w')
       = (if (0 <? h)%float then variables (inst w)
          else [[CReal h]; [CReal dh]; [CReal v2];
                [CReal (if (v1 <? 1e-3)%float then 0%float else dv)];
                [CReal g]; [CReal e]])
    /\ (v2 = 0%float \/ (v2 <? 1e-3)%float = false)
    /\ terminateSimulation (eventInfo (inst w')) = false
    /\ nextEventTimeDefined (eventInfo (inst w')) = false
    /\ nominalsOfContinuousStatesChanged (eventInfo (inst w')) = false
    /\ state (inst w') = state (inst w)
    /\ time (inst w') = time (inst w).
Proof.
  intros Hv Hp prevV tempV v1 v2.
  destruct w as [c lg gl]. destruct c. cbn [inst variables isPositive globals] in *.
  subst variables0 isPositive0.
  assert (K2 : v2 = 0%float \/ (v2 <? 1e-3)%float = false).
  { unfold v2. destruct (v1 <? 1e-3)%float eqn:E1; [left; reflexivity | right; exact E1]. }
  unfold BouncingBall.eventUpdate.
  mstep.
  assert (E0 : forall w0 : World BouncingBall.Globals,
             nth_error (variables (inst w0)) 2 = Some [CReal v] ->
             (if negb (isNewEventIteration =? 0)%Z
              then v0 <- r BouncingBall.v_ ;; put_globals v0
              else ret tt) w0
             = Some (tt, mkWorld (inst w0) (host_log w0)
                           (if (isNewEventIteration =? 0)%Z then globals w0 else v))).
  { intros w0 H0. destruct (isNewEventIteration =? 0)%Z; cbn [negb].
    - destruct w0; reflexivity.
    - unfold bind. erewrite r_read by exact H0. reflexivity. }
  rewrite E0 by reflexivity. clear E0. cbn [inst host_log globals]. fold prevV.
  mstep. erewrite r_read by reflexivity.
  mstep. unfold pos_assign, bind, get_comp, modify_comp.
  cbn [inst isPositive List.length Nat.ltb Nat.leb host_log globals upd].
  unfold pos at 1, bind, get_comp, of_option, ret.
  cbn [inst isPositive set_isPositive nth_error host_log globals].
  destruct (0 <? h)%float; cbn [negb].
  - eexists. split; [reflexivity |]. cbn. repeat split. exact K2.
  - erewrite r_read by reflexivity. unfold get_globals. cbn [globals].
    erewrite r_read by reflexivity. fold tempV.
    destruct (v =? tempV)%float eqn:Ev; cbn [negb].
    + erewrite r_read by reflexivity.
      assert (Hv1 : v1 = v) by (unfold v1; try rewrite Ev; reflexivity).
      rewrite <- Hv1.
      destruct (v1 <? 1e-3)%float eqn:E1.
      * erewrite r_assign_write by reflexivity.
        erewrite r_assign_write by reflexivity.
        eexists. split; [reflexivity |]. cbn.
        repeat split; try exact K2.
      * eexists. split; [reflexivity |]. cbn.
        repeat split; try exact K2.
    + erewrite r_assign_write by reflexivity.
      erewrite r_read by reflexivity.
      assert (Hv1 : v1 = tempV) by (unfold v1; try rewrite Ev; reflexivity).
      rewrite <- Hv1.
      destruct (v1 <? 1e-3)%float eqn:E1.
      * erewrite r_assign_write by reflexivity.
        erewrite r_assign_write by reflexivity.
        eexists. split; [reflexivity |]. cbn.
        repeat split; try exact K2.
      * eexists. split; [reflexivity |]. cbn.
        repeat split; try exact K2.
Qed.

End BouncingBallEvents.

Section ModelDerivatives.

(** X28.  The derivative the Dahlquist model reports.  On a store of the
    model's shape, in a state of its mask, [fmi3GetDerivatives] returns
    [fmi3OK] with [-x * x] for the one state [x], whatever the parameter
    [k] is; the model's [getReal] computes it when asked and stores it in
    the variable [der_x], and nothing else of the instance changes. *)
Theorem X28_dahlquist_derivative (x dx k d0 : fmi3Real) (w : World unit) :
  variables (inst w) = [[CReal x]; [CReal dx]; [CReal k]] ->
  legal (state (inst w)) MASK_fmi3GetDerivatives ->
  exists l,
    @fmi3GetDerivatives unit Dahlquist.model Dahlquist.hooks (Some [d0]) 1 w
    = Some ((fmi3OK, Some [(- x * x)%float]),
            mkWorld
              (set_variables [[CReal x]; [CReal (- x * x)%float]; [CReal k]] (inst w))
              (host_log w ++ l) (globals w)).
Proof.
  intros Hv Hl. unfold fmi3GetDerivatives.
  mstep. rewrite invalidState_legal by exact Hl. mstep.
  unfold invalidNumber. cbn [NUMBER_OF_STATES Dahlquist.model].
  rewrite Z.eqb_refl. cbn [negb].
  unfold ret at 1. cbv beta iota. mstep. cbn [nullPointer]. unfold ret at 1.
  cbv beta iota delta [fmi3False]. mstep. cbn [forM]. mstep. mstep.
  cbn [vrStates STATES Dahlquist.model app nth_error of_option]. unfold ret at 1.
  cbv beta iota. mstep.
  change (getReal ((Dahlquist.x_ + 1) mod 2 ^ 32)%N) with (Dahlquist.getReal 1%N).
  unfold Dahlquist.getReal. cbn [N.eqb Dahlquist.x_ Dahlquist.der_x_ Pos.eqb].
  mstep. erewrite r_read by (rewrite Hv; reflexivity).
  mstep. erewrite r_read by (rewrite Hv; reflexivity).
  mstep. erewrite r_assign_write by (rewrite Hv; reflexivity).
  unfold varR. rewrite variables_at_in_range
    by (cbn [inst set_variables variables]; rewrite upd_length, Hv; cbn; lia).
  mstep. unfold loadR, bind.
  erewrite load_block;
    [| cbn [inst set_variables variables]; rewrite Hv; reflexivity | reflexivity].
  cbn [as_real write_arr List.length Nat.ltb Nat.leb upd]. unfold ret at 1 2.
  match goal with |- context [FILTERED_LOG fmi3OK LOG_FMI_CALL ?m ?w0] =>
    destruct (FILTERED_LOG_inst fmi3OK LOG_FMI_CALL m w0) as [l ->] end.
  exists l. unfold ret. cbn [inst host_log globals set_variables variables].
  rewrite Hv. reflexivity.
Qed.

End ModelDerivatives.

Section ModelFramesOfTheDirtyFlag.

Lemma Dahlquist_keeps_dirty : hooks_respect Dahlquist.hooks (kept isDirtyValues).
Proof. model_frame. Qed.

Lemma BouncingBall_keeps_dirty : hooks_respect BouncingBall.hooks (kept isDirtyValues).
Proof. model_frame. Qed.

Lemma LinearTransform_keeps_dirty :
  hooks_respect LinearTransform.hooks (kept isDirtyValues).
Proof. model_frame. Qed.

(** X25.  What the functions of the four models never do.  None of them
    assigns [comp->time]; none moves [comp->state] but to a state the engine
    assigns (Values can, through [fmi3SetString], which its [copy] calls);
    Dahlquist, BouncingBall and LinearTransform never request termination and
    never touch the dirty flag. *)
Theorem X25_what_the_models_leave_alone :
  (hooks_respect Dahlquist.hooks (kept time)
   /\ hooks_respect BouncingBall.hooks (kept time)
   /\ hooks_respect Values.hooks (kept time)
   /\ hooks_respect LinearTransform.hooks (kept time))
  /\ (hooks_respect Dahlquist.hooks state_moves
      /\ hooks_respect BouncingBall.hooks state_moves
      /\ hooks_respect Values.hooks state_moves
      /\ hooks_respect LinearTransform.hooks state_moves)
  /\ (hooks_respect Dahlquist.hooks no_termination_request
      /\ hooks_respect BouncingBall.hooks no_termination_request
      /\ hooks_respect LinearTransform.hooks no_termination_request)
  /\ (hooks_respect Dahlquist.hooks (kept isDirtyValues)
      /\ hooks_respect BouncingBall.hooks (kept isDirtyValues)
      /\ hooks_respect LinearTransform.hooks (kept isDirtyValues)).
Proof.
  split; [| split; [| split]].
  - repeat split;
      first [ apply Dahlquist_keeps_time | apply BouncingBall_keeps_time
            | apply Values_keeps_time | apply LinearTransform_keeps_time ].
  - repeat split;
      first [ apply Dahlquist_state_moves | apply BouncingBall_state_moves
            | apply Values_state_moves | apply LinearTransform_state_moves ].
  - repeat split;
      first [ apply Dahlquist_no_termination_request
            | apply BouncingBall_no_termination_request
            | apply LinearTransform_no_termination_request ].
  - repeat split;
      first [ apply Dahlquist_keeps_dirty | apply BouncingBall_keeps_dirty
            | apply LinearTransform_keeps_dirty ].
Qed.

End ModelFramesOfTheDirtyFlag.

Section BouncingBallStates.

Lemma loadR_block {G} (vr j : nat) (x : fmi3Real) (blk : list cell) (w : World G) :
  nth_error (variables (inst w)) vr = Some blk ->
  nth_error blk j = Some (CReal x) ->
  loadR (Block vr) j w = Some (x, w).
Proof.
  intros Hb Hj. unfold loadR, bind. erewrite load_block; [| exact Hb | exact Hj].
  reflexivity.
Qed.

Ltac bb_read Hv :=
  unfold varR;
  rewrite variables_at_in_range by (cbn [inst]; rewrite Hv; cbn; lia);
  mstep;
  erewrite loadR_block; [| cbn [inst]; rewrite Hv; reflexivity | reflexivity];
  mstep; cbn [write_arr List.length Nat.ltb Nat.leb upd]; unfold ret at 1; mstep;
  match goal with |- context [FILTERED_LOG fmi3OK LOG_FMI_CALL ?m ?w0] =>
    let l := fresh "l" in
    destruct (FILTERED_LOG_inst fmi3OK LOG_FMI_CALL m w0) as [l ->] end;
  cbn [inst host_log globals]; unfold ret at 1.

(** X29.  What the bouncing ball reports.  On a store of the model's shape,
    each in a state of its mask: [fmi3GetContinuousStates] yields the height
    and the velocity; [fmi3GetDerivatives] yields the velocity and the
    variable [der_v] -- the derivative of the height is read from the
    velocity's block, the block of [der_h] is not used; and
    [fmi3GetEventIndicators] yields the height plus 1e-14 when the ball was
    last seen above the ground, minus 1e-14 otherwise.  The three calls
    return [fmi3OK] and leave the instance as it is. *)
Theorem X29_bouncing_ball_states_derivatives_and_indicator
    (h dh v dv g e b0 b1 : fmi3Real) (p0 : fmi3Boolean)
    (w : World BouncingBall.Globals) :
  variables (inst w)
  = [[CReal h]; [CReal dh]; [CReal v]; [CReal dv]; [CReal g]; [CReal e]] ->
  isPositive (inst w) = [p0] ->
  (legal (state (inst w)) MASK_fmi3GetContinuousStates ->
   exists l,
     @fmi3GetContinuousStates _ BouncingBall.model BouncingBall.hooks (Some [b0; b1]) 2 w
     = Some ((fmi3OK, Some [h; v]),
             mkWorld (inst w) (host_log w ++ l) (globals w)))
  /\ (legal (state (inst w)) MASK_fmi3GetDerivatives ->
      exists l,
        @fmi3GetDerivatives _ BouncingBall.model BouncingBall.hooks (Some [b0; b1]) 2 w
        = Some ((fmi3OK, Some [v; dv]),
                mkWorld (inst w) (host_log w ++ l) (globals w)))
  /\ (legal (state (inst w)) MASK_fmi3GetEventIndicators ->
      exists l,
        @fmi3GetEventIndicators _ BouncingBall.model BouncingBall.hooks (Some [b0]) 1 w
        = Some ((fmi3OK,
                 Some [(h + (if p0 then BouncingBall.EPS_INDICATORS
                             else - BouncingBall.EPS_INDICATORS))%float]),
                mkWorld (inst w) (host_log w ++ l) (globals w))).
Proof.
  intros Hv Hp. split; [| split]; intros Hl.
  - unfold fmi3GetContinuousStates.
    mstep. rewrite invalidState_legal by exact Hl. mstep.
    unfold invalidNumber. cbn [NUMBER_OF_STATES BouncingBall.model].
    rewrite Z.eqb_refl. cbn [negb].
    unfold ret at 1. cbv beta iota. mstep. cbn [nullPointer]. unfold ret at 1.
    cbv beta iota delta [fmi3False]. mstep. cbn [forM]. mstep. mstep.
    cbn [vrStates STATES BouncingBall.model app nth_error of_option]. unfold ret at 1.
    cbv beta iota. mstep.
    change (getReal BouncingBall.h_) with (varR (G:=BouncingBall.Globals) 0).
    bb_read Hv.
    mstep. mstep.
    cbn [vrStates STATES BouncingBall.model app nth_error of_option]. unfold ret at 1.
    cbv beta iota. mstep.
    change (getReal BouncingBall.v_) with (varR (G:=BouncingBall.Globals) 2).
    bb_read Hv.
    unfold ret. exists (l ++ l0). rewrite app_assoc. reflexivity.
  - unfold fmi3GetDerivatives.
    mstep. rewrite invalidState_legal by exact Hl. mstep.
    unfold invalidNumber. cbn [NUMBER_OF_STATES BouncingBall.model].
    rewrite Z.eqb_refl. cbn [negb].
    unfold ret at 1. cbv beta iota. mstep. cbn [nullPointer]. unfold ret at 1.
    cbv beta iota delta [fmi3False]. mstep. cbn [forM]. mstep. mstep.
    cbn [vrStates STATES BouncingBall.model app nth_error of_option]. unfold ret at 1.
    cbv beta iota. mstep.
    change (getReal ((BouncingBall.h_ + 1) mod 2 ^ 32)%N)
      with (varR (G:=BouncingBall.Globals) 2).
    bb_read Hv.
    mstep. mstep.
    cbn [vrStates STATES BouncingBall.model app nth_error of_option]. unfold ret at 1.
    cbv beta iota. mstep.
    change (getReal ((BouncingBall.v_ + 1) mod 2 ^ 32)%N)
      with (varR (G:=BouncingBall.Globals) 3).
    bb_read Hv.
    unfold ret. exists (l ++ l0). rewrite app_assoc. reflexivity.
  - unfold fmi3GetEventIndicators.
    mstep. rewrite invalidState_legal by exact Hl. mstep.
    unfold invalidNumber. cbn [NUMBER_OF_EVENT_INDICATORS BouncingBall.model].
    rewrite Z.eqb_refl. cbn [negb].
    unfold ret at 1. cbv beta iota delta [fmi3False]. mstep. cbn [forM]. mstep. mstep.
    change (getEventIndicator 0) with (BouncingBall.getEventIndicator 0).
    unfold BouncingBall.getEventIndicator. mstep.
    erewrite r_read by (rewrite Hv; reflexivity).
    mstep. unfold pos, bind, get_comp. rewrite Hp. cbn [nth_error of_option].
    unfold ret at 1 2. cbn [write_arr List.length Nat.ltb Nat.leb upd]. unfold ret at 1.
    match goal with |- context [FILTERED_LOG fmi3OK LOG_FMI_CALL ?m ?w0] =>
      destruct (FILTERED_LOG_inst fmi3OK LOG_FMI_CALL m w0) as [l ->] end.
    unfold ret. exists l. reflexivity.
Qed.

End BouncingBallStates.

(* ------------------------------------------------------------------------- *)
(** * How many elements a set transfers *)
(* ------------------------------------------------------------------------- *)

Section TransferredElements.

Context {G : Type} {model : Model}.

Lemma skipn_upd {A} (i0 n : nat) (v : A) (l : list A) :
  i0 < n -> skipn n (upd i0 v l) = skipn n l.
Proof.
  revert i0 n. induction l as [| x l IH]; intros i0 n H.
  - destruct i0; reflexivity.
  - destruct n as [| n]; [lia |]. destruct i0 as [| i0]; cbn [upd skipn].
    + reflexivity.
    + apply IH. lia.
Qed.

Lemma skipn_nth_error_cons {A} (i0 : nat) (x : A) (l : list A) :
  nth_error l i0 = Some x -> skipn i0 l = x :: skipn (Datatypes.S i0) l.
Proof.
  revert i0. induction l as [| y l IH]; intros i0 H.
  - destruct i0; discriminate H.
  - destruct i0 as [| i0]; cbn in *.
    + injection H as ->. reflexivity.
    + apply IH. exact H.
Qed.

(** The inner loop of [fmi3SetReal] on the first entry of a batch, run for
    [c] elements from element [lo]. *)
Lemma write_real_elements (vr : fmi3ValueReference) (value : list fmi3Real) :
  forall (c lo : nat) (blk : list cell) (w : World G),
    lo + c <= List.length value ->
    lo + c <= List.length blk ->
    nth_error (variables (inst w)) (N.to_nat vr) = Some blk ->
    forM c lo (fun j k => write_real (Some value) vr j k) lo w
    = Some (lo + c,
            mkWorld (set_variables
                       (upd (N.to_nat vr)
                          (firstn lo blk ++ map CReal (firstn c (skipn lo value))
                           ++ skipn (lo + c) blk)
                          (variables (inst w)))
                       (inst w))
              (host_log w) (globals w)).
Proof.
  induction c as [| c IH]; intros lo blk w Hn Hl Hb.
  - cbn [forM firstn map app]. unfold ret. rewrite Nat.add_0_r, firstn_skipn.
    erewrite upd_nth_error by exact Hb.
    destruct w as [cmp lg g]; destruct cmp; reflexivity.
  - cbn [forM]. unfold bind at 1. unfold write_real at 1. unfold bind at 1.
    destruct (nth_error value lo) as [x |] eqn:Ex;
      [| apply nth_error_None in Ex; lia].
    cbn [read_arr]. rewrite Ex. cbn [of_option]. unfold ret at 1. cbv beta iota.
    unfold bind at 1. unfold varR.
    rewrite variables_at_in_range by (eapply nth_error_in_range; exact Hb).
    unfold bind at 1. erewrite store_block; [| exact Hb | lia].
    unfold ret at 1. cbv beta iota.
    change (1 + lo) with (Datatypes.S lo).
    rewrite (IH (Datatypes.S lo) (upd lo (CReal x) blk)).
    + cbn [inst host_log globals set_variables variables]. rewrite upd_upd.
      rewrite firstn_succ_upd by lia.
      rewrite skipn_upd by lia.
      rewrite (skipn_nth_error_cons _ _ Ex). cbn [firstn map].
      replace (Datatypes.S lo + c) with (lo + Datatypes.S c) by lia.
      rewrite <- app_assoc. reflexivity.
    + lia.
    + rewrite upd_length. lia.
    + cbn [inst set_variables variables]. apply nth_error_upd_eq.
      eapply nth_error_in_range; exact Hb.
Qed.

(** X30.  How many elements a set of one real variable transfers: as many as
    the size table gives for variable 0, because [s_variableSizes] is indexed
    by the position in the batch and not by the value reference.  That many
    elements of the variable's block take the caller's values, the rest of
    the block is as before; [nValues] is not consulted.  The call returns
    [fmi3OK] and marks the values dirty. *)
Theorem X30_set_real_transfers_the_size_of_the_batch_position
    (vr : fmi3ValueReference) (value : list fmi3Real) (blk : list cell)
    (nValues : nat) (w : World G) :
  legal (state (inst w)) MASK_fmi3SetReal ->
  (vr < N.of_nat N_VARIABLES)%N ->
  nth (N.to_nat vr) s_variableTypes Ascii.zero = "r"%char ->
  nth_error (variables (inst w)) (N.to_nat vr) = Some blk ->
  nth 0 s_variableSizes 0 <= List.length value ->
  nth 0 s_variableSizes 0 <= List.length blk ->
  exists l,
    fmi3SetReal (Some [vr]) 1 (Some value) nValues w
    = Some (fmi3OK,
            mkWorld
              (set_isDirtyValues fmi3True
                 (set_variables
                    (upd (N.to_nat vr)
                       (map CReal (firstn (nth 0 s_variableSizes 0) value)
                        ++ skipn (nth 0 s_variableSizes 0) blk)
                       (variables (inst w)))
                    (inst w)))
              (host_log w ++ l) (globals w)).
Proof.
  intros Hset Hr Ht Hb Hv Hk.
  assert (Hn : 0 < N_VARIABLES) by lia.
  unfold fmi3SetReal, setXXX.
  mstep. rewrite invalidState_legal by exact Hset.
  cbn [Nat.ltb Nat.leb nullPointer]. mstep. unfold ret at 1. mstep.
  unfold ret at 1. mstep.
  match goal with |- context [FILTERED_LOG fmi3OK LOG_FMI_CALL ?m w] =>
    destruct (FILTERED_LOG_inst fmi3OK LOG_FMI_CALL m w) as [l1 ->] end.
  mstep. cbn [forRet]. mstep. unfold setXXX_item at 1.
  mstep. cbn [read_arr nth_error of_option]. unfold ret at 1. mstep.
  rewrite vrOutOfRange_valid by assumption.
  mstep. unfold variableSize.
  destruct (Nat.ltb_spec 0 N_VARIABLES); [| lia].
  unfold ret at 1. mstep.
  rewrite (write_real_elements vr value (nth 0 s_variableSizes 0) 0 (blk:=blk));
    [| cbn; lia | cbn; lia | exact Hb].
  mstep.
  match goal with |- context [FILTERED_LOG fmi3OK LOG_FMI_CALL ?m ?w0] =>
    destruct (FILTERED_LOG_inst fmi3OK LOG_FMI_CALL m w0) as [l2 ->] end.
  unfold ret, bind, modify_comp.
  cbn [inst host_log globals firstn app skipn Nat.add].
  exists (l1 ++ l2). rewrite app_assoc. reflexivity.
Qed.

End TransferredElements.

(* ------------------------------------------------------------------------- *)
(** * Runs of the models *)
(* ------------------------------------------------------------------------- *)

Module Runs.

Import Scenario.

(** The scenario worlds are what the call sequences of [Scenario] reach. *)
Lemma dq_ready_reached :
  and_then (and_then (and_then
     (@start _ Dahlquist.model Dahlquist.hooks tt fmi3CoSimulation fmi3False)
     (@fmi3SetupExperiment _ false 0 0 false 0)%float)
     (@fmi3EnterInitializationMode _))
     (@fmi3ExitInitializationMode _ Dahlquist.hooks)
  = Some dq_ready.
Proof. vm_compute. reflexivity. Qed.

Lemma bb_ready_reached :
  and_then (and_then (and_then
     (@start _ BouncingBall.model BouncingBall.hooks BouncingBall.prevV_initial
        fmi3CoSimulation fmi3False)
     (@fmi3SetupExperiment _ false 0 0 false 0)%float)
     (@fmi3EnterInitializationMode _))
     (@fmi3ExitInitializationMode _ BouncingBall.hooks)
  = Some bb_ready.
Proof. vm_compute. reflexivity. Qed.

Lemma values_ready_reached :
  and_then (and_then (and_then
     (@start _ Values.model Values.hooks tt fmi3CoSimulation fmi3True)
     (@fmi3SetupExperiment _ false 0 0 false 0)%float)
     (@fmi3EnterInitializationMode _))
     (@fmi3ExitInitializationMode _ Values.hooks)
  = Some values_ready.
Proof. vm_compute. reflexivity. Qed.

(** C1, an instance: [fmi3DoStep] on the freshly instantiated Dahlquist
    model, a state outside [MASK_fmi3DoStep]. *)
Lemma C1_witness :
  Z.land (state (inst dq_instantiated)) (call_mask (CallDoStep 0%float 1%float false)) = 0%Z
  /\ @run _ Dahlquist.model Dahlquist.hooks (CallDoStep 0%float 1%float false) dq_instantiated
     = Some (fmi3Error, illegal_call dq_instantiated)
  /\ state (inst (illegal_call dq_instantiated)) = modelError.
Proof.
  split; [reflexivity |].
  pose proof (@C1_illegal_call_is_an_error _ Dahlquist.model Dahlquist.hooks
                (CallDoStep 0%float 1%float false) dq_instantiated eq_refl) as [H1 [H2 _]].
  split; [exact H1 | exact H2].
Defined.

(** C1 as stated fails: the Dahlquist instance is in [modelError] (a step of
    size 0 was refused), and [fmi3GetReal], which is no teardown call,
    returns [fmi3OK] with the value of [x]. *)
Lemma C1_counterexample :
  state (inst dq_error) = modelError
  /\ @fmi3GetReal _ Dahlquist.model Dahlquist.hooks
       (Some [Dahlquist.x_]) 1 (Some [0%float]) 1 dq_error
     = Some ((fmi3OK, Some [1%float]), dq_error)
  /\ @run _ Dahlquist.model Dahlquist.hooks
       (CallGetReal (Some [Dahlquist.x_]) 1 (Some [0%float]) 1) dq_error
     = Some (fmi3OK, dq_error).
Proof. repeat split; vm_compute; reflexivity. Qed.

(** From [modelError], [fmi3Reset] returns [fmi3OK] and the instance is back
    in [modelInstantiated]. *)
Lemma reset_leaves_error :
  exists w,
    @run _ Dahlquist.model Dahlquist.hooks CallReset dq_error = Some (fmi3OK, w)
    /\ state (inst w) = modelInstantiated.
Proof. eexists. split; vm_compute; reflexivity. Qed.

(** From [modelError], [fmi3Terminate] is refused like every operation whose
    mask leaves [modelError] out. *)
Lemma terminate_is_refused_in_error :
  @run _ Dahlquist.model Dahlquist.hooks CallTerminate dq_error
  = Some (fmi3Error, illegal_call dq_error).
Proof. vm_compute. reflexivity. Qed.

(** C2, an instance: a step of size [-1] on the Dahlquist model. *)
Lemma C2_witness :
  (-1 <=? 0)%float = true
  /\ exists w',
       @fmi3DoStep _ Dahlquist.model Dahlquist.hooks 0%float (-1)%float false dq_ready
       = Some (fmi3Error, w')
       /\ state (inst w') = modelError
       /\ time (inst w') = time (inst dq_ready)
       /\ variables (inst w') = variables (inst dq_ready)
       /\ inst w' = set_state modelError (inst dq_ready)
       /\ globals w' = globals dq_ready.
Proof.
  split; [reflexivity |].
  exact (@C2_nonpositive_step_is_refused _ Dahlquist.model Dahlquist.hooks
           0%float (-1)%float false dq_ready eq_refl).
Defined.

(** C2 as stated fails: the refused step changes the state of the instance,
    from [modelStepComplete] to [modelError]. *)
Lemma C2_counterexample :
  (0 <=? 0)%float = true
  /\ state (inst dq_ready) = modelStepComplete
  /\ @fmi3DoStep _ Dahlquist.model Dahlquist.hooks 0%float 0%float false dq_ready
     = Some (fmi3Error, dq_error)
  /\ state (inst dq_error) = modelError
  /\ state (inst dq_error) <> state (inst dq_ready).
Proof. repeat split; try (vm_compute; reflexivity). discriminate. Qed.

(** C8, an instance: an unknown category on the Values model. *)
Lemma C8_witness :
  legal (state (inst values_ready)) MASK_fmi3SetDebugLogging
  /\ List.length (logCategories (inst values_ready)) = NUMBER_OF_CATEGORIES
  /\ ~ In "logBogus" logCategoriesNames
  /\ exists w' l,
       fmi3SetDebugLogging fmi3True 1 (Some ["logBogus"]) values_ready
       = Some (fmi3OK, w')
       /\ host_log w'
          = host_log values_ready ++ l
            ++ [mkLog (instanceName (inst values_ready)) fmi3Warning "logError"
                  "logging category '%s' is not supported by model"]
       /\ logCategories (inst w') = repeat fmi3False NUMBER_OF_CATEGORIES.
Proof.
  assert (H1 : legal (state (inst values_ready)) MASK_fmi3SetDebugLogging)
    by (vm_compute; discriminate).
  assert (H2 : List.length (logCategories (inst values_ready)) = NUMBER_OF_CATEGORIES)
    by reflexivity.
  assert (H3 : ~ In "logBogus" logCategoriesNames).
  { cbn. intros [H | [H | [H | [H | []]]]]; discriminate H. }
  split; [exact H1 |]. split; [exact H2 |]. split; [exact H3 |].
  exact (C8_unknown_category_warns_and_clears fmi3True values_ready H1 H2 H3).
Defined.

(** C8 as stated fails: all four categories of the Values instance are
    enabled before the call with the unknown name, and none is after it. *)
Lemma C8_counterexample :
  logCategories (inst values_ready) = [true; true; true; true]
  /\ exists w',
       fmi3SetDebugLogging fmi3True 1 (Some ["logBogus"]) values_ready
       = Some (fmi3OK, w')
       /\ logCategories (inst w') = [false; false; false; false]
       /\ logCategories (inst w') <> logCategories (inst values_ready).
Proof.
  split; [reflexivity |]. eexists. split; [vm_compute; reflexivity |].
  split; [reflexivity | discriminate].
Qed.

(** C9, an instance: zero categories with [loggingOn = fmi3True] on the
    Dahlquist model, whose categories were all off. *)
Lemma C9_witness :
  legal (state (inst dq_ready)) MASK_fmi3SetDebugLogging
  /\ List.length (logCategories (inst dq_ready)) = NUMBER_OF_CATEGORIES
  /\ exists w',
       fmi3SetDebugLogging fmi3True 0 None dq_ready = Some (fmi3OK, w')
       /\ logCategories (inst w') = repeat fmi3True NUMBER_OF_CATEGORIES
       /\ forall categoryIndex, categoryIndex < NUMBER_OF_CATEGORIES ->
            isCategoryLogged (inst w') categoryIndex = fmi3True.
Proof.
  assert (H1 : legal (state (inst dq_ready)) MASK_fmi3SetDebugLogging)
    by (vm_compute; discriminate).
  split; [exact H1 |]. split; [reflexivity |].
  exact (C9_zero_categories_set_all_to_loggingOn fmi3True None dq_ready H1 eq_refl).
Defined.

(** C9 as stated fails: configured with zero categories and
    [loggingOn = fmi3False], the Values instance ends with every category
    disabled. *)
Lemma C9_counterexample :
  exists w',
    fmi3SetDebugLogging fmi3False 0 None values_ready = Some (fmi3OK, w')
    /\ logCategories (inst w') = [false; false; false; false]
    /\ isCategoryLogged (inst w') LOG_ALL = false
    /\ isCategoryLogged (inst w') LOG_ERROR = false
    /\ isCategoryLogged (inst w') LOG_FMI_CALL = false
    /\ isCategoryLogged (inst w') LOG_EVENT = false.
Proof. eexists. split; [vm_compute; reflexivity |]. repeat split. Qed.

(** C10, an instance: the Dahlquist model in continuous-time mode. *)
Lemma C10_witness :
  legal (state (inst dq_continuous)) MASK_fmi3SetContinuousStates
  /\ 1 = @NUMBER_OF_STATES Dahlquist.model
  /\ @fmi3SetContinuousStates _ Dahlquist.model (Some [2.5%float]) 1 dq_continuous
     = Some (fmi3OK, dq_continuous).
Proof.
  assert (H1 : legal (state (inst dq_continuous)) MASK_fmi3SetContinuousStates)
    by (vm_compute; discriminate).
  split; [exact H1 |]. split; [reflexivity |].
  exact (@C10_set_continuous_states_writes_nothing _ Dahlquist.model
           [2.5%float] 1 dq_continuous H1 eq_refl).
Defined.

(** An aborted batch: on the Dahlquist model, the batch [x_, 7] of
    [fmi3SetReal]; 7 is out of range. *)
Lemma fmi3Set_aborts_at_first_refused_entry_on_dahlquist :
  1 < 2
  /\ nth_error [Dahlquist.x_; 7%N] 1 = Some 7%N
  /\ @invalid_entry Dahlquist.model "r" 7%N
  /\ exists w1 w2,
       @fmi3Set _ Dahlquist.model [Dahlquist.x_; 7%N] 1 (RealValues [5; 6]%float) 2
         dq_ready = Some (fmi3OK, w1)
       /\ @fmi3Set _ Dahlquist.model [Dahlquist.x_; 7%N] 2 (RealValues [5; 6]%float) 2
            dq_ready = Some (fmi3Error, w2)
       /\ variables (inst w2) = variables (inst w1)
       /\ variables (inst w1) = [[CReal 5]; [CReal 0]; [CReal 1]]%float
       /\ state (inst w2) = modelError.
Proof.
  assert (H1 : 1 < 2) by lia.
  assert (H3 : @invalid_entry Dahlquist.model "r" 7%N) by (left; vm_compute; discriminate).
  split; [exact H1 |]. split; [reflexivity |]. split; [exact H3 |].
  eexists.
  assert (H4 : @fmi3Set _ Dahlquist.model [Dahlquist.x_; 7%N] 1
                 (RealValues [5; 6]%float) 2 dq_ready
               = Some (fmi3OK,
                       mkWorld (set_isDirtyValues true
                                  (set_variables [[CReal 5]; [CReal 0]; [CReal 1]]%float
                                     (inst dq_ready))) [] tt))
    by (vm_compute; reflexivity).
  destruct (@fmi3Set_aborts_at_first_refused_entry _ Dahlquist.model
              [Dahlquist.x_; 7%N] 2 (RealValues [5; 6]%float) 2 1 7%N dq_ready _
              H1 eq_refl H3 H4) as [w2 [E [Hv Hs]]].
  exists w2. split; [exact H4 |]. split; [exact E |]. split; [exact Hv |].
  split; [reflexivity | exact Hs].
Defined.

(** C4, the failing run, on the Values model, ready to step ([int_in_] is
    declared ['i'], [bool_in_] is declared ['b'], [x_] is declared ['r'],
    [string_in_] is declared ['s']).  In a boolean set, [int_in_] is an entry
    of another kind and [bool_in_] is a valid one.  [fmi3SetBoolean] on the
    batch [int_in_, bool_in_] does not abort at its first entry: it stores
    the boolean in the block of [int_in_], and returns [fmi3Error] at the
    second entry, the valid one, which it leaves unwritten; on [int_in_]
    alone it returns [fmi3OK].  The sibling setters [fmi3SetInteger] and
    [fmi3SetReal], on a batch of a valid entry followed by an entry of
    another kind, write the first entry, return [fmi3Error] at the second
    with the instance in [modelError], and the value written is still in the
    store; [fmi3SetString] returns [fmi3Error] at the entry of another kind
    in the same way (its storing statements are commented out: the store is
    as it was). *)
Lemma C4_boolean_batch_does_not_abort_at_the_entry_of_another_kind :
  nth (N.to_nat Values.int_in_) (@s_variableTypes Values.model) Ascii.zero = "i"%char
  /\ nth (N.to_nat Values.bool_in_) (@s_variableTypes Values.model) Ascii.zero = "b"%char
  /\ nth (N.to_nat Values.x_) (@s_variableTypes Values.model) Ascii.zero = "r"%char
  /\ nth (N.to_nat Values.string_in_) (@s_variableTypes Values.model) Ascii.zero
     = "s"%char
  /\ state (inst values_ready) = modelStepComplete
  /\ variables (inst values_ready)
     = [[CReal 1%float]; [CReal 0%float]; [CInt 2%Z]; [CInt 0%Z];
        [CBool true]; [CBool false]; [CStr None]; [CStr None]]
  /\ (exists w',
        @fmi3SetBoolean _ Values.model (Some [Values.int_in_; Values.bool_in_]) 2
          (Some [false; false]) 2 values_ready = Some (fmi3Error, w')
        /\ state (inst w') = modelError
        /\ variables (inst w')
           = [[CReal 1%float]; [CReal 0%float]; [CBool false]; [CInt 0%Z];
              [CBool true]; [CBool false]; [CStr None]; [CStr None]])
  /\ (exists w',
        @fmi3SetBoolean _ Values.model (Some [Values.int_in_]) 1
          (Some [false]) 1 values_ready = Some (fmi3OK, w')
        /\ state (inst w') = modelStepComplete
        /\ variables (inst w')
           = [[CReal 1%float]; [CReal 0%float]; [CBool false]; [CInt 0%Z];
              [CBool true]; [CBool false]; [CStr None]; [CStr None]])
  /\ (exists w',
        @fmi3SetInteger _ Values.model (Some [Values.int_in_; Values.bool_in_]) 2
          (Some [41%Z; 7%Z]) 2 values_ready = Some (fmi3Error, w')
        /\ state (inst w') = modelError
        /\ variables (inst w')
           = [[CReal 1%float]; [CReal 0%float]; [CInt 41%Z]; [CInt 0%Z];
              [CBool true]; [CBool false]; [CStr None]; [CStr None]])
  /\ (exists w',
        @fmi3SetReal _ Values.model (Some [Values.x_; Values.int_in_]) 2
          (Some [5%float; 6%float]) 2 values_ready = Some (fmi3Error, w')
        /\ state (inst w') = modelError
        /\ variables (inst w')
           = [[CReal 5%float]; [CReal 0%float]; [CInt 2%Z]; [CInt 0%Z];
              [CBool true]; [CBool false]; [CStr None]; [CStr None]])
  /\ (exists w',
        @fmi3SetString _ Values.model (Some [Values.string_in_; Values.int_in_]) 2
          (Some ["a"; "b"]%string) 2 values_ready = Some (fmi3Error, w')
        /\ state (inst w') = modelError
        /\ variables (inst w')
           = [[CReal 1%float]; [CReal 0%float]; [CInt 2%Z]; [CInt 0%Z];
              [CBool true]; [CBool false]; [CStr None]; [CStr None]]).
Proof.
  split; [reflexivity |]. split; [reflexivity |]. split; [reflexivity |].
  split; [reflexivity |]. split; [reflexivity |]. split; [reflexivity |].
  repeat split; eexists; (split; [vm_compute; reflexivity |]); split; reflexivity.
Qed.

(** C5, the failing run.  The Dahlquist instance is ready to step and not
    dirty.  [fmi3SetReal] on the batch [x_, 7] writes 5 into [x], is refused
    at the second entry and returns [fmi3Error]: [isDirtyValues] is still
    false, and the next [fmi3GetReal] (legal in [modelError]) reads the 5
    back without a call of the compute hook. *)
Lemma C5_aborted_batch_is_not_marked_dirty :
  isDirtyValues (inst dq_ready) = false
  /\ variables (inst dq_ready) = [[CReal 1]; [CReal 0]; [CReal 1]]%float
  /\ exists w',
       @fmi3SetReal _ Dahlquist.model (Some [Dahlquist.x_; 7%N]) 2
         (Some [5; 6]%float) 2 dq_ready = Some (fmi3Error, w')
       /\ variables (inst w') = [[CReal 5]; [CReal 0]; [CReal 1]]%float
       /\ isDirtyValues (inst w') = false
       /\ @fmi3GetReal _ Dahlquist.model Dahlquist.hooks
            (Some [Dahlquist.x_]) 1 (Some [0%float]) 1 w'
          = Some ((fmi3OK, Some [5%float]), w').
Proof.
  split; [reflexivity |]. split; [reflexivity |].
  eexists. split; [vm_compute; reflexivity |]. repeat split.
Qed.

(** C7, the failing runs, on the Values model ([bool_in_] is declared ['b'],
    [int_in_] is declared ['i'], [string_in_] is declared ['s']):
    [fmi3SetBoolean] refuses the boolean variable and puts the instance in
    [modelError]; it accepts the integer variable and stores a boolean in its
    block; [fmi3GetString] refuses the string variable. *)
Lemma C7_boolean_setter_and_string_getter_check_another_kind :
  nth (N.to_nat Values.bool_in_) (@s_variableTypes Values.model) Ascii.zero = "b"%char
  /\ nth (N.to_nat Values.int_in_) (@s_variableTypes Values.model) Ascii.zero = "i"%char
  /\ nth (N.to_nat Values.string_in_) (@s_variableTypes Values.model) Ascii.zero
     = "s"%char
  /\ legal (state (inst values_ready)) MASK_fmi3SetBoolean
  /\ legal (state (inst values_ready)) MASK_fmi3GetString
  /\ (exists w',
        @fmi3SetBoolean _ Values.model (Some [Values.bool_in_]) 1 (Some [false]) 1
          values_ready = Some (fmi3Error, w')
        /\ state (inst w') = modelError
        /\ variables (inst w') = variables (inst values_ready))
  /\ (exists w',
        @fmi3SetBoolean _ Values.model (Some [Values.int_in_]) 1 (Some [true]) 1
          values_ready = Some (fmi3OK, w')
        /\ state (inst w') = modelStepComplete
        /\ nth_error (variables (inst w')) (N.to_nat Values.int_in_)
           = Some [CBool true])
  /\ (exists w',
        @fmi3GetString _ Values.model Values.hooks (Some [Values.string_in_]) 1
          (Some [None]) 1 values_ready = Some ((fmi3Error, Some [None]), w')
        /\ state (inst w') = modelError).
Proof.
  split; [reflexivity |]. split; [reflexivity |]. split; [reflexivity |].
  split; [vm_compute; discriminate |]. split; [vm_compute; discriminate |].
  split; [| split]; eexists; (split; [vm_compute; reflexivity |]); repeat split.
Qed.

(** C3, an instance: the height [h_] of the BouncingBall model, in
    initialization mode. *)
Lemma C3_witness :
  exists w1 w2,
    @fmi3SetReal _ BouncingBall.model (Some [BouncingBall.h_]) 1 (Some [2.5%float]) 1
      bb_initialization = Some (fmi3OK, w1)
    /\ @fmi3GetReal _ BouncingBall.model BouncingBall.hooks
         (Some [BouncingBall.h_]) 1 (Some [0%float]) 1 w1
       = Some ((fmi3OK, Some [2.5%float]), w2).
Proof.
  apply (@C3_set_real_then_get_real _ BouncingBall.model BouncingBall.hooks
           BouncingBall.h_ [2.5%float] [0%float] [CReal 1%float] 1 1
           bb_initialization).
  - vm_compute. discriminate.
  - vm_compute. discriminate.
  - reflexivity.
  - reflexivity.
  - reflexivity.
  - reflexivity.
  - reflexivity.
  - reflexivity.
  - intros w1 H. vm_compute in H. injection H as <-.
    eexists. split; vm_compute; reflexivity.
  - intros w2 H. cbn [getReal BouncingBall.hooks]. unfold BouncingBall.getReal.
    cbn [N.eqb BouncingBall.h_]. unfold varR. apply variables_at_in_range.
    eapply nth_error_in_range. exact H.
Defined.

(** C3 as stated fails.  On the BouncingBall model in initialization mode,
    value reference 1 ([der_h_]) is in range, of real kind, and not touched
    by the compute hook; 5 is set, and the get that follows returns 0, the
    velocity, because the model's read hook answers [der_h_] with the block
    of [v_].  The block of [der_h_] still holds the 5. *)
Lemma C3_counterexample :
  legal (state (inst bb_initialization)) MASK_fmi3SetReal
  /\ legal (state (inst bb_initialization)) MASK_fmi3GetReal
  /\ (BouncingBall.der_h_ < N.of_nat (@N_VARIABLES BouncingBall.model))%N
  /\ nth (N.to_nat BouncingBall.der_h_) (@s_variableTypes BouncingBall.model) Ascii.zero
     = "r"%char
  /\ exists w1 w2,
       @fmi3SetReal _ BouncingBall.model (Some [BouncingBall.der_h_]) 1
         (Some [5%float]) 1 bb_initialization = Some (fmi3OK, w1)
       /\ @fmi3GetReal _ BouncingBall.model BouncingBall.hooks
            (Some [BouncingBall.der_h_]) 1 (Some [7%float]) 1 w1
          = Some ((fmi3OK, Some [0%float]), w2)
       /\ nth_error (variables (inst w1)) (N.to_nat BouncingBall.der_h_)
          = Some [CReal 5%float]
       /\ nth_error (variables (inst w2)) (N.to_nat BouncingBall.der_h_)
          = Some [CReal 5%float].
Proof.
  split; [vm_compute; discriminate |]. split; [vm_compute; discriminate |].
  split; [reflexivity |]. split; [reflexivity |].
  eexists. eexists. split; [vm_compute; reflexivity |].
  split; [vm_compute; reflexivity |]. split; reflexivity.
Qed.

(** C6, an instance: the first step, of size 1, of the BouncingBall model
    (the ball reaches the ground during the step). *)
Lemma C6_witness :
  @fmi3DoStep _ BouncingBall.model BouncingBall.hooks 0%float 1%float false bb_ready
  = Some (fmi3OK, bb_stepped)
  /\ legal (state (inst bb_ready)) MASK_fmi3DoStep
  /\ (1 <=? 0)%float = false
  /\ exists (l : list LogRecord) (prev prev' : list fmi3Real)
            (w0 : World BouncingBall.Globals),
       @sample_eventIndicators _ BouncingBall.model BouncingBall.hooks
         (mkWorld (inst bb_ready) (host_log bb_ready ++ l) (globals bb_ready))
       = Some (prev, w0)
       /\ @SubIntervals _ BouncingBall.model BouncingBall.hooks (1 / 10)%float 10 prev
            (mkWorld (set_time 0%float (inst w0)) (host_log w0) (globals w0))
            prev' bb_stepped.
Proof.
  assert (H : @fmi3DoStep _ BouncingBall.model BouncingBall.hooks 0%float 1%float false
                bb_ready = Some (fmi3OK, bb_stepped)) by (vm_compute; reflexivity).
  split; [exact H |].
  exact (@C6_step_is_ten_euler_subintervals _ BouncingBall.model BouncingBall.hooks
           0%float 1%float false bb_ready bb_stepped H).
Defined.

(** C6 as stated fails.  In the BouncingBall instance with velocity 2, the
    height [h_] (value reference 0) is 1 and the value stored at value
    reference 1 is 0.  One Euler pass of length 1/10 moves the height to
    1.2 = 1 + 1/10 * 2, not to 1 + 1/10 * 0, and the whole step of size 1
    moves it to 0.57381999999999955, while value reference 1 holds 0 before
    and after: the derivative of [h_] is what the model's read hook yields
    for value reference 1, the velocity, not what is stored there. *)
Lemma C6_counterexample :
  nth_error (variables (inst bb_thrown)) (N.to_nat BouncingBall.h_)
  = Some [CReal 1%float]
  /\ nth_error (variables (inst bb_thrown)) (N.to_nat (BouncingBall.h_ + 1))
     = Some [CReal 0%float]
  /\ (exists w',
        @euler_states _ BouncingBall.model BouncingBall.hooks (1 / 10)%float bb_thrown
        = Some (tt, w')
        /\ nth_error (variables (inst w')) (N.to_nat BouncingBall.h_)
           = Some [CReal 1.2%float]
        /\ nth_error (variables (inst w')) (N.to_nat (BouncingBall.h_ + 1))
           = Some [CReal 0%float])
  /\ (1 + 1 / 10 * 0 =? 1.2)%float = false
  /\ (exists w',
        @fmi3DoStep _ BouncingBall.model BouncingBall.hooks 0%float 1%float false
          bb_thrown = Some (fmi3OK, w')
        /\ nth_error (variables (inst w')) (N.to_nat BouncingBall.h_)
           = Some [CReal 0.57381999999999955%float]
        /\ nth_error (variables (inst w')) (N.to_nat (BouncingBall.h_ + 1))
           = Some [CReal 0%float]).
Proof.
  split; [reflexivity |]. split; [reflexivity |].
  split; [eexists; split; [vm_compute; reflexivity | split; reflexivity] |].
  split; [vm_compute; reflexivity |].
  eexists. split; [vm_compute; reflexivity | split; reflexivity].
Qed.

(** One Euler pass of the BouncingBall model, whatever the values: the height
    moves by [dt] times the velocity of before the pass (the block of [v_],
    which is what [getReal] yields for [der_h_]); the velocity moves by [dt]
    times the stored [der_v_]; the block of [der_h_] is neither read nor
    written. *)
Lemma bouncing_ball_euler_pass (dt h dh v dv g e : fmi3Real) (c : ModelInstance)
    (log : list LogRecord) (prevV : BouncingBall.Globals) :
  variables c = [[CReal h]; [CReal dh]; [CReal v]; [CReal dv]; [CReal g]; [CReal e]] ->
  @euler_states _ BouncingBall.model BouncingBall.hooks dt (mkWorld c log prevV)
  = Some (tt,
          mkWorld
            (set_variables
               [[CReal (h + dt * v)]; [CReal dh]; [CReal (v + dt * dv)]; [CReal dv];
                [CReal g]; [CReal e]]%float c)
            log prevV).
Proof.
  intros Hv. destruct c. cbn [variables] in Hv. subst. reflexivity.
Qed.

(** The time after the first step of the BouncingBall model is the result of
    adding 1/10 ten times to the communication point 0; in binary64 that is
    not 1. *)
Lemma bouncing_ball_time_after_step :
  time (inst bb_stepped) = Nat.iter 10 (fun t => (t + 1 / 10)%float) 0%float
  /\ time (inst bb_stepped) = 0.99999999999999989%float.
Proof. split; vm_compute; reflexivity. Qed.

(** LinearTransform: the three elements of [u_], the first entry of a batch,
    make the round trip. *)
Lemma linear_transform_round_trip :
  exists w0 w1 w2,
    and_then (and_then (and_then
       (@start _ LinearTransform.model LinearTransform.hooks tt fmi3CoSimulation fmi3False)
       (@fmi3SetupExperiment _ false 0 0 false 0)%float)
       (@fmi3EnterInitializationMode _))
       (@fmi3ExitInitializationMode _ LinearTransform.hooks)
    = Some w0
    /\ @fmi3SetReal _ LinearTransform.model (Some [LinearTransform.u_]) 1
         (Some [1; 2; 3]%float) 3 w0 = Some (fmi3OK, w1)
    /\ @fmi3GetReal _ LinearTransform.model LinearTransform.hooks
         (Some [LinearTransform.u_]) 1 (Some [0; 0; 0]%float) 3 w1
       = Some ((fmi3OK, Some [1; 2; 3]%float), w2).
Proof.
  eexists. eexists. eexists.
  split; [vm_compute; reflexivity |]. split; vm_compute; reflexivity.
Qed.

(** ** Runs for the frames and results of the operations *)

Import Episodes.

Lemma X1_witness :
  hooks_respect BouncingBall.hooks state_moves
  /\ @run _ BouncingBall.model BouncingBall.hooks (CallDoStep 0%float 1%float false)
       bb_ready = Some (fmi3OK, bb_stepped)
  /\ (state (inst bb_stepped) = state (inst bb_ready)
      \/ assigned_state (state (inst bb_stepped)) = true).
Proof.
  assert (H : @run _ BouncingBall.model BouncingBall.hooks
                (CallDoStep 0%float 1%float false) bb_ready = Some (fmi3OK, bb_stepped))
    by (vm_compute; reflexivity).
  split; [exact BouncingBall_state_moves |]. split; [exact H |].
  exact (@X1_no_call_enters_an_unassigned_state _ BouncingBall.model BouncingBall.hooks
           _ _ _ _ BouncingBall_state_moves H).
Defined.

Lemma X2_witness :
  stores_or_calls_model
    (CallSetString (Some [Values.string_in_]) 1 (Some ["set by the host"]) 1) = false
  /\ exists w',
       @run _ Values.model Values.hooks
         (CallSetString (Some [Values.string_in_]) 1 (Some ["set by the host"]) 1)
         values_ready = Some (fmi3OK, w')
       /\ variables (inst w') = variables (inst values_ready).
Proof.
  split; [reflexivity |].
  eexists. split; [vm_compute; reflexivity |].
  eapply (@X2_variable_store_is_written_by_setters_and_model_only _ Values.model
            Values.hooks
            (CallSetString (Some [Values.string_in_]) 1 (Some ["set by the host"]) 1)
            values_ready _ fmi3OK eq_refl).
  vm_compute. reflexivity.
Defined.

Lemma X3_witness :
  hooks_respect Dahlquist.hooks (kept time)
  /\ sets_time (CallSetReal (Some [Dahlquist.x_]) 1 (Some [2%float]) 1) = false
  /\ exists w',
       @run _ Dahlquist.model Dahlquist.hooks
         (CallSetReal (Some [Dahlquist.x_]) 1 (Some [2%float]) 1) dq_ready
       = Some (fmi3OK, w')
       /\ time (inst w') = time (inst dq_ready).
Proof.
  split; [exact Dahlquist_keeps_time |]. split; [reflexivity |].
  eexists. split; [vm_compute; reflexivity |].
  eapply (@X3_time_moves_in_three_operations_only _ Dahlquist.model Dahlquist.hooks
            (CallSetReal (Some [Dahlquist.x_]) 1 (Some [2%float]) 1)
            dq_ready _ fmi3OK Dahlquist_keeps_time eq_refl).
  vm_compute. reflexivity.
Defined.

Lemma X4_witness :
  @run _ Values.model Values.hooks (CallDoStep 11%float 1%float false) values_eleven
  = Some (fmi3Discard, values_discarded)
  /\ (fmi3Discard = fmi3OK \/ fmi3Discard = fmi3Error
      \/ (fmi3Discard = fmi3Discard
          /\ may_discard (CallDoStep 11%float 1%float false) = true)).
Proof.
  assert (H : @run _ Values.model Values.hooks (CallDoStep 11%float 1%float false)
                values_eleven = Some (fmi3Discard, values_discarded))
    by (vm_compute; reflexivity).
  split; [exact H |].
  exact (@X4_statuses_an_operation_returns _ Values.model Values.hooks _ _ _ _ H).
Defined.

Lemma X5_witness :
  not_implemented CallCancelStep = true
  /\ exists w',
       @run _ Dahlquist.model Dahlquist.hooks CallCancelStep dq_ready
       = Some (fmi3Error, w')
       /\ List.length (host_log dq_ready) < List.length (host_log w')
       /\ (legal (state (inst dq_ready)) (call_mask CallCancelStep) ->
           inst w' = inst dq_ready).
Proof.
  split; [reflexivity |].
  exact (@X5_operations_that_are_not_implemented _ Dahlquist.model Dahlquist.hooks
           CallCancelStep dq_ready eq_refl).
Defined.

Lemma X6_witness :
  lifecycle_effect CallTerminate = Some (set_state modelTerminated)
  /\ legal (state (inst dq_ready)) (call_mask CallTerminate)
  /\ exists l,
       @run _ Dahlquist.model Dahlquist.hooks CallTerminate dq_ready
       = Some (fmi3OK,
               mkWorld (set_state modelTerminated (inst dq_ready))
                 (host_log dq_ready ++ l) (globals dq_ready)).
Proof.
  assert (Hl : legal (state (inst dq_ready)) (call_mask CallTerminate))
    by (vm_compute; discriminate).
  split; [reflexivity |]. split; [exact Hl |].
  exact (@X6_transitions_without_the_model _ Dahlquist.model Dahlquist.hooks
           CallTerminate _ dq_ready eq_refl Hl).
Defined.

Lemma X7_witness :
  legal (state (inst bb_initialization)) MASK_fmi3ExitInitializationMode
  /\ @fmi3ExitInitializationMode _ BouncingBall.hooks bb_initialization
     = Some (fmi3OK, bb_ready)
  /\ fmi3OK = fmi3OK
  /\ isDirtyValues (inst bb_ready) = false
  /\ match type (inst bb_ready) with
     | fmi3ModelExchange =>
         state (inst bb_ready) = modelEventMode
         /\ isNewEventIteration (inst bb_ready) = true
     | fmi3CoSimulation => state (inst bb_ready) = modelStepComplete
     end
  /\ (isDirtyValues (inst bb_initialization) = false ->
      variables (inst bb_ready) = variables (inst bb_initialization)
      /\ globals bb_ready = globals bb_initialization).
Proof.
  assert (Hl : legal (state (inst bb_initialization)) MASK_fmi3ExitInitializationMode)
    by (vm_compute; discriminate).
  assert (H : @fmi3ExitInitializationMode _ BouncingBall.hooks bb_initialization
              = Some (fmi3OK, bb_ready)) by (vm_compute; reflexivity).
  split; [exact Hl |]. split; [exact H |].
  exact (@X7_exit_initialization_mode _ BouncingBall.hooks _ _ _ Hl H).
Defined.

Lemma X8_witness :
  legal (state (inst dq_error)) MASK_fmi3Reset
  /\ exists w',
       @fmi3Reset _ Dahlquist.hooks dq_error = Some (fmi3OK, w')
       /\ fmi3OK = fmi3OK
       /\ isDirtyValues (inst w') = true
       /\ exists l w1,
            @setStartValues _ Dahlquist.hooks
              (mkWorld (set_state modelInstantiated (inst dq_error))
                 (host_log dq_error ++ l) (globals dq_error))
            = Some (tt, w1)
            /\ w' = mkWorld (set_isDirtyValues fmi3True (inst w1)) (host_log w1)
                      (globals w1).
Proof.
  assert (Hl : legal (state (inst dq_error)) MASK_fmi3Reset)
    by (vm_compute; discriminate).
  split; [exact Hl |].
  eexists. split; [vm_compute; reflexivity |].
  eapply (@X8_reset_reapplies_the_start_values _ Dahlquist.hooks dq_error _ fmi3OK Hl).
  vm_compute. reflexivity.
Defined.

Lemma X11_witness :
  @fmi3Instantiate _ Dahlquist.model Dahlquist.hooks (Some "instanceName")
    fmi3CoSimulation (Some (@MODEL_GUID Dahlquist.model)) (Some "file:///path") callbacks fmi3False
    fmi3False [] tt
  = Some (Some (inst dq_instantiated), host_log dq_instantiated, tt)
  /\ logger callbacks = true
  /\ allocateMemory callbacks = true
  /\ freeMemory callbacks = true
  /\ (exists name, Some "instanceName" = Some name /\ name <> EmptyString)
  /\ Some (@MODEL_GUID Dahlquist.model) = Some (@MODEL_GUID Dahlquist.model)
  /\ isDirtyValues (inst dq_instantiated) = true
  /\ isNewEventIteration (inst dq_instantiated) = false
  /\ eventInfo (inst dq_instantiated) = zero_eventInfo.
Proof.
  assert (H : @fmi3Instantiate _ Dahlquist.model Dahlquist.hooks (Some "instanceName")
                fmi3CoSimulation (Some (@MODEL_GUID Dahlquist.model)) (Some "file:///path") callbacks
                fmi3False fmi3False [] tt
              = Some (Some (inst dq_instantiated), host_log dq_instantiated, tt))
    by (vm_compute; reflexivity).
  split; [exact H |].
  exact (@X11_instantiate_returns_a_component_only_for_a_valid_request
           _ Dahlquist.model Dahlquist.hooks _ _ _ _ _ _ _ _ _ _ _ _ H).
Defined.

Lemma X12_witness :
  (exists guid, Some "{another-guid}" = Some guid /\ guid <> @MODEL_GUID Dahlquist.model)
  /\ exists l,
       @fmi3Instantiate _ Dahlquist.model Dahlquist.hooks (Some "instanceName")
         fmi3CoSimulation (Some "{another-guid}") (Some "file:///path") callbacks
         fmi3False fmi3False [] tt
       = Some (None, [] ++ l, tt)
       /\ (logger callbacks = false -> l = [])
       /\ (logger callbacks = true ->
           exists name message, l = [mkLog name fmi3Error "error" message]).
Proof.
  assert (Hg : exists guid,
             Some "{another-guid}" = Some guid /\ guid <> @MODEL_GUID Dahlquist.model)
    by (eexists; split; [reflexivity | discriminate]).
  split; [exact Hg |].
  exact (@X12_instantiate_refuses_an_invalid_request _ Dahlquist.model Dahlquist.hooks
           (Some "instanceName") (Some "{another-guid}") (Some "file:///path")
           fmi3CoSimulation callbacks fmi3False fmi3False [] tt
           (or_intror (or_intror (or_intror (or_intror (or_intror (or_intror
              (or_intror Hg)))))))).
Defined.

Lemma X13_witness :
  empty_batch (CallGetReal None 0 None 0) = true
  /\ legal (state (inst bb_thrown)) (call_mask (CallGetReal None 0 None 0))
  /\ exists l,
       @run _ BouncingBall.model BouncingBall.hooks (CallGetReal None 0 None 0) bb_thrown
       = Some (fmi3OK,
               mkWorld (inst bb_thrown) (host_log bb_thrown ++ l) (globals bb_thrown)).
Proof.
  assert (Hl : legal (state (inst bb_thrown)) (call_mask (CallGetReal None 0 None 0)))
    by (vm_compute; discriminate).
  split; [reflexivity |]. split; [exact Hl |].
  exact (@X13_get_or_set_of_no_variable _ BouncingBall.model BouncingBall.hooks
           (CallGetReal None 0 None 0) bb_thrown eq_refl Hl).
Defined.

Lemma X14_witness :
  @invalid_argument Dahlquist.model (CallGetContinuousStates (Some [0%float]) 5) = true
  /\ legal (state (inst dq_continuous))
       (call_mask (CallGetContinuousStates (Some [0%float]) 5))
  /\ exists message,
       @run _ Dahlquist.model Dahlquist.hooks
         (CallGetContinuousStates (Some [0%float]) 5) dq_continuous
       = Some (fmi3Error,
               mkWorld (set_state modelError (inst dq_continuous))
                 (host_log dq_continuous
                  ++ [mkLog (instanceName (inst dq_continuous)) fmi3Error "logError"
                        message])
                 (globals dq_continuous)).
Proof.
  assert (Hl : legal (state (inst dq_continuous))
                 (call_mask (CallGetContinuousStates (Some [0%float]) 5)))
    by (vm_compute; discriminate).
  split; [reflexivity |]. split; [exact Hl |].
  exact (@X14_invalid_argument_is_an_error _ Dahlquist.model Dahlquist.hooks
           (CallGetContinuousStates (Some [0%float]) 5) dq_continuous eq_refl Hl).
Defined.

Lemma X15_witness :
  legal (state (inst dq_continuous)) MASK_fmi3GetNominalsOfContinuousStates
  /\ 1 = @NUMBER_OF_STATES Dahlquist.model
  /\ 1 <= List.length [0%float; 7%float]
  /\ exists l,
       @fmi3GetNominalsOfContinuousStates _ Dahlquist.model (Some [0%float; 7%float]) 1
         dq_continuous
       = Some ((fmi3OK, Some (repeat 1%float 1 ++ skipn 1 [0%float; 7%float])),
               mkWorld (inst dq_continuous) (host_log dq_continuous ++ l)
                 (globals dq_continuous)).
Proof.
  assert (Hl : legal (state (inst dq_continuous)) MASK_fmi3GetNominalsOfContinuousStates)
    by (vm_compute; discriminate).
  assert (Hn : 1 <= List.length [0%float; 7%float]) by (cbn; lia).
  split; [exact Hl |]. split; [reflexivity |]. split; [exact Hn |].
  exact (@X15_nominals_are_all_one _ Dahlquist.model [0%float; 7%float] 1 dq_continuous
           Hl eq_refl Hn).
Defined.

Lemma X16_witness :
  legal (state (inst dq_ready)) MASK_fmi3GetRealOutputDerivatives
  /\ 2 <= List.length [3%float; 4%float; 5%float]
  /\ exists l,
       @fmi3GetRealOutputDerivatives _ 2 (Some [3%float; 4%float; 5%float]) dq_ready
       = Some ((fmi3Error,
                Some (repeat 0%float 2 ++ skipn 2 [3%float; 4%float; 5%float])),
               mkWorld (inst dq_ready) (host_log dq_ready ++ l) (globals dq_ready)).
Proof.
  assert (Hl : legal (state (inst dq_ready)) MASK_fmi3GetRealOutputDerivatives)
    by (vm_compute; discriminate).
  assert (Hn : 2 <= List.length [3%float; 4%float; 5%float]) by (cbn; lia).
  split; [exact Hl |]. split; [exact Hn |].
  exact (@X16_output_derivatives_are_zeroed_with_an_error _
           [3%float; 4%float; 5%float] 2 dq_ready Hl Hn).
Defined.

(** ** Runs for the events, the logging and the values *)

Lemma X17_witness :
  @fmi3DoStep _ Values.model Values.hooks 11%float 1%float false values_eleven
  = Some (fmi3Discard, values_discarded)
  /\ state (inst values_discarded) = modelStepFailed
  /\ terminateSimulation (eventInfo (inst values_discarded)) = true
  /\ (forall t h b0,
        @fmi3DoStep _ Values.model Values.hooks t h b0 values_discarded
        = Some (fmi3Error, illegal_call values_discarded))
  /\ exists l,
       @fmi3Terminate unit values_discarded
       = Some (fmi3OK,
               mkWorld (set_state modelTerminated (inst values_discarded))
                 (host_log values_discarded ++ l) (globals values_discarded)).
Proof.
  assert (H : @fmi3DoStep _ Values.model Values.hooks 11%float 1%float false
                values_eleven = Some (fmi3Discard, values_discarded))
    by (vm_compute; reflexivity).
  split; [exact H |].
  exact (@X17_discarded_step_leaves_the_instance_in_step_failed _ Values.model
           Values.hooks _ _ _ _ _ H).
Defined.

Lemma X18_witness :
  legal (state (inst dq_event_mode)) MASK_fmi3NewDiscreteStates
  /\ exists w',
       @fmi3NewDiscreteStates _ Dahlquist.hooks
         (Some (mkEventInfo true true true true true 5%float)) dq_event_mode
       = Some ((fmi3OK, Some zero_eventInfo), w')
       /\ fmi3OK = fmi3OK
       /\ Some zero_eventInfo = Some (eventInfo (inst w'))
       /\ isNewEventIteration (inst w') = false
       /\ exists l w1,
            @eventUpdate _ Dahlquist.hooks
              (if nextEventTimeDefined (eventInfo (inst dq_event_mode))
                  && (nextEventTime (eventInfo (inst dq_event_mode))
                      <=? time (inst dq_event_mode))%float
               then 1 else 0)%Z
              (Z.b2z (isNewEventIteration (inst dq_event_mode)))
              (mkWorld
                 (set_eventInfo
                    (mkEventInfo false false false false
                       (nextEventTimeDefined (eventInfo (inst dq_event_mode)))
                       (nextEventTime (eventInfo (inst dq_event_mode))))
                    (inst dq_event_mode))
                 (host_log dq_event_mode ++ l) (globals dq_event_mode))
            = Some (tt, w1)
            /\ w' = mkWorld (set_isNewEventIteration fmi3False (inst w1)) (host_log w1)
                      (globals w1).
Proof.
  assert (Hl : legal (state (inst dq_event_mode)) MASK_fmi3NewDiscreteStates)
    by (vm_compute; discriminate).
  split; [exact Hl |].
  eexists. split; [vm_compute; reflexivity |].
  eapply (@X18_new_discrete_states _ Dahlquist.hooks
            (mkEventInfo true true true true true 5%float) dq_event_mode _ fmi3OK
            (Some zero_eventInfo) Hl).
  vm_compute. reflexivity.
Defined.

Lemma X19_witness :
  legal (state (inst dq_ready)) MASK_fmi3SetDebugLogging
  /\ List.length (logCategories (inst dq_ready)) = NUMBER_OF_CATEGORIES
  /\ ["logEvent"; "logNothing"; "logAll"] <> []
  /\ categories_selected true ["logEvent"; "logNothing"; "logAll"]
     = [true; false; false; true]
  /\ filter unsupported_category ["logEvent"; "logNothing"; "logAll"] = ["logNothing"]
  /\ exists l,
       @fmi3SetDebugLogging unit true 3 (Some ["logEvent"; "logNothing"; "logAll"])
         dq_ready
       = Some (fmi3OK,
               mkWorld
                 (set_logCategories
                    (categories_selected true ["logEvent"; "logNothing"; "logAll"])
                    (set_loggingOn true (inst dq_ready)))
                 (host_log dq_ready ++ l
                  ++ map (fun _ => unsupported_category_warning (inst dq_ready))
                       (filter unsupported_category
                          ["logEvent"; "logNothing"; "logAll"]))
                 (globals dq_ready)).
Proof.
  assert (Hl : legal (state (inst dq_ready)) MASK_fmi3SetDebugLogging)
    by (vm_compute; discriminate).
  assert (Hne : ["logEvent"; "logNothing"; "logAll"] <> []) by discriminate.
  split; [exact Hl |]. split; [reflexivity |]. split; [exact Hne |].
  split; [reflexivity |]. split; [reflexivity |].
  exact (@X19_debug_logging_selects_the_named_categories unit true
           ["logEvent"; "logNothing"; "logAll"] dq_ready Hl eq_refl Hne).
Defined.

Lemma X20_witness :
  isDirtyValues (inst dq_ready) = false
  /\ (@getReal _ Dahlquist.hooks = @getReal _ dq_other_hooks ->
      forall value,
        @fmi3GetReal _ Dahlquist.model Dahlquist.hooks (Some [Dahlquist.x_]) 1 value 1
          dq_ready
        = @fmi3GetReal _ Dahlquist.model dq_other_hooks (Some [Dahlquist.x_]) 1 value 1
            dq_ready)
  /\ (forall value,
        @fmi3GetInteger _ Dahlquist.model Dahlquist.hooks (Some [Dahlquist.x_]) 1 value 1
          dq_ready
        = @fmi3GetInteger _ Dahlquist.model dq_other_hooks (Some [Dahlquist.x_]) 1 value
            1 dq_ready)
  /\ (forall value,
        @fmi3GetBoolean _ Dahlquist.model Dahlquist.hooks (Some [Dahlquist.x_]) 1 value 1
          dq_ready
        = @fmi3GetBoolean _ Dahlquist.model dq_other_hooks (Some [Dahlquist.x_]) 1 value
            1 dq_ready)
  /\ (forall value,
        @fmi3GetString _ Dahlquist.model Dahlquist.hooks (Some [Dahlquist.x_]) 1 value 1
          dq_ready
        = @fmi3GetString _ Dahlquist.model dq_other_hooks (Some [Dahlquist.x_]) 1 value 1
            dq_ready).
Proof.
  split; [reflexivity |].
  exact (@X20_get_of_clean_values_does_not_recompute _ Dahlquist.model Dahlquist.hooks
           dq_other_hooks (Some [Dahlquist.x_]) 1 1 dq_ready eq_refl).
Defined.

Lemma X21_witness :
  (forall vr, keeps isDirtyValues (@getReal _ BouncingBall.hooks vr))
  /\ isDirtyValues (inst bb_thrown) = true
  /\ exists w',
       @run _ BouncingBall.model BouncingBall.hooks
         (CallGetReal (Some [BouncingBall.v_; 9%N]) 2 (Some [0%float; 0%float]) 2)
         bb_thrown = Some (fmi3Error, w')
       /\ isDirtyValues (inst w') = false.
Proof.
  assert (Hr : forall vr, keeps isDirtyValues (@getReal _ BouncingBall.hooks vr))
    by (destruct BouncingBall_keeps_dirty as (_ & _ & Hr & _); exact Hr).
  assert (Hl : legal (state (inst bb_thrown))
                 (call_mask (CallGetReal (Some [BouncingBall.v_; 9%N]) 2
                               (Some [0%float; 0%float]) 2)))
    by (vm_compute; discriminate).
  split; [exact Hr |]. split; [reflexivity |].
  eexists. split; [vm_compute; reflexivity |].
  eapply (@X21_get_leaves_the_values_clean _ BouncingBall.model BouncingBall.hooks
            (CallGetReal (Some [BouncingBall.v_; 9%N]) 2 (Some [0%float; 0%float]) 2)
            bb_thrown _ fmi3Error Hr eq_refl eq_refl eq_refl Hl).
  vm_compute. reflexivity.
Defined.

Lemma X22_witness :
  exists w1 w2,
    @fmi3SetInteger _ Values.model (Some [Values.int_in_]) 1 (Some [41%Z]) 1 values_ready
    = Some (fmi3OK, w1)
    /\ @fmi3GetInteger _ Values.model Values.hooks (Some [Values.int_in_]) 1
         (Some [0%Z]) 1 w1
       = Some ((fmi3OK, Some [41%Z]), w2)
    /\ isDirtyValues (inst w1) = true
    /\ isDirtyValues (inst w2) = false.
Proof.
  apply (@X22_set_integer_then_get_integer _ Values.model Values.hooks
           Values.int_in_ [41%Z] [0%Z] [CInt 2%Z] 1 1 values_ready).
  - vm_compute. discriminate.
  - vm_compute. discriminate.
  - reflexivity.
  - reflexivity.
  - reflexivity.
  - reflexivity.
  - reflexivity.
  - reflexivity.
  - intros w1 H. vm_compute in H. injection H as <-.
    eexists. split; vm_compute; reflexivity.
Defined.

Lemma X23_witness :
  legal (state (inst values_discarded)) MASK_fmi3GetStatus
  /\ (forall value,
        @fmi3GetRealStatus unit fmi3LastSuccessfulTime (Some value) values_discarded
        = Some ((fmi3OK, Some (time (inst values_discarded))), values_discarded))
  /\ (forall value,
        @fmi3GetBooleanStatus unit fmi3Terminated (Some value) values_discarded
        = Some ((fmi3OK, Some (terminateSimulation (eventInfo (inst values_discarded)))),
                values_discarded))
  /\ (forall fname s status w',
        @getStatus unit fname s values_discarded = Some (status, w') ->
        status = fmi3Discard
        /\ inst w' = inst values_discarded
        /\ exists l message,
             host_log w'
             = host_log values_discarded ++ l
               ++ [mkLog (instanceName (inst values_discarded)) fmi3Error "logError"
                     message]).
Proof.
  assert (Hl : legal (state (inst values_discarded)) MASK_fmi3GetStatus)
    by (vm_compute; discriminate).
  split; [exact Hl |].
  exact (@X23_status_inquiries unit values_discarded Hl).
Defined.

Lemma X24_witness :
  hooks_respect BouncingBall.hooks no_termination_request
  /\ terminateSimulation (eventInfo (inst bb_ready)) = false
  /\ @fmi3DoStep _ BouncingBall.model BouncingBall.hooks 0%float 1%float false bb_ready
     = Some (fmi3OK, bb_stepped)
  /\ fmi3OK <> fmi3Discard
  /\ terminateSimulation (eventInfo (inst bb_stepped)) = false.
Proof.
  assert (H : @fmi3DoStep _ BouncingBall.model BouncingBall.hooks 0%float 1%float false
                bb_ready = Some (fmi3OK, bb_stepped)) by (vm_compute; reflexivity).
  split; [exact BouncingBall_no_termination_request |]. split; [reflexivity |].
  split; [exact H |].
  exact (@X24_step_is_discarded_at_the_request_of_the_model_only _ BouncingBall.model
           BouncingBall.hooks 0%float 1%float false bb_ready bb_stepped fmi3OK
           BouncingBall_no_termination_request eq_refl H).
Defined.

Lemma X26_witness :
  variables (inst values_eleven)
  = [[CReal 9.2613871309978688e-06%float]; [CReal (-1.0290430145553187e-05)%float];
     [CInt 2%Z]; [CInt 11%Z]; [CBool true]; [CBool true]; [CStr None]; [CStr None]]
  /\ legal (state (inst values_eleven)) MASK_fmi3SetString
  /\ 1%Z <> 0%Z
  /\ (-1 <= 11 < 2147483647)%Z
  /\ exists w',
       Values.eventUpdate 1 1 values_eleven = Some (tt, w')
       /\ variables (inst w')
          = [[CReal 9.2613871309978688e-06%float];
             [CReal (-1.0290430145553187e-05)%float];
             [CInt 2%Z]; [CInt (11 + 1)%Z]; [CBool true]; [CBool (negb true)];
             [CStr None]; [CStr None]]
       /\ nextEventTimeDefined (eventInfo (inst w')) = true
       /\ nextEventTime (eventInfo (inst w')) = (1 + time (inst values_eleven))%float
       /\ terminateSimulation (eventInfo (inst w'))
          = (12 <=? 11 + 1)%Z || terminateSimulation (eventInfo (inst values_eleven))
       /\ isDirtyValues (inst w')
          = (11 + 1 <? 12)%Z || isDirtyValues (inst values_eleven)
       /\ state (inst w') = state (inst values_eleven)
       /\ time (inst w') = time (inst values_eleven).
Proof.
  assert (Hl : legal (state (inst values_eleven)) MASK_fmi3SetString)
    by (vm_compute; discriminate).
  assert (Hte : 1%Z <> 0%Z) by discriminate.
  assert (Hn : (-1 <= 11 < 2147483647)%Z) by lia.
  split; [reflexivity |]. split; [exact Hl |]. split; [exact Hte |]. split; [exact Hn |].
  exact (@X26_values_time_event _ _ 2%Z 11%Z true true None None 1%Z 1%Z values_eleven
           eq_refl Hl Hte Hn).
Defined.

Lemma X27_witness :
  variables (inst bb_ready)
  = [[CReal 1%float]; [CReal 0%float]; [CReal 0%float]; [CReal (-9.81)%float];
     [CReal 9.81%float]; [CReal 0.7%float]]
  /\ isPositive (inst bb_ready) = [true]
  /\ exists w',
       BouncingBall.eventUpdate 0 1 bb_ready = Some (tt, w')
       /\ globals w' = 0%float
       /\ isPositive (inst w') = [true]
       /\ variables (inst w') = variables (inst bb_ready)
       /\ terminateSimulation (eventInfo (inst w')) = false
       /\ nextEventTimeDefined (eventInfo (inst w')) = false.
Proof.
  split; [reflexivity |]. split; [reflexivity |].
  destruct (@X27_bouncing_ball_event 1%float 0%float 0%float (-9.81)%float 9.81%float
              0.7%float true 0%Z 1%Z bb_ready eq_refl eq_refl)
    as (w' & E & Hg & Hp & Hv & _ & Ht & Hn & _).
  exists w'. split; [exact E |]. split; [exact Hg |]. split; [exact Hp |].
  split; [exact Hv |]. split; [exact Ht | exact Hn].
Defined.

Lemma X28_witness :
  variables (inst dq_continuous) = [[CReal 1%float]; [CReal 0%float]; [CReal 1%float]]
  /\ legal (state (inst dq_continuous)) MASK_fmi3GetDerivatives
  /\ exists l,
       @fmi3GetDerivatives unit Dahlquist.model Dahlquist.hooks (Some [0%float]) 1
         dq_continuous
       = Some ((fmi3OK, Some [(- 1 * 1)%float]),
               mkWorld
                 (set_variables
                    [[CReal 1%float]; [CReal (- 1 * 1)%float]; [CReal 1%float]]
                    (inst dq_continuous))
                 (host_log dq_continuous ++ l) (globals dq_continuous)).
Proof.
  assert (Hl : legal (state (inst dq_continuous)) MASK_fmi3GetDerivatives)
    by (vm_compute; discriminate).
  split; [reflexivity |]. split; [exact Hl |].
  exact (@X28_dahlquist_derivative 1%float 0%float 1%float 0%float dq_continuous
           eq_refl Hl).
Defined.

Lemma X29_witness :
  variables (inst bb_initialization)
  = [[CReal 1%float]; [CReal 0%float]; [CReal 0%float]; [CReal 0%float];
     [CReal 9.81%float]; [CReal 0.7%float]]
  /\ isPositive (inst bb_initialization) = [false]
  /\ legal (state (inst bb_initialization)) MASK_fmi3GetContinuousStates
  /\ legal (state (inst bb_initialization)) MASK_fmi3GetEventIndicators
  /\ (exists l,
        @fmi3GetContinuousStates _ BouncingBall.model BouncingBall.hooks
          (Some [7%float; 7%float]) 2 bb_initialization
        = Some ((fmi3OK, Some [1%float; 0%float]),
                mkWorld (inst bb_initialization) (host_log bb_initialization ++ l)
                  (globals bb_initialization)))
  /\ exists l,
       @fmi3GetEventIndicators _ BouncingBall.model BouncingBall.hooks (Some [7%float]) 1
         bb_initialization
       = Some ((fmi3OK, Some [(1 + - BouncingBall.EPS_INDICATORS)%float]),
               mkWorld (inst bb_initialization) (host_log bb_initialization ++ l)
                 (globals bb_initialization)).
Proof.
  assert (Hs : legal (state (inst bb_initialization)) MASK_fmi3GetContinuousStates)
    by (vm_compute; discriminate).
  assert (Hl : legal (state (inst bb_initialization)) MASK_fmi3GetEventIndicators)
    by (vm_compute; discriminate).
  split; [reflexivity |]. split; [reflexivity |]. split; [exact Hs |].
  split; [exact Hl |].
  destruct (@X29_bouncing_ball_states_derivatives_and_indicator
              1%float 0%float 0%float 0%float 9.81%float 0.7%float 7%float 7%float
              false bb_initialization eq_refl eq_refl) as (H1 & _ & H3).
  split; [exact (H1 Hs) | exact (H3 Hl)].
Defined.

Lemma X30_witness :
  legal (state (inst lt_ready)) MASK_fmi3SetReal
  /\ nth 0 (@s_variableSizes LinearTransform.model) 0 = 3
  /\ nth_error (variables (inst lt_ready)) (N.to_nat LinearTransform.T_)
     = Some (map CReal [0; 0; -1; 0; -1; 0; -1; 0; 0]%float)
  /\ exists l,
       @fmi3SetReal _ LinearTransform.model (Some [LinearTransform.T_]) 1
         (Some [1; 2; 3; 4; 5; 6; 7; 8; 9]%float) 9 lt_ready
       = Some (fmi3OK,
               mkWorld
                 (set_isDirtyValues fmi3True
                    (set_variables
                       (upd (N.to_nat LinearTransform.T_)
                          (map CReal [1; 2; 3; 0; -1; 0; -1; 0; 0]%float)
                          (variables (inst lt_ready)))
                       (inst lt_ready)))
                 (host_log lt_ready ++ l) (globals lt_ready)).
Proof.
  assert (Hl : legal (state (inst lt_ready)) MASK_fmi3SetReal)
    by (vm_compute; discriminate).
  split; [exact Hl |]. split; [reflexivity |]. split; [reflexivity |].
  refine (@X30_set_real_transfers_the_size_of_the_batch_position _ LinearTransform.model
            LinearTransform.T_ [1; 2; 3; 4; 5; 6; 7; 8; 9]%float
            (map CReal [0; 0; -1; 0; -1; 0; -1; 0; 0]%float) 9 lt_ready
            Hl eq_refl eq_refl eq_refl _ _); cbn; lia.
Defined.

End Runs.
